(** * MioVo local bridge: the message router of [server.js]

    A shallow embedding of the WebSocket bridge server: the JavaScript values
    it reads from parsed frames, the handlers of the [switch] on
    [request.type], the timers they start, the status broadcaster and the
    SIGINT handler.  Every call the server makes on one of its collaborators
    ([ws.send], [ws.close], [axios], [fs.writeFile], ...) is appended to a
    trace, in the order of the source, so that statements about replies,
    pushes and their order are statements about that trace.

    Conventions.
    - JavaScript numbers are idealised as exact rationals, with NaN and the
      two infinities beside them ([VNonFinite]); the sign of a zero is not
      kept, so a division by zero is taken as a division by +0.
    - Strings are byte strings (UTF-8), as Rocq's [string].
    - What belongs to the JavaScript engine or to Node rather than to the
      repository (the digits of a number, the number a string stands for,
      [path.join], [uuidv4], the wording of engine errors, ...) is a field
      of [Runtime]; what the outside world answers (the backends, the clock,
      the file system) is a field of [World].  Theorems quantify over both.
    - The requests are values that came out of [JSON.parse]: none of their
      properties is callable.  Converting such a value to a string or to a
      number throws a TypeError exactly when an object with a property
      [toString] of its own has to be converted ([string_of], [number_of]).
    - A message handed to [ws.send(JSON.stringify(o))] is recorded as the
      object [o].  [JSON.stringify] omits the fields whose value is
      [undefined], so a message carries a field on the wire exactly when
      reading it from [o] does not give [VUndefined].
    - The handler of a message, the status check of the 5 s timer and the
      SIGINT handler are each run to completion as one step: what they do
      after an [await] is taken to follow at once.  The call of
      [updateServiceStatus] that the connection handler does not await is
      followed [await] by [await]: it runs to its first [await] inside the
      connection step and goes on in later steps, other steps running in
      between.
    - An exception that leaves a timer callback is uncaught and ends the
      process.
    - [ws.send] and [ws.close] are recorded as calls and do not throw, as
      the ws library behaves for a socket that has been open and for a call
      without callback.  [console.log] writes to no collaborator and is
      left out, but for the template literal of line 372, which converts
      [method] to a string and can throw. *)

From Stdlib Require Import ZArith QArith List String Ascii Bool Lia.
Import ListNotations.
Local Open Scope string_scope.
Local Open Scope Z_scope.

(** ** JavaScript values *)

Inductive nonfinite : Type := NaN | PosInfinity | NegInfinity.

(** A number as ToNumber gives it. *)
Inductive number : Type :=
| Finite (q : Q)
| NonFinite (k : nonfinite).

#[warnings="-register-all"]
Inductive value : Type :=
| VUndefined
| VNull
| VBool (b : bool)
| VNum (q : Q)
| VNonFinite (k : nonfinite)
| VStr (s : string)
| VBuffer (bytes : string)
| VArr (items : list value)
| VObj (fields : list (string * value)).

Definition num (z : Z) : value := VNum (inject_Z z).

(** The fields of an object are kept in order; [JSON.parse] leaves one entry
    per key, so which of two entries with the same key is found is immaterial
    for parsed requests. *)
Fixpoint lookup (k : string) (fields : list (string * value)) : value :=
  match fields with
  | [] => VUndefined
  | (k', v) :: rest => if String.eqb k k' then v else lookup k rest
  end.

(** Whether an object has an own property [k]. *)
Fixpoint has_field (k : string) (fields : list (string * value)) : bool :=
  match fields with
  | [] => false
  | (k', _) :: rest => if String.eqb k k' then true else has_field k rest
  end.

(** [o.k] for an [o] that is neither [undefined] nor [null].  None of the
    keys the server reads is a member of a built-in prototype, so reading
    them from a primitive, an array or a buffer gives [undefined]. *)
Definition get (o : value) (k : string) : value :=
  match o with
  | VObj fields => lookup k fields
  | _ => VUndefined
  end.

Definition nullish (v : value) : bool :=
  match v with
  | VUndefined | VNull => true
  | _ => false
  end.

(** ToBoolean. *)
Definition truthy (v : value) : bool :=
  match v with
  | VUndefined | VNull => false
  | VBool b => b
  | VNum q => negb (Qeq_bool q 0)
  | VNonFinite NaN => false
  | VNonFinite _ => true
  | VStr s => negb (String.eqb s "")
  | VBuffer _ | VArr _ | VObj _ => true
  end.

(** [a || b] *)
Definition js_or (a b : value) : value := if truthy a then a else b.

(** ** Strings *)

Fixpoint prefixb (p s : string) : bool :=
  match p, s with
  | EmptyString, _ => true
  | String c p', String d s' => if Ascii.eqb c d then prefixb p' s' else false
  | String _ _, EmptyString => false
  end.

(** [s.includes(p)] on strings. *)
Fixpoint str_includes (p s : string) : bool :=
  if prefixb p s then true
  else match s with
       | EmptyString => false
       | String _ s' => str_includes p s'
       end.

(** [s.split(',')]: the segments between commas, never an empty list. *)
Fixpoint split_comma (s : string) : list string :=
  match s with
  | EmptyString => [EmptyString]
  | String c s' =>
      if Ascii.eqb c ","%char then EmptyString :: split_comma s'
      else match split_comma s' with
           | [] => [String c EmptyString]
           | seg :: segs => String c seg :: segs
           end
  end.

Fixpoint has_comma (s : string) : bool :=
  match s with
  | EmptyString => false
  | String c s' => if Ascii.eqb c ","%char then true else has_comma s'
  end.

(** ** Base64

    [Buffer.from(s, 'base64')] and [buf.toString('base64')] are Node's.  The
    encoder is the standard one with padding.  The decoder is lenient, as
    Node's is: it accepts the URL-safe alphabet too, skips any other
    character, stops at the first [=], and drops a dangling sextet. *)

Module Base64.

(** A sextet is kept in the low six bits of a byte (least significant
    bit first, as in [Ascii]). *)
Definition sextet (b0 b1 b2 b3 b4 b5 : bool) : ascii :=
  Ascii b0 b1 b2 b3 b4 b5 false false.

Definition char_of_sextet (x : ascii) : ascii :=
  let n := N_of_ascii x in
  if (n <? 26)%N then ascii_of_N (n + 65)
  else if (n <? 52)%N then ascii_of_N (n + 71)
  else if (n <? 62)%N then ascii_of_N (n - 4)
  else if (n =? 62)%N then "+"%char
  else "/"%char.

Definition sextet_of_char (c : ascii) : option ascii :=
  let n := N_of_ascii c in
  if ((65 <=? n) && (n <=? 90))%N then Some (ascii_of_N (n - 65))
  else if ((97 <=? n) && (n <=? 122))%N then Some (ascii_of_N (n - 71))
  else if ((48 <=? n) && (n <=? 57))%N then Some (ascii_of_N (n + 4))
  else if ((n =? 43) || (n =? 45))%N then Some (ascii_of_N 62)
  else if ((n =? 47) || (n =? 95))%N then Some (ascii_of_N 63)
  else None.

(** The four sextets of three bytes [a b c]. *)
Definition enc1 (a : ascii) : ascii :=
  let '(Ascii _ _ a2 a3 a4 a5 a6 a7) := a in sextet a2 a3 a4 a5 a6 a7.
Definition enc2 (a b : ascii) : ascii :=
  let '(Ascii a0 a1 _ _ _ _ _ _) := a in
  let '(Ascii _ _ _ _ b4 b5 b6 b7) := b in sextet b4 b5 b6 b7 a0 a1.
Definition enc3 (b c : ascii) : ascii :=
  let '(Ascii b0 b1 b2 b3 _ _ _ _) := b in
  let '(Ascii _ _ _ _ _ _ c6 c7) := c in sextet c6 c7 b0 b1 b2 b3.
Definition enc4 (c : ascii) : ascii :=
  let '(Ascii c0 c1 c2 c3 c4 c5 _ _) := c in sextet c0 c1 c2 c3 c4 c5.

(** The three bytes of four sextets [x1 x2 x3 x4]. *)
Definition dec1 (x1 x2 : ascii) : ascii :=
  let '(Ascii p0 p1 p2 p3 p4 p5 _ _) := x1 in
  let '(Ascii _ _ _ _ q4 q5 _ _) := x2 in Ascii q4 q5 p0 p1 p2 p3 p4 p5.
Definition dec2 (x2 x3 : ascii) : ascii :=
  let '(Ascii q0 q1 q2 q3 _ _ _ _) := x2 in
  let '(Ascii _ _ r2 r3 r4 r5 _ _) := x3 in Ascii r2 r3 r4 r5 q0 q1 q2 q3.
Definition dec3 (x3 x4 : ascii) : ascii :=
  let '(Ascii r0 r1 _ _ _ _ _ _) := x3 in
  let '(Ascii t0 t1 t2 t3 t4 t5 _ _) := x4 in Ascii t0 t1 t2 t3 t4 t5 r0 r1.

Fixpoint sextets_of_bytes (s : string) : list ascii :=
  match s with
  | String a (String b (String c rest)) =>
      enc1 a :: enc2 a b :: enc3 b c :: enc4 c :: sextets_of_bytes rest
  | String a (String b EmptyString) => [enc1 a; enc2 a b; enc3 b zero]
  | String a EmptyString => [enc1 a; enc2 a zero]
  | EmptyString => []
  end.

Fixpoint padding (s : string) : string :=
  match s with
  | String _ (String _ (String _ rest)) => padding rest
  | String _ (String _ EmptyString) => "="
  | String _ EmptyString => "=="
  | EmptyString => ""
  end.

Definition encode (bytes : string) : string :=
  string_of_list_ascii (map char_of_sextet (sextets_of_bytes bytes))
    ++ padding bytes.

Fixpoint sextets_of_text (s : string) : list ascii :=
  match s with
  | EmptyString => []
  | String c s' =>
      if Ascii.eqb c "="%char then []
      else match sextet_of_char c with
           | Some x => x :: sextets_of_text s'
           | None => sextets_of_text s'
           end
  end.

Fixpoint bytes_of_sextets (l : list ascii) : string :=
  match l with
  | x1 :: x2 :: x3 :: x4 :: rest =>
      String (dec1 x1 x2) (String (dec2 x2 x3) (String (dec3 x3 x4)
        (bytes_of_sextets rest)))
  | [x1; x2; x3] => String (dec1 x1 x2) (String (dec2 x2 x3) EmptyString)
  | [x1; x2] => String (dec1 x1 x2) EmptyString
  | _ => EmptyString
  end.

Definition decode (text : string) : string :=
  bytes_of_sextets (sextets_of_text text).

(** Lists of sextets, as the encoder produces them. *)
Inductive sextets : list ascii -> Prop :=
| sextets_nil : sextets []
| sextets_cons b0 b1 b2 b3 b4 b5 l :
    sextets l -> sextets (sextet b0 b1 b2 b3 b4 b5 :: l).

End Base64.

(** ** What the engine and Node provide *)

Record Runtime : Type := {
  (** [Number.prototype.toString] of a finite number *)
  Number_toString : Q -> string;
  (** [Buffer.prototype.toString] *)
  Buffer_toString : string -> string;
  (** StringToNumber *)
  StringToNumber : string -> number;
  (** [String.prototype.toUpperCase] *)
  toUpperCase : string -> string;
  (** [Object.assign(target, source)] when the two are not both plain
      objects and [target] is not nullish: the value of the variable that
      held [target] afterwards, or [None] when the call throws *)
  Object_assign_exotic : value -> value -> option value;
  (** [Buffer.from(v)] for a [v] that is not a buffer; [None] when it throws *)
  Buffer_from_exotic : value -> option string;
  (** [path.join] *)
  path_join : list string -> string;
  (** the result of the n-th call of [uuidv4] *)
  uuidv4 : nat -> string;
  (** the wording of the engine's TypeError at a given expression *)
  engine_message : string -> string;
  __dirname : string;
  (** [process.env.PORT], [process.env.VOICEVOX_URL], [process.env.RVC_URL] *)
  env_PORT : option string;
  env_VOICEVOX_URL : option string;
  env_RVC_URL : option string
}.

(** ToString; [None] when it throws a TypeError.  A value that came out of
    [JSON.parse] has no callable property of its own, so the conversion of
    an object throws exactly when the object has an own property
    [toString], and otherwise gives the string of [Object.prototype]; an
    array is joined with commas, its [null] and [undefined] elements giving
    the empty string. *)
Fixpoint string_of (rt : Runtime) (v : value) : option string :=
  match v with
  | VUndefined => Some "undefined"
  | VNull => Some "null"
  | VBool b => Some (if b then "true" else "false")
  | VNum q => Some (Number_toString rt q)
  | VNonFinite NaN => Some "NaN"
  | VNonFinite PosInfinity => Some "Infinity"
  | VNonFinite NegInfinity => Some "-Infinity"
  | VStr s => Some s
  | VBuffer bytes => Some (Buffer_toString rt bytes)
  | VArr items =>
      option_map (String.concat ",")
        ((fix elements (l : list value) : option (list string) :=
            match l with
            | [] => Some []
            | x :: rest =>
                match match x with
                      | VUndefined | VNull => Some ""
                      | _ => string_of rt x
                      end with
                | Some sx =>
                    match elements rest with
                    | Some srest => Some (sx :: srest)
                    | None => None
                    end
                | None => None
                end
            end) items)
  | VObj fields =>
      if has_field "toString" fields then None else Some "[object Object]"
  end.

(** The string of a value whose conversion has succeeded. *)
Definition text_of (rt : Runtime) (v : value) : string :=
  match string_of rt v with
  | Some s => s
  | None => ""
  end.

(** ToNumber; [None] when it throws a TypeError.  An object is converted
    through its string, which is not numeric for a plain object. *)
Definition number_of (rt : Runtime) (v : value) : option number :=
  match v with
  | VUndefined => Some (NonFinite NaN)
  | VNull => Some (Finite 0)
  | VBool b => Some (Finite (if b then 1 else 0))
  | VNum q => Some (Finite q)
  | VNonFinite k => Some (NonFinite k)
  | VStr s => Some (StringToNumber rt s)
  | VBuffer _ | VArr _ => option_map (StringToNumber rt) (string_of rt v)
  | VObj fields =>
      if has_field "toString" fields then None else Some (NonFinite NaN)
  end.

(** [process.env.X || fallback] *)
Definition env_or (x : option string) (fallback : string) : string :=
  match x with
  | Some s => if String.eqb s "" then fallback else s
  | None => fallback
  end.

(** Configuration (lines 21-23). *)
Definition PORT (rt : Runtime) : value :=
  match env_PORT rt with
  | Some s => if String.eqb s "" then num 8080 else VStr s
  | None => num 8080
  end.
Definition VOICEVOX_URL (rt : Runtime) : string :=
  env_or (env_VOICEVOX_URL rt) "http://localhost:50021".
Definition RVC_URL (rt : Runtime) : string :=
  env_or (env_RVC_URL rt) "http://localhost:10102".

(** ** HTTP, errors and the outside world *)

Record AxiosConfig : Type := {
  cfg_method : string;
  cfg_url : string;
  cfg_params : value;
  cfg_data : value;
  cfg_responseType : value;
  cfg_timeout : value
}.

Record Response : Type := {
  resp_status : Z;
  resp_statusText : string;
  resp_headers : value;
  resp_data : value
}.

Inductive exn : Type :=
| TypeError (message : string)
| SyntaxError (message : string)
| SystemError (message : string)
| AxiosError (message : string) (response : option Response).

Definition message (e : exn) : string :=
  match e with
  | TypeError m | SyntaxError m | SystemError m | AxiosError m _ => m
  end.

Definition response (e : exn) : option Response :=
  match e with
  | AxiosError _ r => r
  | _ => None
  end.

Inductive settled (A : Type) : Type :=
| Resolved (a : A)
| Rejected (e : exn).
Arguments Resolved {A} a.
Arguments Rejected {A} e.

Record World : Type := {
  (** the backends' answer to a request *)
  axios : AxiosConfig -> settled Response;
  (** [Date.now()] and [new Date().toISOString()] *)
  Date_now : Z;
  Date_toISOString : string;
  (** [Math.random()] *)
  Math_random : Q;
  (** [fs.writeFile(path, _)]: the error it rejects with, if any *)
  fs_writeFile : string -> option exn;
  (** [fs.rm(path, _)]: the error it rejects with, if any *)
  fs_rm : string -> option exn
}.

(** A frame as [JSON.parse(message.toString())] sees it. *)
Inductive frame : Type :=
| Malformed (syntax_error : string)
| Parsed (request : value).

(** ** Server state and trace *)

(** What the server does to its collaborators, and the end of the process:
    by [process.exit], or by an exception that nothing caught. *)
Inductive event : Type :=
| Send (ws : nat) (msg : value)
| Close (ws : nat)
| Http (config : AxiosConfig)
| WriteFile (path content : string)
| Rm (path : string)
| WssClose
| ServerClose
| Exit (code : Z)
| Uncaught (error : exn).

(** The closure of the [setInterval] callback of a training job. *)
Record TrainingJob : Type := {
  job_ws : nat;
  job_modelId : string;
  job_modelName : value;
  job_epochs : value;
  currentEpoch : Z
}.

(** The closure of the [setTimeout] callback of an upload. *)
Record UploadJob : Type := {
  up_ws : nat;
  up_fileName : value
}.

(** A call of [updateServiceStatus] that its caller did not await (line
    117), by the [await] it is suspended at: the probe of the synthesis
    backend (line 79), or the probe of the conversion backend (line 80),
    the result of the first being known. *)
Inductive StatusTask : Type :=
| AwaitsVoicevox
| AwaitsRvc (voicevoxStatus : bool).

Record State : Type := {
  (** [clients]: a Map from client id to socket, in insertion order *)
  clients : list (string * nat);
  (** [readyState] of every socket *)
  readyState : nat -> Z;
  (** the files written so far, latest first *)
  files : list (string * string);
  (** how many times [uuidv4] was called *)
  uuids : nat;
  (** how many timers were created *)
  timers : nat;
  (** the live intervals and timeouts, by handle *)
  intervals : list (nat * TrainingJob);
  timeouts : list (nat * UploadJob);
  trace : list event;
  exited : bool;
  (** the unawaited calls of [updateServiceStatus] that are under way *)
  pending_status : list StatusTask
}.

Definition OPEN : Z := 1.
Definition CLOSING : Z := 2.
Definition CLOSED : Z := 3.

Definition initial : State :=
  {| clients := []; readyState := fun _ => CLOSED; files := []; uuids := 0%nat;
     timers := 0%nat; intervals := []; timeouts := []; trace := [];
     exited := false; pending_status := [] |}.

Definition with_clients (c : list (string * nat)) (s : State) : State :=
  {| clients := c; readyState := readyState s; files := files s;
     uuids := uuids s; timers := timers s; intervals := intervals s;
     timeouts := timeouts s; trace := trace s; exited := exited s;
     pending_status := pending_status s |}.

Definition with_readyState (r : nat -> Z) (s : State) : State :=
  {| clients := clients s; readyState := r; files := files s;
     uuids := uuids s; timers := timers s; intervals := intervals s;
     timeouts := timeouts s; trace := trace s; exited := exited s;
     pending_status := pending_status s |}.

Definition with_files (f : list (string * string)) (s : State) : State :=
  {| clients := clients s; readyState := readyState s; files := f;
     uuids := uuids s; timers := timers s; intervals := intervals s;
     timeouts := timeouts s; trace := trace s; exited := exited s;
     pending_status := pending_status s |}.

Definition with_uuids (n : nat) (s : State) : State :=
  {| clients := clients s; readyState := readyState s; files := files s;
     uuids := n; timers := timers s; intervals := intervals s;
     timeouts := timeouts s; trace := trace s; exited := exited s;
     pending_status := pending_status s |}.

Definition with_timers (n : nat) (s : State) : State :=
  {| clients := clients s; readyState := readyState s; files := files s;
     uuids := uuids s; timers := n; intervals := intervals s;
     timeouts := timeouts s; trace := trace s; exited := exited s;
     pending_status := pending_status s |}.

Definition with_intervals (i : list (nat * TrainingJob)) (s : State) : State :=
  {| clients := clients s; readyState := readyState s; files := files s;
     uuids := uuids s; timers := timers s; intervals := i;
     timeouts := timeouts s; trace := trace s; exited := exited s;
     pending_status := pending_status s |}.

Definition with_timeouts (t : list (nat * UploadJob)) (s : State) : State :=
  {| clients := clients s; readyState := readyState s; files := files s;
     uuids := uuids s; timers := timers s; intervals := intervals s;
     timeouts := t; trace := trace s; exited := exited s;
     pending_status := pending_status s |}.

Definition with_trace (t : list event) (s : State) : State :=
  {| clients := clients s; readyState := readyState s; files := files s;
     uuids := uuids s; timers := timers s; intervals := intervals s;
     timeouts := timeouts s; trace := t; exited := exited s;
     pending_status := pending_status s |}.

Definition with_exited (b : bool) (s : State) : State :=
  {| clients := clients s; readyState := readyState s; files := files s;
     uuids := uuids s; timers := timers s; intervals := intervals s;
     timeouts := timeouts s; trace := trace s; exited := b;
     pending_status := pending_status s |}.

Definition with_pending_status (p : list StatusTask) (s : State) : State :=
  {| clients := clients s; readyState := readyState s; files := files s;
     uuids := uuids s; timers := timers s; intervals := intervals s;
     timeouts := timeouts s; trace := trace s; exited := exited s;
     pending_status := p |}.

Fixpoint assoc {A : Type} (h : nat) (l : list (nat * A)) : option A :=
  match l with
  | [] => None
  | (h', a) :: rest => if Nat.eqb h h' then Some a else assoc h rest
  end.

Fixpoint remove_assoc {A : Type} (h : nat) (l : list (nat * A)) : list (nat * A) :=
  match l with
  | [] => []
  | (h', a) :: rest =>
      if Nat.eqb h h' then remove_assoc h rest else (h', a) :: remove_assoc h rest
  end.

Fixpoint read_file (path : string) (fs : list (string * string)) : option string :=
  match fs with
  | [] => None
  | (p, content) :: rest => if String.eqb path p then Some content else read_file path rest
  end.

Fixpoint replace_nth {A : Type} (k : nat) (a : A) (l : list A) : list A :=
  match l, k with
  | [], _ => []
  | _ :: rest, O => a :: rest
  | x :: rest, S k' => x :: replace_nth k' a rest
  end.

Fixpoint remove_nth {A : Type} (k : nat) (l : list A) : list A :=
  match l, k with
  | [], _ => []
  | _ :: rest, O => rest
  | x :: rest, S k' => x :: remove_nth k' rest
  end.

(** [Map.prototype.set]: an existing key keeps its place. *)
Fixpoint map_set (k : string) (ws : nat) (m : list (string * nat)) : list (string * nat) :=
  match m with
  | [] => [(k, ws)]
  | (k', ws') :: rest =>
      if String.eqb k k' then (k, ws) :: rest else (k', ws') :: map_set k ws rest
  end.

(** [Map.prototype.delete] *)
Fixpoint map_delete (k : string) (m : list (string * nat)) : list (string * nat) :=
  match m with
  | [] => []
  | (k', ws') :: rest =>
      if String.eqb k k' then rest else (k', ws') :: map_delete k rest
  end.

(** ** The monad of handlers: state, and completion by return or throw *)

Inductive completion (A : Type) : Type :=
| Normal (a : A)
| Throw (e : exn).
Arguments Normal {A} a.
Arguments Throw {A} e.

Definition M (A : Type) : Type := State -> completion A * State.

Definition ret {A : Type} (a : A) : M A := fun s => (Normal a, s).

Definition bind {A B : Type} (m : M A) (k : A -> M B) : M B :=
  fun s =>
    match m s with
    | (Normal a, s') => k a s'
    | (Throw e, s') => (Throw e, s')
    end.

Definition throw {A : Type} (e : exn) : M A := fun s => (Throw e, s).

Definition try_catch {A : Type} (body : M A) (handler : exn -> M A) : M A :=
  fun s =>
    match body s with
    | (Normal a, s') => (Normal a, s')
    | (Throw e, s') => handler e s'
    end.

Declare Scope js_scope.
Delimit Scope js_scope with js.
Notation "x <- m ;; k" := (bind m (fun x => k))
  (at level 61, m at next level, right associativity) : js_scope.
Notation "m ;; k" := (bind m (fun _ => k))
  (at level 61, right associativity) : js_scope.
Local Open Scope js_scope.

Definition emit (e : event) : M unit :=
  fun s => (Normal tt, with_trace (trace s ++ [e]) s).

(** ** The server *)

Section Server.

Variable rt : Runtime.

(** [ws.send(JSON.stringify(msg))] *)
Definition send (ws : nat) (msg : value) : M unit := emit (Send ws msg).

(** [o.k], which throws when [o] is [undefined] or [null] *)
Definition read (site : string) (o : value) (k : string) : M value :=
  if nullish o then throw (TypeError (engine_message rt site))
  else ret (get o k).

(** [const { ... } = o], which throws when [o] is [undefined] or [null] *)
Definition destructure (site : string) (o : value) : M unit :=
  if nullish o then throw (TypeError (engine_message rt site))
  else ret tt.

(** ToString, as a template literal applies it *)
Definition to_string (v : value) : M string :=
  match string_of rt v with
  | Some s => ret s
  | None => throw (TypeError (engine_message rt "ToString"))
  end.

(** ToNumber, as an arithmetic operator applies it *)
Definition to_number (v : value) : M number :=
  match number_of rt v with
  | Some n => ret n
  | None => throw (TypeError (engine_message rt "ToNumber"))
  end.

Definition uuid : M string :=
  fun s => (Normal (uuidv4 rt (uuids s)), with_uuids (S (uuids s)) s).

(** [await axios(config)] *)
Definition await_axios (w : World) (config : AxiosConfig) : M Response :=
  emit (Http config) ;;
  match axios w config with
  | Resolved r => ret r
  | Rejected e => throw e
  end.

(** [await fs.writeFile(path, content)] *)
Definition await_writeFile (w : World) (path content : string) : M unit :=
  emit (WriteFile path content) ;;
  match fs_writeFile w path with
  | None => fun s => (Normal tt, with_files ((path, content) :: files s) s)
  | Some e => throw e
  end.

(** [client.close()] *)
Definition close (ws : nat) : M unit :=
  emit (Close ws) ;;
  fun s =>
    (Normal tt,
     with_readyState
       (fun x => if Nat.eqb x ws then CLOSING else readyState s x) s).

Definition setInterval (job : TrainingJob) : M nat :=
  fun s =>
    (Normal (timers s),
     with_intervals (intervals s ++ [(timers s, job)])
       (with_timers (S (timers s)) s)).

Definition clearInterval (h : nat) : M unit :=
  fun s => (Normal tt, with_intervals (remove_assoc h (intervals s)) s).

Definition setTimeout (job : UploadJob) : M nat :=
  fun s =>
    (Normal (timers s),
     with_timeouts (timeouts s ++ [(timers s, job)])
       (with_timers (S (timers s)) s)).

(** *** Service status (lines 67-100) *)

Definition axios_get (url : string) (timeout : value) : AxiosConfig :=
  {| cfg_method := "GET"; cfg_url := url; cfg_params := VUndefined;
     cfg_data := VUndefined; cfg_responseType := VUndefined;
     cfg_timeout := timeout |}.

Definition checkServiceStatus (w : World) (url : string) : M bool :=
  try_catch
    (response <- await_axios w (axios_get url (num 2000)) ;;
     ret (resp_status response =? 200))
    (fun _ => ret false).

Fixpoint broadcast_open (msg : value) (cs : list (string * nat)) : M unit :=
  match cs with
  | [] => ret tt
  | (_, client) :: rest =>
      (fun s =>
         if readyState s client =? OPEN then send client msg s
         else (Normal tt, s)) ;;
      broadcast_open msg rest
  end.

Definition updateServiceStatus (w : World) : M unit :=
  voicevoxStatus <- checkServiceStatus w (VOICEVOX_URL rt) ;;
  rvcStatus <- checkServiceStatus w (RVC_URL rt ++ "/health") ;;
  let statusMessage :=
    VObj [("type", VStr "service-status");
          ("data", VObj [("voicevox", VBool voicevoxStatus);
                         ("rvc", VBool rvcStatus);
                         ("timestamp", VStr (Date_toISOString w))])] in
  fun s => broadcast_open statusMessage (clients s) s.

(** The [statusMessage] of lines 82-89. *)
Definition status_message (w : World) (voicevoxStatus rvcStatus : bool)
  : value :=
  VObj [("type", VStr "service-status");
        ("data", VObj [("voicevox", VBool voicevoxStatus);
                       ("rvc", VBool rvcStatus);
                       ("timestamp", VStr (Date_toISOString w))])].

(** What [checkServiceStatus(url)] returns once its request is answered:
    whether the call resolved with status 200 (lines 71-73). *)
Definition probe_up (w : World) (url : string) : bool :=
  match axios w (axios_get url (num 2000)) with
  | Resolved r => resp_status r =? 200
  | Rejected _ => false
  end.

(** [updateServiceStatus] when its caller does not await it.  The call runs
    up to its first [await]: the request of the first probe is made. *)
Definition spawn_updateServiceStatus : M unit :=
  emit (Http (axios_get (VOICEVOX_URL rt) (num 2000))) ;;
  fun s => (Normal tt, with_pending_status (pending_status s ++ [AwaitsVoicevox]) s).

(** The [k]-th pending call goes on from the [await] it is suspended at to
    the next one, or to its end: after the first probe it makes the request
    of the second (line 80); after the second it builds the message and
    broadcasts it to the sockets registered and open by then (lines
    82-96). *)
Definition resume_updateServiceStatus (w : World) (k : nat) (task : StatusTask)
  : M unit :=
  match task with
  | AwaitsVoicevox =>
      let voicevoxStatus := probe_up w (VOICEVOX_URL rt) in
      emit (Http (axios_get (RVC_URL rt ++ "/health") (num 2000))) ;;
      fun s =>
        (Normal tt,
         with_pending_status
           (replace_nth k (AwaitsRvc voicevoxStatus) (pending_status s)) s)
  | AwaitsRvc voicevoxStatus =>
      let rvcStatus := probe_up w (RVC_URL rt ++ "/health") in
      (fun s =>
         (Normal tt, with_pending_status (remove_nth k (pending_status s)) s)) ;;
      fun s =>
        broadcast_open (status_message w voicevoxStatus rvcStatus) (clients s) s
  end.

(** *** The handlers of the switch (lines 125-436) *)

Definition handle_ping (w : World) (ws : nat) (request : value) : M unit :=
  send ws (VObj [("type", VStr "pong");
                 ("data", VObj [("timestamp", num (Date_now w))]);
                 ("requestId", get request "requestId")]).

Definition mock_speakers : value :=
  VArr [VObj [("speaker_id", num 0); ("name", VStr "Default");
              ("speaker_uuid", VStr "default-uuid");
              ("styles", VArr [VObj [("id", num 0); ("name", VStr "ノーマル")]])];
        VObj [("speaker_id", num 1); ("name", VStr "Female");
              ("speaker_uuid", VStr "female-uuid");
              ("styles", VArr [VObj [("id", num 1); ("name", VStr "ノーマル")]])];
        VObj [("speaker_id", num 2); ("name", VStr "Male");
              ("speaker_uuid", VStr "male-uuid");
              ("styles", VArr [VObj [("id", num 2); ("name", VStr "ノーマル")]])]].

Definition speakers_request : AxiosConfig :=
  axios_get (VOICEVOX_URL rt ++ "/speakers") VUndefined.

Definition handle_voicevox_speakers (w : World) (ws : nat) (request : value)
  : M unit :=
  try_catch
    (response <- await_axios w speakers_request ;;
     send ws (VObj [("type", VStr "voicevox-speakers-response");
                    ("data", resp_data response);
                    ("requestId", get request "requestId")]))
    (fun _ =>
       send ws (VObj [("type", VStr "voicevox-speakers-response");
                      ("data", mock_speakers);
                      ("requestId", get request "requestId")])).

Fixpoint set_field (k : string) (v : value) (fields : list (string * value))
  : list (string * value) :=
  match fields with
  | [] => [(k, v)]
  | (k', v') :: rest =>
      if String.eqb k k' then (k, v) :: rest
      else (k', v') :: set_field k v rest
  end.

(** [target[k] = v] on a plain object, as [Object.assign] does it.  The key
    [__proto__] is special: unless the object has a property of that name
    of its own, the assignment reaches the setter of [Object.prototype],
    which may change the prototype of the object and adds no property. *)
Definition assign_field (k : string) (v : value) (fields : list (string * value))
  : list (string * value) :=
  if String.eqb k "__proto__" && negb (has_field k fields) then fields
  else set_field k v fields.

(** [Object.assign(target, source)]: the value of [target] afterwards *)
Definition Object_assign (target source : value) : M value :=
  match target, source with
  | VUndefined, _ | VNull, _ =>
      throw (TypeError (engine_message rt "Object.assign"))
  | VObj t, VObj s =>
      ret (VObj (fold_left (fun acc kv => assign_field (fst kv) (snd kv) acc) s t))
  | _, _ =>
      match Object_assign_exotic rt target source with
      | Some v => ret v
      | None => throw (TypeError (engine_message rt "Object.assign"))
      end
  end.

(** [Buffer.from(v)] *)
Definition Buffer_from (v : value) : M string :=
  match v with
  | VBuffer bytes => ret bytes
  | _ =>
      match Buffer_from_exotic rt v with
      | Some bytes => ret bytes
      | None => throw (TypeError (engine_message rt "Buffer.from"))
      end
  end.

Definition audio_query_request (text speaker_id : value) : AxiosConfig :=
  {| cfg_method := "POST"; cfg_url := VOICEVOX_URL rt ++ "/audio_query";
     cfg_params := VObj [("text", text); ("speaker", js_or speaker_id (num 3))];
     cfg_data := VNull; cfg_responseType := VUndefined;
     cfg_timeout := VUndefined |}.

Definition synthesis_request (audioQuery speaker_id : value) : AxiosConfig :=
  {| cfg_method := "POST"; cfg_url := VOICEVOX_URL rt ++ "/synthesis";
     cfg_params := VObj [("speaker", js_or speaker_id (num 3))];
     cfg_data := audioQuery; cfg_responseType := VStr "arraybuffer";
     cfg_timeout := VUndefined |}.

Definition mockWav : string :=
  "UklGRiQAAABXQVZFZm10IBAAAAABAAEAQB8AAAB9AAACABAAZGF0YQAAAAA=".

Definition handle_voicevox_synthesis (w : World) (ws : nat) (request : value)
  : M unit :=
  let data := get request "data" in
  try_catch
    (text <- read "request.data" data "text" ;;
     speaker_id <- read "request.data" data "speaker_id" ;;
     queryResponse <- await_axios w (audio_query_request text speaker_id) ;;
     params <- read "request.data" data "params" ;;
     audioQuery <- (if truthy params
                    then Object_assign (resp_data queryResponse) params
                    else ret (resp_data queryResponse)) ;;
     speaker_id' <- read "request.data" data "speaker_id" ;;
     synthesisResponse <-
       await_axios w (synthesis_request audioQuery speaker_id') ;;
     bytes <- Buffer_from (resp_data synthesisResponse) ;;
     let audioBase64 := Base64.encode bytes in
     text' <- read "request.data" data "text" ;;
     speaker_id'' <- read "request.data" data "speaker_id" ;;
     send ws (VObj [("type", VStr "voicevox-synthesis-response");
                    ("data", VObj [("audio", VStr ("data:audio/wav;base64," ++ audioBase64));
                                   ("text", text');
                                   ("speaker_id", speaker_id'')]);
                    ("requestId", get request "requestId")]))
    (fun _ =>
       text <- read "request.data" data "text" ;;
       speaker_id <- read "request.data" data "speaker_id" ;;
       send ws (VObj [("type", VStr "voicevox-synthesis-response");
                      ("data", VObj [("audio", VStr ("data:audio/wav;base64," ++ mockWav));
                                     ("text", text);
                                     ("speaker_id", speaker_id);
                                     ("mock", VBool true)]);
                      ("requestId", get request "requestId")])).

(** [Buffer.from(fileData.split(',')[1], 'base64')] *)
Definition decode_data_uri (fileData : value) : M string :=
  match fileData with
  | VStr s =>
      match nth_error (split_comma s) 1 with
      | Some segment => ret (Base64.decode segment)
      | None => throw (TypeError (engine_message rt "Buffer.from"))
      end
  | _ => throw (TypeError (engine_message rt "fileData.split"))
  end.

(** The path of line 242, for the uuid [id] and the string [name] that
    [fileName] converts to. *)
Definition upload_path (id name : string) : string :=
  path_join rt [__dirname rt; "uploads"; id ++ "_" ++ name].

Definition error_reply (prefix : string) (error : exn) (requestId : value)
  : value :=
  VObj [("type", VStr "error");
        ("error", VStr (prefix ++ message error));
        ("requestId", requestId)].

Definition handle_rvc_upload_training_data (w : World) (ws : nat)
  (request : value) : M unit :=
  let data := get request "data" in
  try_catch
    (destructure "request.data" data ;;
     let fileName := get data "fileName" in
     let fileData := get data "fileData" in
     let fileSize := get data "fileSize" in
     (* the template literal of line 242 *)
     id <- uuid ;;
     name <- to_string fileName ;;
     let filePath := upload_path id name in
     buffer <- decode_data_uri fileData ;;
     await_writeFile w filePath buffer ;;
     id' <- uuid ;;
     send ws (VObj [("type", VStr "rvc-upload-response");
                    ("data", VObj [("id", VStr id');
                                   ("fileName", fileName);
                                   ("filePath", VStr filePath);
                                   ("fileSize", fileSize);
                                   ("status", VStr "processing")]);
                    ("requestId", get request "requestId")]) ;;
     _ <- setTimeout {| up_ws := ws; up_fileName := fileName |} ;;
     ret tt)
    (fun error =>
       send ws (error_reply "ファイルアップロードエラー: " error
                  (get request "requestId"))).

(** The callback of the [setTimeout] of an upload (lines 262-271). *)
Definition upload_timeout (w : World) (job : UploadJob) : M unit :=
  send (up_ws job)
    (VObj [("type", VStr "rvc-processing-complete");
           ("data", VObj [("fileName", up_fileName job);
                          ("status", VStr "ready");
                          ("duration", VNum (Math_random w * 300))])]).

Definition handle_rvc_start_training (w : World) (ws : nat) (request : value)
  : M unit :=
  let data := get request "data" in
  try_catch
    (destructure "request.data" data ;;
     let modelName := get data "modelName" in
     let epochs := get data "epochs" in
     modelId <- uuid ;;
     send ws (VObj [("type", VStr "rvc-training-started");
                    ("data", VObj [("modelId", VStr modelId);
                                   ("modelName", modelName);
                                   ("status", VStr "training");
                                   ("totalEpochs", epochs)]);
                    ("requestId", get request "requestId")]) ;;
     _ <- setInterval {| job_ws := ws; job_modelId := modelId;
                         job_modelName := modelName; job_epochs := epochs;
                         currentEpoch := 0 |} ;;
     ret tt)
    (fun error =>
       send ws (error_reply "トレーニング開始エラー: " error
                  (get request "requestId"))).

(** [currentEpoch >= epochs], for an [epochs] that converts to a number *)
Definition reached (currentEpoch : Z) (epochs : value) : bool :=
  match number_of rt epochs with
  | Some (Finite e) => Qle_bool e (inject_Z currentEpoch)
  | Some (NonFinite NegInfinity) => true
  | Some (NonFinite _) => false
  | None => false
  end.

(** [(currentEpoch / epochs) * 100], for an [epochs] that converts to a
    number *)
Definition progress (currentEpoch : Z) (epochs : value) : value :=
  match number_of rt epochs with
  | Some (Finite e) =>
      if Qeq_bool e 0
      then match currentEpoch ?= 0 with
           | Gt => VNonFinite PosInfinity
           | Lt => VNonFinite NegInfinity
           | Eq => VNonFinite NaN
           end
      else VNum ((inject_Z currentEpoch / e) * 100)
  | Some (NonFinite NaN) => VNonFinite NaN
  | Some (NonFinite _) => VNum 0
  | None => VNonFinite NaN
  end.

Definition training_progress (modelId : string) (currentEpoch : Z)
  (epochs : value) : value :=
  VObj [("type", VStr "rvc-training-progress");
        ("data", VObj [("modelId", VStr modelId);
                       ("currentEpoch", num currentEpoch);
                       ("totalEpochs", epochs);
                       ("progress", progress currentEpoch epochs)])].

Definition training_complete (modelId : string) (modelName : value) : value :=
  VObj [("type", VStr "rvc-training-complete");
        ("data", VObj [("modelId", VStr modelId);
                       ("modelName", modelName);
                       ("status", VStr "ready");
                       ("modelPath",
                        VStr (path_join rt [__dirname rt; "models";
                                            modelId ++ ".pth"]))])].

(** The callback of [progressInterval] (lines 300-325), for the interval
    of handle [h] whose closure is [job]. *)
Definition progress_tick (h : nat) (job : TrainingJob) : M unit :=
  let currentEpoch' := currentEpoch job + 10 in
  (fun s =>
     (Normal tt,
      with_intervals
        (map (fun entry =>
                if Nat.eqb (fst entry) h
                then (h, {| job_ws := job_ws job; job_modelId := job_modelId job;
                             job_modelName := job_modelName job;
                             job_epochs := job_epochs job;
                             currentEpoch := currentEpoch' |})
                else entry)
           (intervals s)) s)) ;;
  (* the division of line 309 converts [epochs] *)
  _ <- to_number (job_epochs job) ;;
  send (job_ws job)
    (training_progress (job_modelId job) currentEpoch' (job_epochs job)) ;;
  if reached currentEpoch' (job_epochs job)
  then clearInterval h ;;
       send (job_ws job)
         (training_complete (job_modelId job) (job_modelName job))
  else ret tt.

Definition handle_rvc_voice_conversion (w : World) (ws : nat)
  (request : value) : M unit :=
  let data := get request "data" in
  try_catch
    (destructure "request.data" data ;;
     let inputAudio := get data "inputAudio" in
     let modelId := get data "modelId" in
     send ws (VObj [("type", VStr "rvc-conversion-response");
                    ("data", VObj [("convertedAudio", inputAudio);
                                   ("modelId", modelId);
                                   ("duration", VNum (7 # 2))]);
                    ("requestId", get request "requestId")]))
    (fun error =>
       send ws (error_reply "音声変換エラー: " error (get request "requestId"))).

(** [method.toUpperCase()] *)
Definition upper (method : value) : M string :=
  match method with
  | VStr s => ret (toUpperCase rt s)
  | _ => throw (TypeError (engine_message rt "method.toUpperCase"))
  end.

(** [endpoint.includes(needle)] *)
Definition includes (endpoint : value) (needle : string) : M bool :=
  match endpoint with
  | VStr s => ret (str_includes needle s)
  | VArr items =>
      ret (existsb (fun v => match v with
                             | VStr s => String.eqb s needle
                             | _ => false
                             end) items)
  | _ => throw (TypeError (engine_message rt "endpoint.includes"))
  end.

(** The request of lines 371-397, for an [endpoint] that converts to a
    string. *)
Definition passthrough_config (endpoint : value) (METHOD : string)
  (body params : value) (binary : bool) : AxiosConfig :=
  {| cfg_method := METHOD;
     cfg_url := VOICEVOX_URL rt ++ text_of rt endpoint;
     cfg_params := if truthy params then params else VUndefined;
     cfg_data :=
       if truthy body
          && existsb (String.eqb METHOD) ["POST"; "PUT"; "PATCH"]
       then body else VUndefined;
     cfg_responseType := if binary then VStr "arraybuffer" else VUndefined;
     cfg_timeout := num 30000 |}.

(** [error.response?.statusText || error.message] *)
Definition status_text_or_message (error : exn) : string :=
  match response error with
  | Some r =>
      if String.eqb (resp_statusText r) "" then message error
      else resp_statusText r
  | None => message error
  end.

(** [error.response?.data] *)
Definition response_data (error : exn) : value :=
  match response error with
  | Some r => resp_data r
  | None => VUndefined
  end.

Definition passthrough_error (error : exn) (requestId : value) : value :=
  VObj [("type", VStr "error");
        ("error", VStr ("VOICEVOX APIエラー: " ++ status_text_or_message error));
        ("details", response_data error);
        ("requestId", requestId)].

Definition handle_voicevox_request (w : World) (ws : nat) (request : value)
  : M unit :=
  let data := get request "data" in
  try_catch
    (payload <- read "request.data" data "payload" ;;
     let payload := js_or payload (VObj []) in
     let endpoint := get payload "endpoint" in
     let method := match get payload "method" with
                   | VUndefined => VStr "GET"
                   | m => m
                   end in
     let body := get payload "body" in
     let params := get payload "params" in
     if negb (truthy endpoint)
     then send ws (VObj [("type", VStr "error");
                         ("error", VStr "エンドポイントが指定されていません");
                         ("requestId", get request "requestId")])
     else
       (* the template literals of lines 371 and 372 *)
       _ <- to_string endpoint ;;
       _ <- to_string method ;;
       METHOD <- upper method ;;
       synthesis <- includes endpoint "/synthesis" ;;
       binary <- (if synthesis : bool then ret true
                  else includes endpoint "/audio") ;;
       response <-
         await_axios w (passthrough_config endpoint METHOD body params binary) ;;
       let responseData :=
         match resp_data response with
         | VBuffer bytes =>
             VObj [("audio", VStr ("data:audio/wav;base64," ++ Base64.encode bytes));
                   ("contentType",
                    js_or (get (resp_headers response) "content-type")
                      (VStr "audio/wav"))]
         | d => d
         end in
       send ws (VObj [("type", VStr "voicevox_request-response");
                      ("data", responseData);
                      ("requestId", get request "requestId")]))
    (fun error => send ws (passthrough_error error (get request "requestId"))).

Definition handle_default (w : World) (ws : nat) (request : value) : M unit :=
  type <- to_string (get request "type") ;;
  send ws (VObj [("type", VStr "error");
                 ("error", VStr ("Unknown request type: " ++ type));
                 ("requestId", get request "requestId")]).

(** [switch (request.type)] *)
Definition dispatch (w : World) (ws : nat) (request : value) : M unit :=
  match get request "type" with
  | VStr t =>
      if String.eqb t "ping" then handle_ping w ws request
      else if String.eqb t "voicevox-speakers"
      then handle_voicevox_speakers w ws request
      else if String.eqb t "voicevox-synthesis"
      then handle_voicevox_synthesis w ws request
      else if String.eqb t "rvc-upload-training-data"
      then handle_rvc_upload_training_data w ws request
      else if String.eqb t "rvc-start-training"
      then handle_rvc_start_training w ws request
      else if String.eqb t "rvc-voice-conversion"
      then handle_rvc_voice_conversion w ws request
      else if String.eqb t "voicevox_request"
      then handle_voicevox_request w ws request
      else handle_default w ws request
  | _ => handle_default w ws request
  end.

(** [JSON.parse(message.toString())] *)
Definition JSON_parse (f : frame) : M value :=
  match f with
  | Malformed syntax_error => throw (SyntaxError syntax_error)
  | Parsed request => ret request
  end.

(** The body of the [try] of the message handler (lines 122-436). *)
Definition process (w : World) (ws : nat) (f : frame) : M unit :=
  request <- JSON_parse f ;;
  destructure "request" request ;;
  dispatch w ws request.

Definition boundary_error (error : exn) : value :=
  VObj [("type", VStr "error");
        ("error", VStr ("メッセージ処理エラー: " ++ message error))].

(** [ws.on('message', ...)] (lines 120-444) *)
Definition on_message (w : World) (ws : nat) (f : frame) : M unit :=
  try_catch (process w ws f) (fun error => send ws (boundary_error error)).

(** [wss.on('connection', ...)] (lines 103-118).  The call of
    [updateServiceStatus] of line 117 is not awaited. *)
Definition on_connection (w : World) (ws : nat) : M unit :=
  clientId <- uuid ;;
  (fun s => (Normal tt, with_clients (map_set clientId ws (clients s)) s)) ;;
  send ws (VObj [("type", VStr "connected");
                 ("data", VObj [("clientId", VStr clientId);
                                ("message", VStr "ローカルブリッジサーバーに接続しました")])]) ;;
  spawn_updateServiceStatus.

(** [ws.on('close', ...)] (lines 447-450) *)
Definition on_close (clientId : string) : M unit :=
  fun s => (Normal tt, with_clients (map_delete clientId (clients s)) s).

(** *** Shutdown (lines 459-480) *)

Definition shutdown_message : value :=
  VObj [("type", VStr "server-shutdown");
        ("data", VObj [("message", VStr "サーバーがシャットダウンしています")])].

Fixpoint shutdown_clients (cs : list (string * nat)) : M unit :=
  match cs with
  | [] => ret tt
  | (_, client) :: rest =>
      send client shutdown_message ;;
      close client ;;
      shutdown_clients rest
  end.

(** [await fs.rm(path, { recursive: true, force: true })] *)
Definition await_rm (w : World) (path : string) : M unit :=
  emit (Rm path) ;;
  match fs_rm w path with
  | None => ret tt
  | Some e => throw e
  end.

(** [process.exit(code)] *)
Definition exit (code : Z) : M unit :=
  emit (Exit code) ;;
  fun s => (Normal tt, with_exited true s).

Definition on_SIGINT (w : World) : M unit :=
  (fun s => shutdown_clients (clients s) s) ;;
  emit WssClose ;;
  emit ServerClose ;;
  try_catch (await_rm w "uploads") (fun _ => ret tt) ;;
  exit 0.

(** *** The event loop *)

Inductive input : Type :=
| Connection (ws : nat)
| Message (ws : nat) (f : frame)
| SocketClose (ws : nat) (clientId : string)
| StatusTick
| IntervalTick (h : nat)
| TimeoutFire (h : nat)
| SIGINT
| StatusResume (k : nat).

Definition run (m : M unit) (s : State) : State := snd (m s).

(** A timer callback: an exception that leaves it is uncaught. *)
Definition run_callback (m : M unit) (s : State) : State :=
  match m s with
  | (Normal _, s') => s'
  | (Throw e, s') => with_exited true (with_trace (trace s' ++ [Uncaught e]) s')
  end.

Definition step (w : World) (i : input) (s : State) : State :=
  if exited s then s
  else
    match i with
    | Connection ws =>
        run (on_connection w ws)
          (with_readyState
             (fun x => if Nat.eqb x ws then OPEN else readyState s x) s)
    | Message ws f => run (on_message w ws f) s
    | SocketClose ws clientId =>
        run (on_close clientId)
          (with_readyState
             (fun x => if Nat.eqb x ws then CLOSED else readyState s x) s)
    | StatusTick => run (updateServiceStatus w) s
    | IntervalTick h =>
        match assoc h (intervals s) with
        | Some job => run_callback (progress_tick h job) s
        | None => s
        end
    | TimeoutFire h =>
        match assoc h (timeouts s) with
        | Some job =>
            run_callback (upload_timeout w job)
              (with_timeouts (remove_assoc h (timeouts s)) s)
        | None => s
        end
    | SIGINT => run (on_SIGINT w) s
    | StatusResume k =>
        match nth_error (pending_status s) k with
        | Some task => run (resume_updateServiceStatus w k task) s
        | None => s
        end
    end.

(** [n] ticks of the interval [h], one after the other. *)
Fixpoint ticks (w : World) (h : nat) (n : nat) (s : State) : State :=
  match n with
  | O => s
  | S n' => ticks w h n' (step w (IntervalTick h) s)
  end.

End Server.

(** ** Reachable states, and the events of one step *)

Inductive reachable (rt : Runtime) : State -> Prop :=
| reachable_initial : reachable rt initial
| reachable_step w i s : reachable rt s -> reachable rt (step rt w i s).

(** What the server did between [s] and a later state [s']. *)
Definition events_since (s s' : State) : list event :=
  skipn (List.length (trace s)) (trace s').

(** Every live interval was handed out by [setInterval] before now. *)
Definition handles_fresh (s : State) : Prop :=
  forall h job, In (h, job) (intervals s) -> (h < timers s)%nat.

Definition preserves {A : Type} (P : State -> Prop) (m : M A) : Prop :=
  forall s, P s -> P (snd (m s)).

(** The messages sent, with their sockets, in order. *)
Fixpoint sent (evs : list event) : list (nat * value) :=
  match evs with
  | [] => []
  | Send ws msg :: rest => (ws, msg) :: sent rest
  | _ :: rest => sent rest
  end.

(** The HTTP calls made, in order. *)
Fixpoint called (evs : list event) : list AxiosConfig :=
  match evs with
  | [] => []
  | Http config :: rest => config :: called rest
  | _ :: rest => called rest
  end.

(** Everything sent since the trace was [before] carries the request id
    [rid]. *)
Definition echoing (rid : value) (before : list event) (s : State) : Prop :=
  exists evs,
    trace s = (before ++ evs)%list
    /\ forall x msg, In (Send x msg) evs -> get msg "requestId" = rid.

(** Some HTTP call among [evs] was rejected by the backend, with [e]. *)
Definition backend_failed (w : World) (evs : list event) (e : exn) : Prop :=
  exists config, In config (called evs) /\ axios w config = Rejected e.

(** The [k]-th to [(k + n - 1)]-th progress pushes of a job. *)
Fixpoint progress_pushes (rt : Runtime) (ws : nat) (modelId : string)
  (epochs : value) (from : Z) (n : nat) : list event :=
  match n with
  | O => []
  | S n' =>
      Send ws (training_progress rt modelId (from + 10) epochs)
      :: progress_pushes rt ws modelId epochs (from + 10) n'
  end.

(** The [currentEpoch] values carried by the progress pushes of a trace. *)
Fixpoint currentEpochs (evs : list event) : list value :=
  match evs with
  | [] => []
  | Send _ msg :: rest =>
      match get msg "type" with
      | VStr t =>
          if String.eqb t "rvc-training-progress"
          then get (get msg "data") "currentEpoch" :: currentEpochs rest
          else currentEpochs rest
      | _ => currentEpochs rest
      end
  | _ :: rest => currentEpochs rest
  end.

(** ** A sample runtime and sample worlds, for concrete runs

    The sample runtime stands in for Node in the concrete runs below: its
    uuids are the letters a, b, ..., its paths are joined with a slash, and
    the wording of its TypeError is a stand-in for the engine's.  None of the
    runs converts a number or a buffer to a string, a string to a number,
    or changes the case of a string that is not already in upper case. *)

Definition sample_runtime : Runtime :=
  {| Number_toString := fun _ => "0";
     Buffer_toString := fun bytes => bytes;
     StringToNumber := fun _ => NonFinite NaN;
     toUpperCase := fun s => s;
     Object_assign_exotic := fun target _ => Some target;
     Buffer_from_exotic := fun _ => None;
     path_join := String.concat "/";
     uuidv4 := fun n => String (ascii_of_nat (97 + n)) EmptyString;
     engine_message := fun site => "Cannot read properties of " ++ site;
     __dirname := "/srv";
     env_PORT := None;
     env_VOICEVOX_URL := None;
     env_RVC_URL := None |}.

(** Both backends refuse connections; the disk works. *)
Definition backends_down : World :=
  {| axios := fun _ => Rejected (AxiosError "connect ECONNREFUSED" None);
     Date_now := 0; Date_toISOString := "1970-01-01T00:00:00.000Z";
     Math_random := 0;
     fs_writeFile := fun _ => None; fs_rm := fun _ => None |}.

(** The synthesis backend answers 503 with a body. *)
Definition backend_unavailable : World :=
  {| axios := fun _ =>
       Rejected (AxiosError "Request failed with status code 503"
                   (Some {| resp_status := 503;
                            resp_statusText := "Service Unavailable";
                            resp_headers := VObj [];
                            resp_data := VObj [("detail", VStr "busy")] |}));
     Date_now := 0; Date_toISOString := "1970-01-01T00:00:00.000Z";
     Math_random := 0;
     fs_writeFile := fun _ => None; fs_rm := fun _ => None |}.

Definition request_of (type : string) (data : list (string * value))
  (requestId : string) : value :=
  VObj [("type", VStr type); ("data", VObj data); ("requestId", VStr requestId)].

(** ** Further vocabulary for the properties of the server *)

(** What the handling of a message on socket [ws] may do: send on [ws],
    call a backend, write a file. *)
Definition own_io (ws : nat) (e : event) : bool :=
  match e with
  | Send x _ => Nat.eqb x ws
  | Http _ | WriteFile _ _ => true
  | _ => false
  end.

(** The sockets of the registry that are open, in registration order. *)
Definition open_sockets (s : State) : list nat :=
  filter (fun client => readyState s client =? OPEN) (map snd (clients s)).

Fixpoint has_key (k : string) (m : list (string * nat)) : bool :=
  match m with
  | [] => false
  | (k', _) :: rest => if String.eqb k k' then true else has_key k rest
  end.

(** The types the switch has a case for. *)
Definition known_types : list string :=
  ["ping"; "voicevox-speakers"; "voicevox-synthesis";
   "rvc-upload-training-data"; "rvc-start-training"; "rvc-voice-conversion";
   "voicevox_request"].

Definition has_case (type : value) : bool :=
  match type with
  | VStr t => existsb (String.eqb t) known_types
  | _ => false
  end.

(** A run of the event loop. *)
Fixpoint steps (rt : Runtime) (inputs : list (World * input)) (s : State)
  : State :=
  match inputs with
  | [] => s
  | (w, i) :: rest => steps rt rest (step rt w i s)
  end.

(** The message that confirms a connection. *)
Definition connected_message (clientId : string) : value :=
  VObj [("type", VStr "connected");
        ("data", VObj [("clientId", VStr clientId);
                       ("message", VStr "ローカルブリッジサーバーに接続しました")])].

(** Every live timeout was handed out by [setTimeout] before now. *)
Definition timeouts_fresh (s : State) : Prop :=
  forall h job, In (h, job) (timeouts s) -> (h < timers s)%nat.

(** What [if (params) Object.assign(audioQuery, params)] leaves in
    [audioQuery] when no override is given or both are plain objects;
    [None] in the cases left to the runtime. *)
Definition overridden (audioQuery params : value) : option value :=
  match params with
  | VObj p =>
      match audioQuery with
      | VObj t =>
          Some (VObj (fold_left (fun acc kv => assign_field (fst kv) (snd kv) acc) p t))
      | _ => None
      end
  | _ => if truthy params then None else Some audioQuery
  end.

(** Whether assigning to the key [k] of an object whose fields are
    [fields] gives it the value: always, but for [__proto__] on an object
    that has no field of that name. *)
Definition assignable (k : string) (fields : list (string * value)) : bool :=
  negb (String.eqb k "__proto__") || has_field k fields.

(** Whether [fileData] is a string with a comma, so that
    [fileData.split(',')[1]] exists. *)
Definition is_data_uri (fileData : value) : bool :=
  match fileData with
  | VStr s => has_comma s
  | _ => false
  end.

(** The backends are down and the disk refuses every write. *)
Definition disk_full : World :=
  {| axios := fun _ => Rejected (AxiosError "connect ECONNREFUSED" None);
     Date_now := 0; Date_toISOString := "1970-01-01T00:00:00.000Z";
     Math_random := 0;
     fs_writeFile := fun _ => Some (SystemError "ENOSPC: no space left on device");
     fs_rm := fun _ => None |}.

(** The synthesis backend answers every call with status 200: a JSON query
    object to a request without response type, three bytes of audio to a
    request for an array buffer. *)
Definition backend_up : World :=
  {| axios := fun config =>
       Resolved
         {| resp_status := 200; resp_statusText := "OK";
            resp_headers := VObj [("content-type", VStr "audio/wav")];
            resp_data :=
              match cfg_responseType config with
              | VStr _ => VBuffer "RIF"
              | _ => VObj [("speedScale", num 1); ("pitchScale", num 0)]
              end |};
     Date_now := 0; Date_toISOString := "1970-01-01T00:00:00.000Z";
     Math_random := 0;
     fs_writeFile := fun _ => None; fs_rm := fun _ => None |}.

(** [request.data.payload || {}] and the [method] destructured from it
    with its default (line 360). *)
Definition passthrough_payload (request : value) : value :=
  js_or (get (get request "data") "payload") (VObj []).

Definition passthrough_method (request : value) : value :=
  match get (passthrough_payload request) "method" with
  | VUndefined => VStr "GET"
  | m => m
  end.

Definition is_string (v : value) : bool :=
  match v with
  | VStr _ => true
  | _ => false
  end.

(** * Theorems *)

(** ** Base64 round trip *)

Module Base64Facts.
Import Base64.

Lemma sextet_of_char_of_sextet b0 b1 b2 b3 b4 b5 :
  sextet_of_char (char_of_sextet (sextet b0 b1 b2 b3 b4 b5))
  = Some (sextet b0 b1 b2 b3 b4 b5).
Proof. destruct b0, b1, b2, b3, b4, b5; reflexivity. Qed.

Lemma char_of_sextet_not_pad b0 b1 b2 b3 b4 b5 :
  Ascii.eqb (char_of_sextet (sextet b0 b1 b2 b3 b4 b5)) "="%char = false.
Proof. destruct b0, b1, b2, b3, b4, b5; reflexivity. Qed.

Lemma char_of_sextet_not_comma b0 b1 b2 b3 b4 b5 :
  Ascii.eqb (char_of_sextet (sextet b0 b1 b2 b3 b4 b5)) ","%char = false.
Proof. destruct b0, b1, b2, b3, b4, b5; reflexivity. Qed.

(** Induction on byte strings three bytes at a time. *)
Lemma string_ind3 (P : string -> Prop) :
  P EmptyString ->
  (forall a, P (String a EmptyString)) ->
  (forall a b, P (String a (String b EmptyString))) ->
  (forall a b c rest, P rest -> P (String a (String b (String c rest)))) ->
  forall s, P s.
Proof.
  intros H0 H1 H2 H3.
  fix IH 1.
  intros [|a [|b [|c rest]]];
    [exact H0 | exact (H1 a) | exact (H2 a b)
    | exact (H3 a b c rest (IH rest))].
Qed.

Lemma sextets_of_bytes_sextets bytes : sextets (sextets_of_bytes bytes).
Proof.
  induction bytes as [| a | a b | a b c rest IH] using string_ind3;
    cbn [sextets_of_bytes];
    repeat match goal with x : ascii |- _ => destruct x end;
    cbn [enc1 enc2 enc3 enc4 zero];
    repeat constructor; assumption.
Qed.

Lemma padding_cases bytes :
  padding bytes = "" \/ padding bytes = "=" \/ padding bytes = "==".
Proof.
  induction bytes using string_ind3; cbn [padding]; auto.
Qed.

Lemma sextets_of_text_encoded l pad :
  sextets l ->
  pad = "" \/ pad = "=" \/ pad = "==" ->
  sextets_of_text (string_of_list_ascii (map char_of_sextet l) ++ pad) = l.
Proof.
  intros Hl Hpad.
  induction Hl as [| b0 b1 b2 b3 b4 b5 l Hl IH].
  - destruct Hpad as [-> | [-> | ->]]; reflexivity.
  - cbn [map string_of_list_ascii String.append sextets_of_text].
    rewrite char_of_sextet_not_pad, sextet_of_char_of_sextet.
    f_equal. exact IH.
Qed.

Lemma bytes_of_sextets_of_bytes bytes :
  bytes_of_sextets (sextets_of_bytes bytes) = bytes.
Proof.
  induction bytes as [| a | a b | a b c rest IH] using string_ind3;
    cbn [sextets_of_bytes bytes_of_sextets].
  - reflexivity.
  - destruct a; reflexivity.
  - destruct a, b; reflexivity.
  - rewrite IH. destruct a, b, c; reflexivity.
Qed.

Lemma decode_encode bytes : decode (encode bytes) = bytes.
Proof.
  unfold decode, encode.
  rewrite sextets_of_text_encoded.
  - apply bytes_of_sextets_of_bytes.
  - apply sextets_of_bytes_sextets.
  - apply padding_cases.
Qed.

Lemma has_comma_app a b :
  has_comma (a ++ b) = has_comma a || has_comma b.
Proof.
  induction a as [| c a IH]; cbn [String.append has_comma]; [reflexivity |].
  destruct (Ascii.eqb c ","%char); [reflexivity | exact IH].
Qed.

Lemma encode_no_comma bytes : has_comma (encode bytes) = false.
Proof.
  unfold encode. rewrite has_comma_app.
  assert (Hs : forall l, sextets l ->
             has_comma (string_of_list_ascii (map char_of_sextet l)) = false).
  { induction 1 as [| b0 b1 b2 b3 b4 b5 l Hl IH]; [reflexivity |].
    cbn [map string_of_list_ascii has_comma].
    rewrite char_of_sextet_not_comma. exact IH. }
  rewrite (Hs _ (sextets_of_bytes_sextets bytes)).
  destruct (padding_cases bytes) as [-> | [-> | ->]]; reflexivity.
Qed.

End Base64Facts.

(** ** Strings *)

Lemma split_comma_no_comma s : has_comma s = false -> split_comma s = [s].
Proof.
  induction s as [| c s IH]; cbn [has_comma split_comma]; [reflexivity |].
  destruct (Ascii.eqb c ","%char); [discriminate |].
  intros H. rewrite (IH H). reflexivity.
Qed.

Lemma split_comma_prefix prefix rest :
  has_comma prefix = false ->
  split_comma (prefix ++ "," ++ rest) = prefix :: split_comma rest.
Proof.
  change ("," ++ rest) with (String ","%char rest).
  induction prefix as [| c p IH]; cbn [has_comma String.append split_comma].
  - reflexivity.
  - destruct (Ascii.eqb c ","%char); [discriminate |].
    intros H. rewrite (IH H). reflexivity.
Qed.

Lemma data_uri_segment prefix bytes :
  has_comma prefix = false ->
  nth_error (split_comma (prefix ++ "," ++ Base64.encode bytes)) 1
  = Some (Base64.encode bytes).
Proof.
  intros H. rewrite (split_comma_prefix _ _ H).
  rewrite (split_comma_no_comma _ (Base64Facts.encode_no_comma bytes)).
  reflexivity.
Qed.

(** ** The router *)

Lemma events_since_app (s s' : State) (evs : list event) :
  trace s' = (trace s ++ evs)%list -> events_since s s' = evs.
Proof.
  intros H. unfold events_since. rewrite H.
  rewrite skipn_app, skipn_all, Nat.sub_diag. reflexivity.
Qed.

Lemma typed_not_nullish request t :
  get request "type" = VStr t -> nullish request = false.
Proof. destruct request; cbn; intros H; try discriminate; reflexivity. Qed.

Lemma fielded_not_nullish o k :
  get o k <> VUndefined -> nullish o = false.
Proof. destruct o; cbn; intros H; try reflexivity; contradiction. Qed.

Section Router.

Variable rt : Runtime.
Variable w : World.
Variable ws : nat.

Lemma on_message_parsed request s :
  nullish request = false ->
  on_message rt w ws (Parsed request) s
  = try_catch (dispatch rt w ws request)
      (fun error => send ws (boundary_error error)) s.
Proof.
  intros H. unfold on_message, process, JSON_parse, destructure, try_catch, bind, ret.
  rewrite H. reflexivity.
Qed.

Lemma step_message f s :
  exited s = false ->
  step rt w (Message ws f) s = snd (on_message rt w ws f s).
Proof. intros H. unfold step, run. rewrite H. reflexivity. Qed.

End Router.

(** C10, as amended.  A convert-voice request whose [data] is neither
    [undefined] nor [null] gets exactly one reply, the conversion-response
    that echoes [modelId] and the request id, returns [inputAudio] unchanged as
    [convertedAudio] and gives the duration 3.5; the server does nothing else,
    whatever the backends answer: no HTTP call, no timer, no file. *)
Theorem convert_voice_echoes_input rt w ws request s :
  exited s = false ->
  get request "type" = VStr "rvc-voice-conversion" ->
  nullish (get request "data") = false ->
  step rt w (Message ws (Parsed request)) s
  = with_trace
      (trace s ++
       [Send ws
          (VObj [("type", VStr "rvc-conversion-response");
                 ("data",
                  VObj [("convertedAudio", get (get request "data") "inputAudio");
                        ("modelId", get (get request "data") "modelId");
                        ("duration", VNum (7 # 2))]);
                 ("requestId", get request "requestId")])]) s.
Proof.
  intros Hrun Htype Hdata.
  rewrite (step_message _ _ _ _ _ Hrun).
  rewrite (on_message_parsed _ _ _ _ _ (typed_not_nullish _ _ Htype)).
  unfold dispatch. rewrite Htype. cbn [String.eqb Ascii.eqb Bool.eqb].
  unfold handle_rvc_voice_conversion, try_catch, bind, destructure.
  rewrite Hdata. reflexivity.
Qed.

(** C10, the claim as stated fails: a convert-voice request without [data]
    is answered by an error reply, not by a conversion-response. *)
Lemma convert_voice_without_data_is_refused :
  trace (step sample_runtime backends_down
           (Message 0 (Parsed (VObj [("type", VStr "rvc-voice-conversion");
                                     ("requestId", VStr "r1")])))
           initial)
  = [Send 0 (VObj [("type", VStr "error");
                   ("error", VStr "音声変換エラー: Cannot read properties of request.data");
                   ("requestId", VStr "r1")])].
Proof. reflexivity. Qed.

Lemma convert_voice_echoes_input_witness :
  step sample_runtime backends_down
    (Message 0 (Parsed (request_of "rvc-voice-conversion"
                          [("inputAudio", VStr "data:audio/wav;base64,AAAA");
                           ("modelId", VStr "m1")] "r1")))
    initial
  = with_trace
      [Send 0
         (VObj [("type", VStr "rvc-conversion-response");
                ("data",
                 VObj [("convertedAudio", VStr "data:audio/wav;base64,AAAA");
                       ("modelId", VStr "m1");
                       ("duration", VNum (7 # 2))]);
                ("requestId", VStr "r1")])] initial.
Proof.
  apply (convert_voice_echoes_input sample_runtime backends_down 0%nat
           (request_of "rvc-voice-conversion"
              [("inputAudio", VStr "data:audio/wav;base64,AAAA");
               ("modelId", VStr "m1")] "r1") initial);
    reflexivity.
Defined.

(** ** Timer handles *)

Lemma assoc_In {A : Type} h (l : list (nat * A)) a :
  assoc h l = Some a -> In (h, a) l.
Proof.
  induction l as [| [h' a'] l IH]; cbn [assoc]; [discriminate |].
  destruct (Nat.eqb_spec h h') as [-> | Hne].
  - intros [= ->]. left. reflexivity.
  - intros H. right. exact (IH H).
Qed.

Lemma assoc_remove {A : Type} h (l : list (nat * A)) :
  assoc h (remove_assoc h l) = None.
Proof.
  induction l as [| [h' a'] l IH]; cbn [remove_assoc assoc]; [reflexivity |].
  destruct (Nat.eqb_spec h h') as [-> | Hne]; [exact IH |].
  cbn [assoc]. destruct (Nat.eqb_spec h h'); [contradiction | exact IH].
Qed.

Lemma assoc_app_new {A : Type} h (l : list (nat * A)) a :
  assoc h l = None -> assoc h (l ++ [(h, a)]) = Some a.
Proof.
  induction l as [| [h' a'] l IH]; cbn [assoc app].
  - rewrite Nat.eqb_refl. reflexivity.
  - destruct (Nat.eqb h h'); [discriminate | exact IH].
Qed.

Lemma assoc_replace {A : Type} h (l : list (nat * A)) a a' :
  assoc h l = Some a ->
  assoc h (map (fun entry => if Nat.eqb (fst entry) h then (h, a') else entry) l)
  = Some a'.
Proof.
  induction l as [| [h' b] l IH]; cbn [assoc map fst]; [discriminate |].
  rewrite (Nat.eqb_sym h' h).
  destruct (Nat.eqb_spec h h') as [-> | Hne].
  - intros _. cbn [assoc]. rewrite Nat.eqb_refl. reflexivity.
  - intros H. cbn [assoc]. destruct (Nat.eqb_spec h h'); [contradiction |].
    exact (IH H).
Qed.

Lemma In_remove_assoc {A : Type} h h' (l : list (nat * A)) a :
  In (h', a) (remove_assoc h l) -> In (h', a) l.
Proof.
  induction l as [| [k b] l IH]; cbn [remove_assoc]; [auto |].
  destruct (Nat.eqb h k); cbn [In]; intuition.
Qed.

Lemma In_replace {A : Type} h h' (l : list (nat * A)) a a' :
  In (h', a)
    (map (fun entry => if Nat.eqb (fst entry) h then (h, a') else entry) l) ->
  exists b, In (h', b) l.
Proof.
  induction l as [| [k b] l IH]; cbn [map In fst]; [contradiction |].
  destruct (Nat.eqb_spec k h) as [-> | Hne].
  - intros [[= <- _] | H]; [exists b; left; reflexivity |].
    destruct (IH H) as [b' Hb']. exists b'. right. exact Hb'.
  - intros [[= <- <-] | H]; [exists b; left; reflexivity |].
    destruct (IH H) as [b' Hb']. exists b'. right. exact Hb'.
Qed.

Lemma fresh_handle_unused s :
  handles_fresh s -> assoc (timers s) (intervals s) = None.
Proof.
  intros Hfresh.
  destruct (assoc (timers s) (intervals s)) as [job |] eqn:E; [| reflexivity].
  apply assoc_In in E. apply Hfresh in E. lia.
Qed.

(** ** Handles stay fresh in every reachable state *)

Section Freshness.

Variable rt : Runtime.

Lemma preserves_ret {A : Type} P (a : A) : preserves P (ret a).
Proof. intros s H. exact H. Qed.

Lemma preserves_throw {A : Type} P e : preserves P (@throw A e).
Proof. intros s H. exact H. Qed.

Lemma preserves_bind {A B : Type} P (m : M A) (k : A -> M B) :
  preserves P m -> (forall a, preserves P (k a)) -> preserves P (bind m k).
Proof.
  intros Hm Hk s H. unfold bind.
  specialize (Hm s H). destruct (m s) as [[a | e] s']; cbn [snd] in *.
  - apply Hk. exact Hm.
  - exact Hm.
Qed.

Lemma preserves_try_catch {A : Type} P (m : M A) (k : exn -> M A) :
  preserves P m -> (forall e, preserves P (k e)) -> preserves P (try_catch m k).
Proof.
  intros Hm Hk s H. unfold try_catch.
  specialize (Hm s H). destruct (m s) as [[a | e] s']; cbn [snd] in *.
  - exact Hm.
  - apply Hk. exact Hm.
Qed.

(** A computation that touches neither the timer counter nor the
    intervals. *)
Lemma preserves_untouched {A : Type} (m : M A) :
  (forall s, timers (snd (m s)) = timers s
             /\ intervals (snd (m s)) = intervals s) ->
  preserves handles_fresh m.
Proof.
  intros Hm s H h job Hin. destruct (Hm s) as [Ht Hi].
  rewrite Ht. rewrite Hi in Hin. exact (H h job Hin).
Qed.

Lemma fresh_emit e : preserves handles_fresh (emit e).
Proof. apply preserves_untouched. intros s. split; reflexivity. Qed.

Lemma fresh_send ws msg : preserves handles_fresh (send ws msg).
Proof. apply fresh_emit. Qed.

Lemma fresh_uuid : preserves handles_fresh (uuid rt).
Proof. apply preserves_untouched. intros s. split; reflexivity. Qed.

Lemma fresh_read site o k : preserves handles_fresh (read rt site o k).
Proof. unfold read. destruct (nullish o); intros s H; exact H. Qed.

Lemma fresh_destructure site o : preserves handles_fresh (destructure rt site o).
Proof. unfold destructure. destruct (nullish o); intros s H; exact H. Qed.

Lemma fresh_to_string v : preserves handles_fresh (to_string rt v).
Proof. unfold to_string. destruct (string_of rt v); intros st H; exact H. Qed.

Lemma fresh_to_number v : preserves handles_fresh (to_number rt v).
Proof. unfold to_number. destruct (number_of rt v); intros st H; exact H. Qed.

Lemma fresh_await_axios w config : preserves handles_fresh (await_axios w config).
Proof.
  unfold await_axios. apply preserves_bind; [apply fresh_emit | intros _].
  destruct (axios w config); intros s H; exact H.
Qed.

Lemma fresh_await_writeFile w path content :
  preserves handles_fresh (await_writeFile w path content).
Proof.
  unfold await_writeFile. apply preserves_bind; [apply fresh_emit | intros _].
  destruct (fs_writeFile w path); intros s H; exact H.
Qed.

Lemma fresh_await_rm w path : preserves handles_fresh (await_rm w path).
Proof.
  unfold await_rm. apply preserves_bind; [apply fresh_emit | intros _].
  destruct (fs_rm w path); intros s H; exact H.
Qed.

Lemma fresh_close ws : preserves handles_fresh (close ws).
Proof.
  unfold close. apply preserves_bind; [apply fresh_emit | intros _].
  intros s H. exact H.
Qed.

Lemma fresh_exit code : preserves handles_fresh (exit code).
Proof.
  unfold exit. apply preserves_bind; [apply fresh_emit | intros _].
  intros s H. exact H.
Qed.

Lemma fresh_setInterval job : preserves handles_fresh (setInterval job).
Proof.
  intros s H h j Hin. cbn in *. apply in_app_or in Hin.
  destruct Hin as [Hin | [[= <- _] | []]]; [apply H in Hin |]; lia.
Qed.

Lemma fresh_setTimeout job : preserves handles_fresh (setTimeout job).
Proof. intros s H h j Hin. cbn in *. apply H in Hin. lia. Qed.

Lemma fresh_clearInterval h : preserves handles_fresh (clearInterval h).
Proof.
  intros s H h' j Hin. cbn in *. apply In_remove_assoc in Hin.
  exact (H h' j Hin).
Qed.

Lemma fresh_Object_assign target source :
  preserves handles_fresh (Object_assign rt target source).
Proof.
  unfold Object_assign.
  destruct target, source;
    try destruct (Object_assign_exotic rt _ _); intros st H; exact H.
Qed.

Lemma fresh_Buffer_from v : preserves handles_fresh (Buffer_from rt v).
Proof.
  unfold Buffer_from.
  destruct v; try destruct (Buffer_from_exotic rt _); intros st H; exact H.
Qed.

Lemma fresh_decode_data_uri v : preserves handles_fresh (decode_data_uri rt v).
Proof.
  unfold decode_data_uri.
  destruct v; try destruct (nth_error _ _); intros st H; exact H.
Qed.

Lemma fresh_upper v : preserves handles_fresh (upper rt v).
Proof. unfold upper. destruct v; intros st H; exact H. Qed.

Lemma fresh_includes v needle : preserves handles_fresh (includes rt v needle).
Proof. unfold includes. destruct v; intros st H; exact H. Qed.

Create HintDb fresh.

#[local] Hint Resolve fresh_to_string fresh_to_number : fresh.

#[local] Hint Resolve preserves_ret preserves_throw fresh_emit fresh_send fresh_uuid
  fresh_read fresh_destructure fresh_await_axios fresh_await_writeFile
  fresh_await_rm fresh_close fresh_exit fresh_setInterval fresh_setTimeout
  fresh_clearInterval fresh_Object_assign fresh_Buffer_from
  fresh_decode_data_uri fresh_upper fresh_includes : fresh.

Ltac fresh_step :=
  match goal with
  | |- preserves _ (bind _ _) => apply preserves_bind; [| intro]
  | |- preserves _ (try_catch _ _) => apply preserves_try_catch; [| intro]
  | |- preserves _ (if ?b then _ else _) => destruct b
  | |- preserves _ _ => solve [auto with fresh]
  end.

Ltac fresh_auto := cbv zeta; repeat fresh_step.

Lemma fresh_broadcast_open msg cs :
  preserves handles_fresh (broadcast_open msg cs).
Proof.
  induction cs as [| [k client] cs IH]; cbn [broadcast_open]; [fresh_auto |].
  apply preserves_bind; [| intros _; exact IH].
  intros s H. destruct (readyState s client =? OPEN); [| exact H].
  apply fresh_send. exact H.
Qed.

Lemma fresh_checkServiceStatus w url :
  preserves handles_fresh (checkServiceStatus w url).
Proof. unfold checkServiceStatus. fresh_auto. Qed.

Lemma fresh_updateServiceStatus w :
  preserves handles_fresh (updateServiceStatus rt w).
Proof.
  unfold updateServiceStatus.
  apply preserves_bind; [apply fresh_checkServiceStatus | intro].
  apply preserves_bind; [apply fresh_checkServiceStatus | intro].
  intros s H. apply fresh_broadcast_open. exact H.
Qed.

Lemma fresh_shutdown_clients cs :
  preserves handles_fresh (shutdown_clients cs).
Proof.
  induction cs as [| [k client] cs IH]; cbn [shutdown_clients]; [fresh_auto |].
  apply preserves_bind; [apply fresh_send | intros _].
  apply preserves_bind; [apply fresh_close | intros _]. exact IH.
Qed.

Lemma fresh_dispatch w ws request :
  preserves handles_fresh (dispatch rt w ws request).
Proof.
  unfold dispatch, handle_ping, handle_voicevox_speakers,
    handle_voicevox_synthesis, handle_rvc_upload_training_data,
    handle_rvc_start_training, handle_rvc_voice_conversion,
    handle_voicevox_request, handle_default.
  destruct (get request "type"); fresh_auto.
Qed.

Lemma fresh_on_message w ws f :
  preserves handles_fresh (on_message rt w ws f).
Proof.
  unfold on_message, process, JSON_parse.
  apply preserves_try_catch; [| intro; apply fresh_send].
  apply preserves_bind; [destruct f; fresh_auto | intro].
  apply preserves_bind; [apply fresh_destructure | intro].
  apply fresh_dispatch.
Qed.

Lemma fresh_progress_tick h job :
  preserves handles_fresh (progress_tick rt h job).
Proof.
  unfold progress_tick. cbv zeta.
  apply preserves_bind; [| intro; fresh_auto].
  intros s H h' j Hin. cbn in *.
  apply In_replace in Hin. destruct Hin as [b Hb]. exact (H h' b Hb).
Qed.

Lemma run_preserves P (m : M unit) s : preserves P m -> P s -> P (run m s).
Proof. intros Hm H. exact (Hm s H). Qed.

Lemma fresh_on_connection w ws :
  preserves handles_fresh (on_connection rt w ws).
Proof.
  unfold on_connection.
  apply preserves_bind; [apply fresh_uuid | intro].
  apply preserves_bind; [intros s H; exact H | intro].
  apply preserves_bind; [apply fresh_send | intro].
  unfold spawn_updateServiceStatus.
  apply preserves_bind; [apply fresh_emit | intro].
  intros s H; exact H.
Qed.

Lemma fresh_resume w k task :
  preserves handles_fresh (resume_updateServiceStatus rt w k task).
Proof.
  destruct task; unfold resume_updateServiceStatus; cbv zeta.
  - apply preserves_bind; [apply fresh_emit | intro].
    intros s H; exact H.
  - apply preserves_bind; [intros s H; exact H | intro].
    intros s H. apply fresh_broadcast_open. exact H.
Qed.

Lemma run_callback_preserves (P : State -> Prop) (m : M unit) s :
  (forall e st, P st -> P (with_exited true (with_trace (trace st ++ [Uncaught e]) st))) ->
  preserves P m -> P s -> P (run_callback m s).
Proof.
  intros Hthrow Hm H. unfold run_callback.
  specialize (Hm s H). destruct (m s) as [[u | e] s']; cbn [snd] in Hm.
  - exact Hm.
  - apply Hthrow. exact Hm.
Qed.

Lemma fresh_on_SIGINT w : preserves handles_fresh (on_SIGINT w).
Proof.
  unfold on_SIGINT.
  apply preserves_bind; [| intro; fresh_auto].
  intros s H. apply fresh_shutdown_clients. exact H.
Qed.

Lemma fresh_step w i s : handles_fresh s -> handles_fresh (step rt w i s).
Proof.
  intros H. unfold step. destruct (exited s); [exact H |].
  destruct i as [ws | ws f | ws clientId | | h | h | | k].
  - apply run_preserves; [apply fresh_on_connection | exact H].
  - apply run_preserves; [apply fresh_on_message | exact H].
  - exact H.
  - apply run_preserves; [apply fresh_updateServiceStatus | exact H].
  - destruct (assoc h (intervals s)) as [job |]; [| exact H].
    apply run_callback_preserves;
      [intros e st Hst; exact Hst | apply fresh_progress_tick | exact H].
  - destruct (assoc h (timeouts s)) as [job |]; [| exact H].
    apply run_callback_preserves;
      [intros e st Hst; exact Hst | apply fresh_send | exact H].
  - apply run_preserves; [apply fresh_on_SIGINT | exact H].
  - destruct (nth_error (pending_status s) k) as [task |]; [| exact H].
    apply run_preserves; [apply fresh_resume | exact H].
Qed.

Lemma reachable_fresh s : reachable rt s -> handles_fresh s.
Proof.
  induction 1 as [| w i s Hs IH].
  - intros h job [].
  - apply fresh_step. exact IH.
Qed.

End Freshness.

(** ** Training jobs *)

Section Training.

Variable rt : Runtime.

Lemma reached_num c E : reached rt c (num E) = (E <=? c).
Proof.
  unfold reached, num, number_of, Qle_bool, inject_Z. cbn [Qnum Qden].
  rewrite !Z.mul_1_r. reflexivity.
Qed.

(** One tick of a live interval whose [epochs] converts to a number. *)
Lemma tick_live w h s ws modelId modelName epochs e c :
  number_of rt epochs = Some e ->
  exited s = false ->
  assoc h (intervals s)
  = Some {| job_ws := ws; job_modelId := modelId; job_modelName := modelName;
            job_epochs := epochs; currentEpoch := c |} ->
  exited (step rt w (IntervalTick h) s) = false
  /\ if reached rt (c + 10) epochs
     then trace (step rt w (IntervalTick h) s)
          = (trace s ++ [Send ws (training_progress rt modelId (c + 10) epochs);
                         Send ws (training_complete rt modelId modelName)])%list
          /\ assoc h (intervals (step rt w (IntervalTick h) s)) = None
     else trace (step rt w (IntervalTick h) s)
          = (trace s ++ [Send ws (training_progress rt modelId (c + 10) epochs)])%list
          /\ assoc h (intervals (step rt w (IntervalTick h) s))
             = Some {| job_ws := ws; job_modelId := modelId;
                       job_modelName := modelName; job_epochs := epochs;
                       currentEpoch := c + 10 |}.
Proof.
  intros Hnum Hrun Hjob. unfold step, run_callback. rewrite Hrun, Hjob.
  unfold progress_tick, bind, send, emit, clearInterval, ret, to_number.
  cbn [job_ws job_modelId job_modelName job_epochs currentEpoch snd].
  rewrite Hnum.
  destruct (reached rt (c + 10) epochs); cbn.
  - rewrite Hrun, <- app_assoc, assoc_remove. auto.
  - rewrite Hrun, (assoc_replace _ _ _ _ Hjob). auto.
Qed.

Lemma tick_dead w h s :
  assoc h (intervals s) = None -> step rt w (IntervalTick h) s = s.
Proof.
  intros H. unfold step. rewrite H. destruct (exited s); reflexivity.
Qed.

Lemma ticks_dead w h m s :
  assoc h (intervals s) = None -> ticks rt w h m s = s.
Proof.
  induction m as [| m IH]; cbn [ticks]; [reflexivity |].
  intros H. rewrite (tick_dead _ _ _ H). exact (IH H).
Qed.

Lemma ticks_add w h n m s :
  ticks rt w h (n + m) s = ticks rt w h m (ticks rt w h n s).
Proof.
  revert s. induction n as [| n IH]; intros s; cbn [ticks Nat.add];
    [reflexivity | apply IH].
Qed.

(** A live job whose test [currentEpoch >= epochs] first succeeds at the
    [n]-th tick from now pushes [n] progress messages and one completion,
    and its interval is cleared. *)
Lemma ticks_run w h ws modelId modelName epochs e n :
  number_of rt epochs = Some e ->
  forall c s,
    exited s = false ->
    assoc h (intervals s)
    = Some {| job_ws := ws; job_modelId := modelId; job_modelName := modelName;
              job_epochs := epochs; currentEpoch := c |} ->
    (forall k, (0 < k < S n)%nat ->
               reached rt (c + 10 * Z.of_nat k) epochs = false) ->
    reached rt (c + 10 * Z.of_nat (S n)) epochs = true ->
    trace (ticks rt w h (S n) s)
    = (trace s ++ progress_pushes rt ws modelId epochs c (S n)
         ++ [Send ws (training_complete rt modelId modelName)])%list
    /\ assoc h (intervals (ticks rt w h (S n) s)) = None
    /\ exited (ticks rt w h (S n) s) = false.
Proof.
  intros Hnum.
  induction n as [| n IH]; intros c s Hrun Hjob Hbefore Hat.
  - cbn [ticks progress_pushes app].
    destruct (tick_live w h s ws modelId modelName epochs e c Hnum Hrun Hjob)
      as [Hrun' Htick].
    replace (c + 10 * Z.of_nat 1) with (c + 10) in Hat by lia.
    rewrite Hat in Htick. destruct Htick as [Htrace Hdead]. auto.
  - change (ticks rt w h (S (S n)) s)
      with (ticks rt w h (S n) (step rt w (IntervalTick h) s)).
    destruct (tick_live w h s ws modelId modelName epochs e c Hnum Hrun Hjob)
      as [Hrun' Htick].
    assert (H1 : reached rt (c + 10) epochs = false).
    { replace (c + 10) with (c + 10 * Z.of_nat 1) by lia.
      apply Hbefore. lia. }
    rewrite H1 in Htick. destruct Htick as [Htrace Hjob'].
    destruct (IH (c + 10) _ Hrun' Hjob') as [Ht [Hd He]].
    + intros k Hk.
      replace (c + 10 + 10 * Z.of_nat k) with (c + 10 * Z.of_nat (S k)) by lia.
      apply Hbefore. lia.
    + replace (c + 10 + 10 * Z.of_nat (S n))
        with (c + 10 * Z.of_nat (S (S n))) by lia.
      exact Hat.
    + split; [| auto].
      rewrite Ht, Htrace, <- app_assoc. reflexivity.
Qed.

Lemma currentEpochs_pushes ws modelId modelName epochs n :
  forall c,
    currentEpochs (progress_pushes rt ws modelId epochs c n
                     ++ [Send ws (training_complete rt modelId modelName)])
    = map (fun k => num (c + 10 * Z.of_nat k)) (seq 1 n).
Proof.
  induction n as [| n IH]; intros c; [reflexivity |].
  cbn [progress_pushes app seq map].
  change (currentEpochs
            (Send ws (training_progress rt modelId (c + 10) epochs) :: ?l))
    with (num (c + 10) :: currentEpochs l).
  rewrite IH, <- (seq_shift n 1), map_map.
  replace (c + 10 * Z.of_nat 1) with (c + 10) by lia.
  apply (f_equal (cons (num (c + 10)))).
  apply map_ext. intros k.
  replace (c + 10 + 10 * Z.of_nat k) with (c + 10 * Z.of_nat (S k)) by lia.
  reflexivity.
Qed.

(** What the start-training handler does when [data] is present. *)
Lemma start_training_step w ws request s :
  exited s = false ->
  get request "type" = VStr "rvc-start-training" ->
  nullish (get request "data") = false ->
  trace (step rt w (Message ws (Parsed request)) s)
  = (trace s ++
     [Send ws
        (VObj [("type", VStr "rvc-training-started");
               ("data",
                VObj [("modelId", VStr (uuidv4 rt (uuids s)));
                      ("modelName", get (get request "data") "modelName");
                      ("status", VStr "training");
                      ("totalEpochs", get (get request "data") "epochs")]);
               ("requestId", get request "requestId")])])%list
  /\ intervals (step rt w (Message ws (Parsed request)) s)
     = (intervals s ++
        [(timers s,
          {| job_ws := ws; job_modelId := uuidv4 rt (uuids s);
             job_modelName := get (get request "data") "modelName";
             job_epochs := get (get request "data") "epochs";
             currentEpoch := 0 |})])%list
  /\ exited (step rt w (Message ws (Parsed request)) s) = false.
Proof.
  intros Hrun Htype Hdata.
  rewrite (step_message _ _ _ _ _ Hrun).
  rewrite (on_message_parsed _ _ _ _ _ (typed_not_nullish _ _ Htype)).
  unfold dispatch. rewrite Htype. cbn [String.eqb Ascii.eqb Bool.eqb].
  unfold handle_rvc_start_training, try_catch, bind, destructure.
  rewrite Hdata. cbn. auto.
Qed.

End Training.

(** The job started by a request in a reachable state: its handle is new. *)
Lemma start_training_job rt w ws request s :
  reachable rt s ->
  exited s = false ->
  get request "type" = VStr "rvc-start-training" ->
  nullish (get request "data") = false ->
  assoc (timers s) (intervals (step rt w (Message ws (Parsed request)) s))
  = Some {| job_ws := ws; job_modelId := uuidv4 rt (uuids s);
            job_modelName := get (get request "data") "modelName";
            job_epochs := get (get request "data") "epochs";
            currentEpoch := 0 |}.
Proof.
  intros Hreach Hrun Htype Hdata.
  destruct (start_training_step rt w ws request s Hrun Htype Hdata)
    as [_ [Hint _]].
  rewrite Hint. apply assoc_app_new, fresh_handle_unused.
  exact (reachable_fresh rt s Hreach).
Qed.

(** A job whose test first succeeds at tick [S n]: the pushes after the
    request, however many more ticks are attempted. *)
Lemma training_job_pushes rt w w' ws request s e n extra :
  reachable rt s ->
  exited s = false ->
  get request "type" = VStr "rvc-start-training" ->
  nullish (get request "data") = false ->
  number_of rt (get (get request "data") "epochs") = Some e ->
  (forall k, (0 < k < S n)%nat ->
     reached rt (0 + 10 * Z.of_nat k) (get (get request "data") "epochs") = false) ->
  reached rt (0 + 10 * Z.of_nat (S n)) (get (get request "data") "epochs") = true ->
  events_since (step rt w (Message ws (Parsed request)) s)
    (ticks rt w' (timers s) (S n + extra)
       (step rt w (Message ws (Parsed request)) s))
  = (progress_pushes rt ws (uuidv4 rt (uuids s))
       (get (get request "data") "epochs") 0 (S n)
     ++ [Send ws (training_complete rt (uuidv4 rt (uuids s))
                    (get (get request "data") "modelName"))])%list
  /\ assoc (timers s)
       (intervals (ticks rt w' (timers s) (S n + extra)
                     (step rt w (Message ws (Parsed request)) s)))
     = None.
Proof.
  intros Hreach Hrun Htype Hdata Hnum Hbefore Hat.
  pose proof (start_training_job rt w ws request s Hreach Hrun Htype Hdata)
    as Hjob.
  destruct (start_training_step rt w ws request s Hrun Htype Hdata)
    as [_ [_ Hrun1]].
  destruct (ticks_run rt w' (timers s) ws _ _ _ e n Hnum 0 _ Hrun1 Hjob
              Hbefore Hat) as [Htrace [Hdead _]].
  rewrite ticks_add, (ticks_dead rt w' _ extra _ Hdead).
  split; [apply events_since_app; exact Htrace | exact Hdead].
Qed.

(** C2, as amended.  For a start-training request with integer epochs
    [E > 0], made while the server runs, the ticks of its interval push
    training-progress messages whose currentEpoch values are 10, 20, ...,
    10 n, where 10 n is the least multiple of 10 that is at least [E] (so
    the last value equals [E] exactly when 10 divides [E], and otherwise
    exceeds it by less than 10); then one training-complete push follows,
    the interval is cleared, and further ticks push nothing. *)
Theorem training_progress_steps rt w w' ws request s E extra :
  reachable rt s ->
  exited s = false ->
  get request "type" = VStr "rvc-start-training" ->
  get (get request "data") "epochs" = num E ->
  0 < E ->
  events_since (step rt w (Message ws (Parsed request)) s)
    (ticks rt w' (timers s) (Z.to_nat ((E + 9) / 10) + extra)
       (step rt w (Message ws (Parsed request)) s))
  = (progress_pushes rt ws (uuidv4 rt (uuids s)) (num E) 0
       (Z.to_nat ((E + 9) / 10))
     ++ [Send ws (training_complete rt (uuidv4 rt (uuids s))
                    (get (get request "data") "modelName"))])%list
  /\ currentEpochs
       (events_since (step rt w (Message ws (Parsed request)) s)
          (ticks rt w' (timers s) (Z.to_nat ((E + 9) / 10) + extra)
             (step rt w (Message ws (Parsed request)) s)))
     = map (fun k => num (10 * Z.of_nat k)) (seq 1 (Z.to_nat ((E + 9) / 10)))
  /\ 10 * ((E + 9) / 10) - 10 < E <= 10 * ((E + 9) / 10)
  /\ assoc (timers s)
       (intervals (ticks rt w' (timers s) (Z.to_nat ((E + 9) / 10) + extra)
                     (step rt w (Message ws (Parsed request)) s)))
     = None.
Proof.
  intros Hreach Hrun Htype Hepochs HE.
  assert (Hdata : nullish (get request "data") = false).
  { apply (fielded_not_nullish _ "epochs"). rewrite Hepochs. discriminate. }
  pose proof (Z.div_mod (E + 9) 10 ltac:(lia)) as Hdiv.
  pose proof (Z.mod_pos_bound (E + 9) 10 ltac:(lia)) as Hmod.
  assert (Hbounds : 10 * ((E + 9) / 10) - 10 < E <= 10 * ((E + 9) / 10)) by lia.
  destruct (Z.to_nat ((E + 9) / 10)) as [| n] eqn:Hn; [lia |].
  destruct (training_job_pushes rt w w' ws request s (Finite (inject_Z E)) n
              extra Hreach Hrun Htype Hdata) as [Hevents Hdead].
  - rewrite Hepochs. reflexivity.
  - intros k Hk. rewrite Hepochs, reached_num. apply Z.leb_gt. lia.
  - rewrite Hepochs, reached_num. apply Z.leb_le. lia.
  - rewrite Hepochs in Hevents.
    repeat split; try assumption; try lia.
    rewrite Hevents, currentEpochs_pushes. reflexivity.
Qed.

(** C2, the claim as stated fails: with epochs 15 the pushes carry
    currentEpoch 10 and then 20, so the last value is not 15 and exceeds it. *)
Lemma training_overshoots_epochs :
  currentEpochs
    (trace (ticks sample_runtime backends_down 0 5
              (step sample_runtime backends_down
                 (Message 0 (Parsed (request_of "rvc-start-training"
                                       [("modelName", VStr "m1");
                                        ("epochs", num 15)] "r2")))
                 initial)))
  = [num 10; num 20].
Proof. reflexivity. Qed.

Lemma training_progress_steps_witness :
  currentEpochs
    (events_since
       (step sample_runtime backends_down
          (Message 0 (Parsed (request_of "rvc-start-training"
                                [("modelName", VStr "m1");
                                 ("epochs", num 20)] "r2")))
          initial)
       (ticks sample_runtime backends_down 0 (2 + 3)
          (step sample_runtime backends_down
             (Message 0 (Parsed (request_of "rvc-start-training"
                                   [("modelName", VStr "m1");
                                    ("epochs", num 20)] "r2")))
             initial)))
  = [num 10; num 20].
Proof.
  exact (proj1 (proj2
    (training_progress_steps sample_runtime backends_down backends_down 0%nat
       (request_of "rvc-start-training"
          [("modelName", VStr "m1"); ("epochs", num 20)] "r2")
       initial 20 3%nat
       (reachable_initial sample_runtime) eq_refl eq_refl eq_refl eq_refl))).
Defined.

(** C1, as amended.  A start-training request with integer epochs [E <= 0],
    made while the server runs, is not refused: the router sends exactly one
    reply, training-started, echoing the request id, and starts an interval;
    the first tick of that interval pushes one training-progress with
    currentEpoch 10 and then one training-complete, the interval is cleared,
    and further ticks push nothing. *)
Theorem start_training_nonpositive_epochs rt w w' ws request s E extra :
  reachable rt s ->
  exited s = false ->
  get request "type" = VStr "rvc-start-training" ->
  get (get request "data") "epochs" = num E ->
  E <= 0 ->
  events_since s (step rt w (Message ws (Parsed request)) s)
  = [Send ws
       (VObj [("type", VStr "rvc-training-started");
              ("data",
               VObj [("modelId", VStr (uuidv4 rt (uuids s)));
                     ("modelName", get (get request "data") "modelName");
                     ("status", VStr "training");
                     ("totalEpochs", num E)]);
              ("requestId", get request "requestId")])]
  /\ events_since (step rt w (Message ws (Parsed request)) s)
       (ticks rt w' (timers s) (1 + extra)
          (step rt w (Message ws (Parsed request)) s))
     = [Send ws (training_progress rt (uuidv4 rt (uuids s)) 10 (num E));
        Send ws (training_complete rt (uuidv4 rt (uuids s))
                   (get (get request "data") "modelName"))]
  /\ assoc (timers s)
       (intervals (ticks rt w' (timers s) (1 + extra)
                     (step rt w (Message ws (Parsed request)) s)))
     = None.
Proof.
  intros Hreach Hrun Htype Hepochs HE.
  assert (Hdata : nullish (get request "data") = false).
  { apply (fielded_not_nullish _ "epochs"). rewrite Hepochs. discriminate. }
  destruct (start_training_step rt w ws request s Hrun Htype Hdata)
    as [Htrace _].
  destruct (training_job_pushes rt w w' ws request s (Finite (inject_Z E)) 0
              extra Hreach Hrun Htype Hdata) as [Hevents Hdead].
  - rewrite Hepochs. reflexivity.
  - intros k Hk. lia.
  - rewrite Hepochs, reached_num. apply Z.leb_le. lia.
  - rewrite Hepochs in Hevents, Htrace.
    split; [apply events_since_app; exact Htrace |].
    split; [exact Hevents | exact Hdead].
Qed.

(** C1, the claim as stated fails: with epochs 0 the reply is
    training-started, not an error, and a progress push and a completion
    push follow on the connection. *)
Lemma start_training_zero_epochs_is_accepted :
  trace (ticks sample_runtime backends_down 0 1
           (step sample_runtime backends_down
              (Message 0 (Parsed (request_of "rvc-start-training"
                                    [("modelName", VStr "m1");
                                     ("epochs", num 0)] "r2")))
              initial))
  = [Send 0 (VObj [("type", VStr "rvc-training-started");
                   ("data", VObj [("modelId", VStr "a");
                                  ("modelName", VStr "m1");
                                  ("status", VStr "training");
                                  ("totalEpochs", num 0)]);
                   ("requestId", VStr "r2")]);
     Send 0 (VObj [("type", VStr "rvc-training-progress");
                   ("data", VObj [("modelId", VStr "a");
                                  ("currentEpoch", num 10);
                                  ("totalEpochs", num 0);
                                  ("progress", VNonFinite PosInfinity)])]);
     Send 0 (VObj [("type", VStr "rvc-training-complete");
                   ("data", VObj [("modelId", VStr "a");
                                  ("modelName", VStr "m1");
                                  ("status", VStr "ready");
                                  ("modelPath", VStr "/srv/models/a.pth")])])].
Proof. reflexivity. Qed.

Lemma start_training_nonpositive_epochs_witness :
  events_since
    (step sample_runtime backends_down
       (Message 0 (Parsed (request_of "rvc-start-training"
                             [("modelName", VStr "m1");
                              ("epochs", num (-5))] "r2")))
       initial)
    (ticks sample_runtime backends_down 0 (1 + 4)
       (step sample_runtime backends_down
          (Message 0 (Parsed (request_of "rvc-start-training"
                                [("modelName", VStr "m1");
                                 ("epochs", num (-5))] "r2")))
          initial))
  = [Send 0 (training_progress sample_runtime "a" 10 (num (-5)));
     Send 0 (training_complete sample_runtime "a" (VStr "m1"))].
Proof.
  exact (proj1 (proj2
    (start_training_nonpositive_epochs sample_runtime backends_down
       backends_down 0%nat
       (request_of "rvc-start-training"
          [("modelName", VStr "m1"); ("epochs", num (-5))] "r2")
       initial (-5) 4%nat
       (reachable_initial sample_runtime) eq_refl eq_refl eq_refl
       ltac:(lia)))).
Defined.

(** ** Backend failures *)

Lemma Object_assign_pure rt target source :
  exists r, forall s, Object_assign rt target source s = (r, s).
Proof.
  unfold Object_assign.
  destruct target, source; try destruct (Object_assign_exotic rt _ _);
    eexists; intros st; reflexivity.
Qed.

Lemma Buffer_from_pure rt v :
  exists r, forall s, Buffer_from rt v s = (r, s).
Proof.
  unfold Buffer_from.
  destruct v; try destruct (Buffer_from_exotic rt _);
    eexists; intros st; reflexivity.
Qed.

Lemma to_string_pure rt v : exists r, forall s, to_string rt v s = (r, s).
Proof.
  unfold to_string. destruct (string_of rt v); eexists; intros st; reflexivity.
Qed.

Lemma upper_pure rt v : exists r, forall s, upper rt v s = (r, s).
Proof. unfold upper. destruct v; eexists; intros st; reflexivity. Qed.

Lemma includes_pure rt v needle :
  exists r, forall s, includes rt v needle s = (r, s).
Proof. unfold includes. destruct v; eexists; intros st; reflexivity. Qed.

Lemma overridden_run rt audioQuery params aq :
  overridden audioQuery params = Some aq ->
  forall st,
    (if truthy params then Object_assign rt audioQuery params
     else ret audioQuery) st = (Normal aq, st).
Proof.
  unfold overridden, Object_assign.
  destruct params as [| | b | q | k | p | | |]; cbn [truthy];
    try (intros [= <-]; reflexivity); try discriminate.
  - destruct b; [discriminate | intros [= <-]; reflexivity].
  - destruct (negb (Qeq_bool q 0)); [discriminate | intros [= <-]; reflexivity].
  - destruct k; first [discriminate | intros [= <-]; reflexivity].
  - destruct (negb _); [discriminate | intros [= <-]; reflexivity].
  - destruct audioQuery; try discriminate. intros [= <-]. reflexivity.
Qed.

(** Rewrites [events_since s s'] to the events appended to [trace s]. *)
Ltac events_norm :=
  erewrite events_since_app
    by (cbn [trace with_trace with_files with_uuids with_timers with_intervals
               with_timeouts with_clients with_readyState with_exited];
        rewrite <- ?app_assoc; reflexivity).

(** Closes a goal whose hypothesis [H] says that a call failed although
    every call made was resolved, or none was made. *)
Ltac refute_failure H :=
  exfalso; destruct H as [? [Hin Hrej]]; cbn [called In app] in Hin;
  repeat match goal with
         | Hin : _ \/ _ |- _ => destruct Hin as [<- | Hin]
         | Hin : False |- _ => contradiction
         end; congruence.

Ltac run_handler := cbn [throw ret send emit snd fst bind].

Lemma synthesis_fallback rt w ws request s e :
  exited s = false ->
  get request "type" = VStr "voicevox-synthesis" ->
  backend_failed w
    (events_since s (step rt w (Message ws (Parsed request)) s)) e ->
  sent (events_since s (step rt w (Message ws (Parsed request)) s))
  = [(ws, VObj [("type", VStr "voicevox-synthesis-response");
                ("data",
                 VObj [("audio", VStr ("data:audio/wav;base64," ++ mockWav));
                       ("text", get (get request "data") "text");
                       ("speaker_id", get (get request "data") "speaker_id");
                       ("mock", VBool true)]);
                ("requestId", get request "requestId")])].
Proof.
  intros Hrun Htype.
  rewrite (step_message _ _ _ _ _ Hrun).
  rewrite (on_message_parsed _ _ _ _ _ (typed_not_nullish _ _ Htype)).
  unfold dispatch. rewrite Htype. cbn [String.eqb Ascii.eqb Bool.eqb].
  unfold handle_voicevox_synthesis, try_catch, bind, read, await_axios.
  destruct (nullish (get request "data")) eqn:Hdata.
  - run_handler. events_norm. intros Hfail. refute_failure Hfail.
  - run_handler.
    destruct (axios w (audio_query_request rt _ _))
      as [queryResponse | e1] eqn:Hquery; run_handler.
    + assert (Hmerge : exists r, forall st,
                (if truthy (get (get request "data") "params")
                 then Object_assign rt (resp_data queryResponse)
                        (get (get request "data") "params")
                 else ret (resp_data queryResponse)) st = (r, st)).
      { destruct (truthy _); [apply Object_assign_pure |].
        eexists; intros st; reflexivity. }
      destruct Hmerge as [r Hr]. rewrite Hr.
      destruct r as [audioQuery | e2].
      * destruct (axios w (synthesis_request rt audioQuery _))
          as [synthesisResponse | e3] eqn:Hsynth; run_handler.
        -- destruct (Buffer_from_pure rt (resp_data synthesisResponse))
             as [b Hb].
           rewrite Hb. destruct b as [bytes | e4];
             run_handler; events_norm;
             intros Hfail; first [reflexivity | refute_failure Hfail].
        -- events_norm. intros _. reflexivity.
      * run_handler. events_norm. intros _. reflexivity.
    + events_norm. intros _. reflexivity.
Qed.

(** C3.  When the call to the synthesis backend fails while a list-voices
    (voicevox-speakers) or a synthesize (voicevox-synthesis) request is
    handled, the server sends exactly one message, which is not an error
    reply.  For list-voices the handler makes one call, and when the backend
    rejects it the reply is the speakers response carrying the built-in
    catalog.  For synthesize, when the backend rejects the audio query, or
    answers it and then rejects the synthesis, or more generally rejects any
    call made while the request is handled, the reply is the synthesis
    response carrying the built-in silent WAV, tagged [mock: true].  Either
    reply echoes the request id. *)
Theorem synthesis_backend_failure_falls_back rt w ws request s e :
  exited s = false ->
  (get request "type" = VStr "voicevox-speakers" ->
   axios w (speakers_request rt) = Rejected e ->
   events_since s (step rt w (Message ws (Parsed request)) s)
   = [Http (speakers_request rt);
      Send ws (VObj [("type", VStr "voicevox-speakers-response");
                     ("data", mock_speakers);
                     ("requestId", get request "requestId")])])
  /\ (get request "type" = VStr "voicevox-synthesis" ->
      let text := get (get request "data") "text" in
      let speaker_id := get (get request "data") "speaker_id" in
      let fallback :=
        VObj [("type", VStr "voicevox-synthesis-response");
              ("data",
               VObj [("audio", VStr ("data:audio/wav;base64," ++ mockWav));
                     ("text", text);
                     ("speaker_id", speaker_id);
                     ("mock", VBool true)]);
              ("requestId", get request "requestId")] in
      (nullish (get request "data") = false ->
       axios w (audio_query_request rt text speaker_id) = Rejected e ->
       events_since s (step rt w (Message ws (Parsed request)) s)
       = [Http (audio_query_request rt text speaker_id); Send ws fallback])
      /\ (forall query audioQuery,
            nullish (get request "data") = false ->
            axios w (audio_query_request rt text speaker_id) = Resolved query ->
            overridden (resp_data query) (get (get request "data") "params")
            = Some audioQuery ->
            axios w (synthesis_request rt audioQuery speaker_id) = Rejected e ->
            events_since s (step rt w (Message ws (Parsed request)) s)
            = [Http (audio_query_request rt text speaker_id);
               Http (synthesis_request rt audioQuery speaker_id);
               Send ws fallback])
      /\ (backend_failed w
            (events_since s (step rt w (Message ws (Parsed request)) s)) e ->
          sent (events_since s (step rt w (Message ws (Parsed request)) s))
          = [(ws, fallback)])).
Proof.
  intros Hrun. split; intros Htype.
  - intros Hcall.
    rewrite (step_message _ _ _ _ _ Hrun).
    rewrite (on_message_parsed _ _ _ _ _ (typed_not_nullish _ _ Htype)).
    unfold dispatch. rewrite Htype. cbn [String.eqb Ascii.eqb Bool.eqb].
    unfold handle_voicevox_speakers, try_catch, bind, await_axios.
    run_handler. rewrite Hcall. run_handler. events_norm. reflexivity.
  - cbv zeta. split; [| split].
    + intros Hdata Hquery.
      rewrite (step_message _ _ _ _ _ Hrun).
      rewrite (on_message_parsed _ _ _ _ _ (typed_not_nullish _ _ Htype)).
      unfold dispatch. rewrite Htype. cbn [String.eqb Ascii.eqb Bool.eqb].
      unfold handle_voicevox_synthesis, try_catch, bind, read, await_axios.
      rewrite Hdata. run_handler. rewrite Hquery. run_handler.
      events_norm. reflexivity.
    + intros query audioQuery Hdata Hquery Hmerge Hsynth.
      rewrite (step_message _ _ _ _ _ Hrun).
      rewrite (on_message_parsed _ _ _ _ _ (typed_not_nullish _ _ Htype)).
      unfold dispatch. rewrite Htype. cbn [String.eqb Ascii.eqb Bool.eqb].
      unfold handle_voicevox_synthesis, try_catch, bind, read, await_axios.
      rewrite Hdata. run_handler. rewrite Hquery. run_handler.
      rewrite (overridden_run rt _ _ _ Hmerge). rewrite Hsynth. run_handler.
      events_norm. reflexivity.
    + exact (synthesis_fallback rt w ws request s e Hrun Htype).
Qed.

Lemma synthesis_backend_failure_falls_back_witness :
  events_since initial
    (step sample_runtime backends_down
       (Message 0 (Parsed (request_of "voicevox-speakers" [] "r0"))) initial)
  = [Http (speakers_request sample_runtime);
     Send 0 (VObj [("type", VStr "voicevox-speakers-response");
                   ("data", mock_speakers);
                   ("requestId", VStr "r0")])]
  /\ events_since initial
       (step sample_runtime backends_down
          (Message 0 (Parsed (request_of "voicevox-synthesis"
                                [("text", VStr "こんにちは");
                                 ("speaker_id", num 3)] "r1")))
          initial)
     = [Http (audio_query_request sample_runtime (VStr "こんにちは") (num 3));
        Send 0
          (VObj [("type", VStr "voicevox-synthesis-response");
                 ("data",
                  VObj [("audio", VStr ("data:audio/wav;base64," ++ mockWav));
                        ("text", VStr "こんにちは");
                        ("speaker_id", num 3);
                        ("mock", VBool true)]);
                 ("requestId", VStr "r1")])].
Proof.
  split.
  - exact (proj1
      (synthesis_backend_failure_falls_back sample_runtime backends_down 0%nat
         (request_of "voicevox-speakers" [] "r0")
         initial (AxiosError "connect ECONNREFUSED" None) eq_refl)
      eq_refl eq_refl).
  - exact (proj1
      (proj2
         (synthesis_backend_failure_falls_back sample_runtime backends_down
            0%nat
            (request_of "voicevox-synthesis"
               [("text", VStr "こんにちは"); ("speaker_id", num 3)] "r1")
            initial (AxiosError "connect ECONNREFUSED" None) eq_refl)
         eq_refl)
      eq_refl eq_refl).
Defined.

(** ** The generic passthrough *)

(** C4.  When the backend call of a generic passthrough (voicevox_request)
    fails with [e], the server sends exactly one message: an error reply that
    echoes the request id, whose text carries the HTTP status text of the
    backend's response, or the message of [e] when there is no response or
    its status text is empty, and whose [details] is the body of the
    backend's response when there is one. *)
Theorem passthrough_failure_is_reported rt w ws request s e :
  exited s = false ->
  get request "type" = VStr "voicevox_request" ->
  backend_failed w
    (events_since s (step rt w (Message ws (Parsed request)) s)) e ->
  sent (events_since s (step rt w (Message ws (Parsed request)) s))
  = [(ws,
      VObj [("type", VStr "error");
            ("error",
             VStr ("VOICEVOX APIエラー: "
                   ++ match response e with
                      | Some r =>
                          if String.eqb (resp_statusText r) "" then message e
                          else resp_statusText r
                      | None => message e
                      end));
            ("details",
             match response e with
             | Some r => resp_data r
             | None => VUndefined
             end);
            ("requestId", get request "requestId")])].
Proof.
  intros Hrun Htype.
  rewrite (step_message _ _ _ _ _ Hrun).
  rewrite (on_message_parsed _ _ _ _ _ (typed_not_nullish _ _ Htype)).
  unfold dispatch. rewrite Htype. cbn [String.eqb Ascii.eqb Bool.eqb].
  unfold handle_voicevox_request, try_catch, bind, read, await_axios.
  destruct (nullish (get request "data")) eqn:Hdata.
  - run_handler. events_norm. intros Hfail. refute_failure Hfail.
  - run_handler. cbv zeta.
    destruct (truthy (get (js_or _ _) "endpoint")) eqn:Hendpoint; cbn [negb].
    + match goal with
      | |- context [to_string rt ?v _] =>
          destruct (to_string_pure rt v) as [t1 Ht1]; rewrite Ht1
      end.
      destruct t1 as [url | e0]; run_handler;
        [| events_norm; intros Hfail; refute_failure Hfail].
      match goal with
      | |- context [to_string rt ?v _] =>
          destruct (to_string_pure rt v) as [t2 Ht2]; rewrite Ht2
      end.
      destruct t2 as [shown | e0]; run_handler;
        [| events_norm; intros Hfail; refute_failure Hfail].
      match goal with
      | |- context [upper rt ?m] => destruct (upper_pure rt m) as [u Hu]
      end.
      rewrite Hu. destruct u as [METHOD | e1]; run_handler.
      * match goal with
        | |- context [includes rt ?v "/synthesis"] =>
            destruct (includes_pure rt v "/synthesis") as [i1 Hi1];
            destruct (includes_pure rt v "/audio") as [i2 Hi2]
        end.
        rewrite Hi1. destruct i1 as [[|] | e2]; run_handler.
        -- match goal with
           | |- context [axios w ?c] => destruct (axios w c) as [r | e3] eqn:Hcall
           end; run_handler; events_norm; intros Hfail.
           ++ refute_failure Hfail.
           ++ destruct Hfail as [config [Hin Hrej]]. cbn [called In] in Hin.
              destruct Hin as [<- | []]. rewrite Hcall in Hrej.
              injection Hrej as <-. reflexivity.
        -- rewrite Hi2. destruct i2 as [binary | e2]; run_handler.
           ++ match goal with
              | |- context [axios w ?c] => destruct (axios w c) as [r | e3] eqn:Hcall
              end; run_handler; events_norm; intros Hfail.
              ** refute_failure Hfail.
              ** destruct Hfail as [config [Hin Hrej]]. cbn [called In] in Hin.
                 destruct Hin as [<- | []]. rewrite Hcall in Hrej.
                 injection Hrej as <-. reflexivity.
           ++ events_norm. intros Hfail. refute_failure Hfail.
        -- events_norm. intros Hfail. refute_failure Hfail.
      * events_norm. intros Hfail. refute_failure Hfail.
    + run_handler. events_norm. intros Hfail. refute_failure Hfail.
Qed.

Lemma passthrough_failure_is_reported_witness :
  sent (events_since initial
          (step sample_runtime backend_unavailable
             (Message 0 (Parsed (request_of "voicevox_request"
                                   [("payload",
                                     VObj [("endpoint", VStr "/version")])]
                                   "r7")))
             initial))
  = [(0%nat,
      VObj [("type", VStr "error");
            ("error", VStr "VOICEVOX APIエラー: Service Unavailable");
            ("details", VObj [("detail", VStr "busy")]);
            ("requestId", VStr "r7")])].
Proof.
  refine (passthrough_failure_is_reported sample_runtime backend_unavailable
            0%nat
            (request_of "voicevox_request"
               [("payload", VObj [("endpoint", VStr "/version")])] "r7")
            initial
            (AxiosError "Request failed with status code 503"
               (Some {| resp_status := 503;
                        resp_statusText := "Service Unavailable";
                        resp_headers := VObj [];
                        resp_data := VObj [("detail", VStr "busy")] |}))
            eq_refl eq_refl _).
  exists (passthrough_config sample_runtime (VStr "/version") "GET"
            VUndefined VUndefined false).
  split; [left; reflexivity | reflexivity].
Defined.

Lemma no_endpoint payload :
  get payload "endpoint" = VUndefined ->
  truthy (get (js_or payload (VObj [])) "endpoint") = false.
Proof.
  intros H. unfold js_or. destruct (truthy payload); [rewrite H |]; reflexivity.
Qed.

(** C5.  A generic passthrough (voicevox_request) whose payload has no
    [endpoint] field makes the server send exactly one message and do nothing
    else, so no backend call is made; the message is an error reply echoing
    the request id, and it says that no endpoint was given whenever the
    request has a [data] object at all. *)
Theorem passthrough_without_endpoint rt w ws request s :
  exited s = false ->
  get request "type" = VStr "voicevox_request" ->
  get (get (get request "data") "payload") "endpoint" = VUndefined ->
  exists msg,
    events_since s (step rt w (Message ws (Parsed request)) s) = [Send ws msg]
    /\ get msg "type" = VStr "error"
    /\ get msg "requestId" = get request "requestId"
    /\ (nullish (get request "data") = false ->
        get msg "error" = VStr "エンドポイントが指定されていません").
Proof.
  intros Hrun Htype Hendpoint.
  rewrite (step_message _ _ _ _ _ Hrun).
  rewrite (on_message_parsed _ _ _ _ _ (typed_not_nullish _ _ Htype)).
  unfold dispatch. rewrite Htype. cbn [String.eqb Ascii.eqb Bool.eqb].
  unfold handle_voicevox_request, try_catch, bind, read.
  destruct (nullish (get request "data")) eqn:Hdata.
  - run_handler. events_norm. eexists. split; [reflexivity |].
    repeat split. discriminate.
  - run_handler. cbv zeta. rewrite (no_endpoint _ Hendpoint). cbn [negb].
    run_handler. events_norm. eexists. split; [reflexivity |].
    repeat split.
Qed.

Lemma passthrough_without_endpoint_witness :
  exists msg,
    events_since initial
      (step sample_runtime backends_down
         (Message 0 (Parsed (request_of "voicevox_request"
                               [("payload", VObj [("method", VStr "GET")])]
                               "r5")))
         initial)
    = [Send 0 msg]
    /\ get msg "type" = VStr "error"
    /\ get msg "requestId" = VStr "r5"
    /\ (false = false ->
        get msg "error" = VStr "エンドポイントが指定されていません").
Proof.
  exact (passthrough_without_endpoint sample_runtime backends_down 0%nat
           (request_of "voicevox_request"
              [("payload", VObj [("method", VStr "GET")])] "r5")
           initial eq_refl eq_refl eq_refl).
Defined.

(** ** Uploads *)

(** C8.  For an upload-training-data request whose [fileData] is a data URI,
    a prefix without comma, a comma, and the base64 encoding of a payload,
    whose [fileName] converts to a string, as every string does, and whose
    file the storage accepts: the server first writes the file,
    with exactly the bytes of the payload, and then sends the
    upload-response with status processing, which echoes the request id and
    names the path written; reading that path back gives the payload, byte
    for byte (hence as many bytes). *)
Theorem upload_round_trip rt w ws request s prefix payload name :
  exited s = false ->
  get request "type" = VStr "rvc-upload-training-data" ->
  get (get request "data") "fileData"
  = VStr (prefix ++ "," ++ Base64.encode payload) ->
  has_comma prefix = false ->
  string_of rt (get (get request "data") "fileName") = Some name ->
  fs_writeFile w (upload_path rt (uuidv4 rt (uuids s)) name) = None ->
  events_since s (step rt w (Message ws (Parsed request)) s)
  = [WriteFile (upload_path rt (uuidv4 rt (uuids s)) name) payload;
     Send ws
       (VObj [("type", VStr "rvc-upload-response");
              ("data",
               VObj [("id", VStr (uuidv4 rt (S (uuids s))));
                     ("fileName", get (get request "data") "fileName");
                     ("filePath",
                      VStr (upload_path rt (uuidv4 rt (uuids s)) name));
                     ("fileSize", get (get request "data") "fileSize");
                     ("status", VStr "processing")]);
              ("requestId", get request "requestId")])]
  /\ read_file (upload_path rt (uuidv4 rt (uuids s)) name)
       (files (step rt w (Message ws (Parsed request)) s))
     = Some payload.
Proof.
  intros Hrun Htype HfileData Hprefix Hname Hwrite.
  assert (Hdata : nullish (get request "data") = false).
  { apply (fielded_not_nullish _ "fileData"). rewrite HfileData. discriminate. }
  rewrite (step_message _ _ _ _ _ Hrun).
  rewrite (on_message_parsed _ _ _ _ _ (typed_not_nullish _ _ Htype)).
  unfold dispatch. rewrite Htype. cbn [String.eqb Ascii.eqb Bool.eqb].
  unfold handle_rvc_upload_training_data, try_catch, bind, destructure,
    decode_data_uri, await_writeFile, uuid, setTimeout, to_string.
  rewrite Hdata, HfileData, Hname, (data_uri_segment _ _ Hprefix).
  rewrite Base64Facts.decode_encode.
  run_handler. cbn [uuids with_uuids with_trace]. rewrite Hwrite.
  run_handler. split.
  - events_norm. reflexivity.
  - cbn. rewrite String.eqb_refl. reflexivity.
Qed.

Lemma upload_round_trip_witness :
  read_file "/srv/uploads/a_voice.wav"
    (files (step sample_runtime backends_down
              (Message 0 (Parsed (request_of "rvc-upload-training-data"
                                    [("fileName", VStr "voice.wav");
                                     ("fileData",
                                      VStr "data:audio/wav;base64,SGVsbG8=");
                                     ("fileSize", num 5)] "r3")))
              initial))
  = Some "Hello".
Proof.
  exact (proj2
    (upload_round_trip sample_runtime backends_down 0%nat
       (request_of "rvc-upload-training-data"
          [("fileName", VStr "voice.wav");
           ("fileData", VStr "data:audio/wav;base64,SGVsbG8=");
           ("fileSize", num 5)] "r3")
       initial "data:audio/wav;base64" "Hello" "voice.wav"
       eq_refl eq_refl eq_refl eq_refl eq_refl eq_refl)).
Defined.

(** ** The router boundary *)

Section Boundary.

Variable rt : Runtime.
Variable w : World.
Variable ws : nat.

(** A [try] whose [catch] only sends completes normally. *)
Lemma try_catch_completes (body : M unit) (handler : exn -> M unit) s :
  (forall e st, exists st', handler e st = (Normal tt, st')) ->
  exists s', try_catch body handler s = (Normal tt, s').
Proof.
  intros Hh. unfold try_catch.
  destruct (body s) as [[[] | e] st]; [eexists; reflexivity | apply Hh].
Qed.

Lemma send_completes msg st :
  exists st', send ws msg st = (Normal tt, st').
Proof. eexists. reflexivity. Qed.

(** An exception leaves [dispatch] only before anything was done. *)
Lemma dispatch_throws_early request s e s' :
  dispatch rt w ws request s = (Throw e, s') -> s' = s.
Proof.
  unfold dispatch.
  assert (Hno : forall (body : M unit) (handler : exn -> M unit),
             (forall e0 st, exists st', handler e0 st = (Normal tt, st')) ->
             try_catch body handler s = (Throw e, s') -> s' = s).
  { intros body handler Hh H.
    destruct (try_catch_completes body handler s Hh) as [st Hst].
    rewrite Hst in H. discriminate. }
  assert (Hsend : forall msg, send ws msg s = (Throw e, s') -> s' = s).
  { intros msg H. discriminate. }
  assert (Hdefault : handle_default rt w ws request s = (Throw e, s') -> s' = s).
  { unfold handle_default, bind, to_string.
    destruct (string_of rt (get request "type")); run_handler;
      [discriminate | intros [= _ <-]; reflexivity]. }
  destruct (get request "type") as [| | | | | t | | |];
    try (exact Hdefault).
  repeat match goal with
         | |- (if ?b then _ else _) s = _ -> _ => destruct b
         end;
    try (exact Hdefault);
    try (apply Hsend);
    try (apply Hno; intros; apply send_completes).
  unfold handle_voicevox_synthesis. cbv zeta.
  destruct (nullish (get request "data")) eqn:Hdata.
  - unfold try_catch, bind, read. rewrite Hdata. run_handler.
    intros [= _ <-]. reflexivity.
  - apply Hno. intros e0 st. unfold bind, read. rewrite Hdata.
    run_handler. eexists. reflexivity.
Qed.

Lemma boundary_catches f s e s' :
  process rt w ws f s = (Throw e, s') ->
  on_message rt w ws f s
  = (Normal tt,
     with_trace
       (trace s ++
        [Send ws (VObj [("type", VStr "error");
                        ("error", VStr ("メッセージ処理エラー: " ++ message e))])])
       s).
Proof.
  intros H. unfold on_message, try_catch. rewrite H.
  assert (Hs : s' = s).
  { revert H. unfold process, bind, JSON_parse, destructure.
    destruct f as [m | request].
    - intros [= _ <-]. reflexivity.
    - run_handler. destruct (nullish request).
      + intros [= _ <-]. reflexivity.
      + run_handler. apply dispatch_throws_early. }
  subst s'. reflexivity.
Qed.

Lemma on_message_completes f s :
  exists s', on_message rt w ws f s = (Normal tt, s').
Proof.
  unfold on_message. apply try_catch_completes.
  intros e st. apply send_completes.
Qed.

End Boundary.

(** C6.  Whenever the processing of an inbound frame throws up to the
    message handler, and a frame that is not valid JSON always does, the
    handler catches it: it completes normally, having sent exactly one
    message, an error reply without request id, and having changed nothing
    else, so no socket is closed, no client is unregistered and the process
    has not exited.  No frame at all makes the message handler throw. *)
Theorem router_boundary_catches rt w ws f s e s' :
  process rt w ws f s = (Throw e, s') ->
  on_message rt w ws f s
  = (Normal tt,
     with_trace
       (trace s ++
        [Send ws (VObj [("type", VStr "error");
                        ("error", VStr ("メッセージ処理エラー: " ++ message e))])])
       s)
  /\ (forall syntax_error st,
        process rt w ws (Malformed syntax_error) st
        = (Throw (SyntaxError syntax_error), st))
  /\ (forall f' st, exists st', on_message rt w ws f' st = (Normal tt, st')).
Proof.
  intros H. split; [exact (boundary_catches rt w ws f s e s' H) |].
  split; [reflexivity |].
  intros f' st. apply on_message_completes.
Qed.

Lemma router_boundary_catches_witness :
  on_message sample_runtime backends_down 0 (Malformed "Unexpected token") initial
  = (Normal tt,
     with_trace
       [Send 0 (VObj [("type", VStr "error");
                      ("error", VStr "メッセージ処理エラー: Unexpected token")])]
       initial).
Proof.
  exact (proj1
    (router_boundary_catches sample_runtime backends_down 0%nat
       (Malformed "Unexpected token") initial
       (SyntaxError "Unexpected token") initial eq_refl)).
Defined.

(** C7, at the failing input: a synthesize request that has a request id
    but no [data].  The fallback branch of the handler reads
    [request.data.text] again and throws, so the only reply comes from the
    router boundary and carries no request id. *)
Theorem synthesis_without_data_reply_uncorrelated :
  events_since initial
    (step sample_runtime backends_down
       (Message 0 (Parsed (VObj [("type", VStr "voicevox-synthesis");
                                 ("requestId", VStr "r1")])))
       initial)
  = [Send 0 (VObj [("type", VStr "error");
                   ("error", VStr "メッセージ処理エラー: Cannot read properties of request.data")])]
  /\ get (VObj [("type", VStr "error");
                ("error", VStr "メッセージ処理エラー: Cannot read properties of request.data")])
       "requestId"
     = VUndefined.
Proof. split; reflexivity. Qed.

(** ** Shutdown *)

Lemma shutdown_clients_run cs :
  forall s,
    fst (shutdown_clients cs s) = Normal tt
    /\ trace (snd (shutdown_clients cs s))
       = (trace s
          ++ flat_map (fun c => [Send (snd c) shutdown_message; Close (snd c)]) cs)%list
    /\ exited (snd (shutdown_clients cs s)) = exited s.
Proof.
  induction cs as [| [clientId client] cs IH]; intros s.
  - cbn. rewrite app_nil_r. auto.
  - cbn [shutdown_clients flat_map snd].
    unfold bind at 1 2. unfold send, close, emit, bind. cbn [fst snd].
    match goal with
    | |- context [shutdown_clients cs ?st] => destruct (IH st) as [Hn [Ht He]]
    end.
    rewrite Hn, Ht, He. cbn [trace with_trace with_readyState exited].
    rewrite <- !app_assoc. auto.
Qed.

(** C9, as amended.  On SIGINT the running server takes the registered
    connections one after the other, in registration order, and for each
    sends the server-shutdown push and then closes that connection before it
    turns to the next; after the last it stops accepting (the WebSocket
    server, then the HTTP server), then asks for the deletion of the upload
    directory and, whether or not that succeeds, exits with code 0. *)
Theorem shutdown_sequence rt w s :
  exited s = false ->
  events_since s (step rt w SIGINT s)
  = (flat_map (fun c => [Send (snd c) shutdown_message; Close (snd c)])
       (clients s)
     ++ [WssClose; ServerClose; Rm "uploads"; Exit 0])%list
  /\ exited (step rt w SIGINT s) = true.
Proof.
  intros Hrun. unfold step, run. rewrite Hrun.
  unfold on_SIGINT, exit, await_rm, try_catch, bind, emit.
  destruct (shutdown_clients_run (clients s) s) as [Hn [Ht He]].
  destruct (shutdown_clients (clients s) s) as [c s1]. cbn [fst snd] in *.
  subst c.
  destruct (fs_rm w "uploads") as [e |]; cbn [throw ret fst snd];
    (split; [| reflexivity]);
    apply events_since_app;
    cbn [trace with_trace with_exited]; rewrite ?Ht, <- ?app_assoc; reflexivity.
Qed.

(** C9, the claim as stated fails: with two connections the first is
    closed before the second is sent the shutdown push, so the pushes do not
    all come before the closes. *)
Lemma shutdown_interleaves_push_and_close :
  events_since
    (step sample_runtime backends_down (Connection 1)
       (step sample_runtime backends_down (Connection 0) initial))
    (step sample_runtime backends_down SIGINT
       (step sample_runtime backends_down (Connection 1)
          (step sample_runtime backends_down (Connection 0) initial)))
  = [Send 0 shutdown_message; Close 0; Send 1 shutdown_message; Close 1;
     WssClose; ServerClose; Rm "uploads"; Exit 0]
  /\ events_since
       (step sample_runtime backends_down (Connection 1)
          (step sample_runtime backends_down (Connection 0) initial))
       (step sample_runtime backends_down SIGINT
          (step sample_runtime backends_down (Connection 1)
             (step sample_runtime backends_down (Connection 0) initial)))
     <> [Send 0 shutdown_message; Send 1 shutdown_message; Close 0; Close 1;
         WssClose; ServerClose; Rm "uploads"; Exit 0].
Proof. split; [reflexivity | discriminate]. Qed.

Lemma shutdown_sequence_witness :
  events_since (step sample_runtime backends_down (Connection 0) initial)
    (step sample_runtime backends_down SIGINT
       (step sample_runtime backends_down (Connection 0) initial))
  = [Send 0 shutdown_message; Close 0;
     WssClose; ServerClose; Rm "uploads"; Exit 0].
Proof.
  exact (proj1
    (shutdown_sequence sample_runtime backends_down
       (step sample_runtime backends_down (Connection 0) initial) eq_refl)).
Defined.

(** ** Correlation: which messages carry the request id *)

Section Correlation.

Variable rt : Runtime.
Variable rid : value.
Variable before : list event.

Lemma echo_untouched {A : Type} (m : M A) :
  (forall s, trace (snd (m s)) = trace s) -> preserves (echoing rid before) m.
Proof. intros Hm s [evs [Ht He]]. exists evs. rewrite Hm. auto. Qed.

Lemma echo_emit e :
  (forall x msg, e = Send x msg -> get msg "requestId" = rid) ->
  preserves (echoing rid before) (emit e).
Proof.
  intros Hsend s [evs [Ht He]]. exists (evs ++ [e])%list. cbn.
  rewrite Ht, app_assoc. split; [reflexivity |].
  intros x msg Hin. apply in_app_or in Hin.
  destruct Hin as [Hin | [-> | []]]; [exact (He x msg Hin) |].
  exact (Hsend x msg eq_refl).
Qed.

Lemma echo_send ws msg :
  get msg "requestId" = rid -> preserves (echoing rid before) (send ws msg).
Proof. intros H. apply echo_emit. intros x m [= _ <-]. exact H. Qed.

Lemma echo_pure {A : Type} (m : M A) :
  (exists r, forall s, m s = (r, s)) -> preserves (echoing rid before) m.
Proof.
  intros [r Hr]. apply echo_untouched. intros s. rewrite Hr. reflexivity.
Qed.

Lemma echo_uuid : preserves (echoing rid before) (uuid rt).
Proof. apply echo_untouched. reflexivity. Qed.

Lemma echo_read site o k : preserves (echoing rid before) (read rt site o k).
Proof. unfold read. destruct (nullish o); intros s H; exact H. Qed.

Lemma echo_destructure site o : preserves (echoing rid before) (destructure rt site o).
Proof. unfold destructure. destruct (nullish o); intros s H; exact H. Qed.

Lemma echo_to_string v : preserves (echoing rid before) (to_string rt v).
Proof. unfold to_string. destruct (string_of rt v); intros st H; exact H. Qed.

Lemma echo_await_axios w config : preserves (echoing rid before) (await_axios w config).
Proof.
  unfold await_axios. apply preserves_bind.
  - apply echo_emit. discriminate.
  - intros _. destruct (axios w config); intros s H; exact H.
Qed.

Lemma echo_await_writeFile w path content :
  preserves (echoing rid before) (await_writeFile w path content).
Proof.
  unfold await_writeFile. apply preserves_bind.
  - apply echo_emit. discriminate.
  - intros _. destruct (fs_writeFile w path); intros s H; exact H.
Qed.

Lemma echo_setInterval job : preserves (echoing rid before) (setInterval job).
Proof. apply echo_untouched. reflexivity. Qed.

Lemma echo_setTimeout job : preserves (echoing rid before) (setTimeout job).
Proof. apply echo_untouched. reflexivity. Qed.

Lemma echo_Object_assign target source :
  preserves (echoing rid before) (Object_assign rt target source).
Proof. apply echo_pure, Object_assign_pure. Qed.

Lemma echo_Buffer_from v : preserves (echoing rid before) (Buffer_from rt v).
Proof. apply echo_pure, Buffer_from_pure. Qed.

Lemma echo_upper v : preserves (echoing rid before) (upper rt v).
Proof. apply echo_pure, upper_pure. Qed.

Lemma echo_includes v needle : preserves (echoing rid before) (includes rt v needle).
Proof. apply echo_pure, includes_pure. Qed.

Lemma echo_decode_data_uri v : preserves (echoing rid before) (decode_data_uri rt v).
Proof.
  unfold decode_data_uri.
  destruct v; try destruct (nth_error _ _); intros st H; exact H.
Qed.

End Correlation.

Create HintDb echo.

#[local] Hint Resolve echo_to_string : echo.

#[local] Hint Resolve preserves_ret preserves_throw echo_uuid echo_read
  echo_destructure echo_await_axios echo_await_writeFile echo_setInterval
  echo_setTimeout echo_Object_assign echo_Buffer_from echo_upper echo_includes
  echo_decode_data_uri : echo.

Ltac echo_step :=
  match goal with
  | |- preserves _ (bind _ _) => apply preserves_bind; [| intro]
  | |- preserves _ (try_catch _ _) => apply preserves_try_catch; [| intro]
  | |- preserves _ (send _ _) => apply echo_send; reflexivity
  | |- preserves _ (if ?b then _ else _) => destruct b
  | |- preserves _ _ => solve [auto with echo]
  end.

(** Every message a handler of the switch sends in answer to [request]
    carries the request id of [request]. *)
Lemma handler_replies_echo rt w ws request s x msg :
  In (Send x msg) (events_since s (snd (dispatch rt w ws request s))) ->
  get msg "requestId" = get request "requestId".
Proof.
  assert (H : preserves (echoing (get request "requestId") (trace s))
                (dispatch rt w ws request)).
  { unfold dispatch, handle_ping, handle_voicevox_speakers,
      handle_voicevox_synthesis, handle_rvc_upload_training_data,
      handle_rvc_start_training, handle_rvc_voice_conversion,
      handle_voicevox_request, handle_default.
    destruct (get request "type"); cbv zeta; repeat echo_step. }
  destruct (H s) as [evs [Ht He]].
  { exists []. rewrite app_nil_r. split; [reflexivity | intros ? ? []]. }
  rewrite (events_since_app _ _ _ Ht). apply He.
Qed.

(** The pushes carry no request id. *)
Lemma pushes_carry_no_requestId rt w job modelId currentEpoch epochs modelName
  voicevoxStatus rvcStatus :
  get (training_progress rt modelId currentEpoch epochs) "requestId" = VUndefined
  /\ get (training_complete rt modelId modelName) "requestId" = VUndefined
  /\ get shutdown_message "requestId" = VUndefined
  /\ get (VObj [("type", VStr "service-status");
                ("data", VObj [("voicevox", VBool voicevoxStatus);
                               ("rvc", VBool rvcStatus);
                               ("timestamp", VStr (Date_toISOString w))])])
       "requestId" = VUndefined
  /\ (forall s ws msg,
        In (Send ws msg) (events_since s (snd (upload_timeout w job s))) ->
        get msg "requestId" = VUndefined).
Proof.
  repeat split.
  intros s ws msg. unfold upload_timeout, send, emit. cbn [snd].
  erewrite events_since_app by (cbn [trace with_trace]; reflexivity).
  intros [[= _ <-] | []]. reflexivity.
Qed.

(** * Further properties *)

(** ** What the handling of a message leaves alone *)

Section Stable.

Variable rt : Runtime.
Variable w : World.
Variable ws : nat.
Variable P : State -> Prop.

Hypothesis P_send : forall msg s, P s -> P (snd (send ws msg s)).
Hypothesis P_http : forall config s, P s -> P (snd (emit (Http config) s)).
Hypothesis P_write :
  forall path content s, P s -> P (snd (emit (WriteFile path content) s)).
Hypothesis P_uuid : forall s, P s -> P (with_uuids (S (uuids s)) s).
Hypothesis P_files : forall f s, P s -> P (with_files f s).
Hypothesis P_setInterval : forall job s, P s -> P (snd (setInterval job s)).
Hypothesis P_setTimeout : forall job s, P s -> P (snd (setTimeout job s)).

Lemma stable_pure {A : Type} (m : M A) :
  (exists r, forall s, m s = (r, s)) -> preserves P m.
Proof. intros [r Hr] s H. rewrite Hr. exact H. Qed.

Lemma stable_send msg : preserves P (send ws msg).
Proof. intros s H. apply P_send. exact H. Qed.

Lemma stable_uuid : preserves P (uuid rt).
Proof. intros s H. apply P_uuid. exact H. Qed.

Lemma stable_read site o k : preserves P (read rt site o k).
Proof. unfold read. destruct (nullish o); intros s H; exact H. Qed.

Lemma stable_destructure site o : preserves P (destructure rt site o).
Proof. unfold destructure. destruct (nullish o); intros s H; exact H. Qed.

Lemma stable_to_string v : preserves P (to_string rt v).
Proof. unfold to_string. destruct (string_of rt v); intros st H; exact H. Qed.

Lemma stable_await_axios config : preserves P (await_axios w config).
Proof.
  unfold await_axios. apply preserves_bind.
  - intros s H. apply P_http. exact H.
  - intros _. destruct (axios w config); intros s H; exact H.
Qed.

Lemma stable_await_writeFile path content :
  preserves P (await_writeFile w path content).
Proof.
  unfold await_writeFile. apply preserves_bind.
  - intros s H. apply P_write. exact H.
  - intros _. destruct (fs_writeFile w path); intros s H;
      [exact H | apply P_files; exact H].
Qed.

Lemma stable_setInterval job : preserves P (setInterval job).
Proof. intros s H. apply P_setInterval. exact H. Qed.

Lemma stable_setTimeout job : preserves P (setTimeout job).
Proof. intros s H. apply P_setTimeout. exact H. Qed.

Lemma stable_Object_assign target source :
  preserves P (Object_assign rt target source).
Proof. apply stable_pure, Object_assign_pure. Qed.

Lemma stable_Buffer_from v : preserves P (Buffer_from rt v).
Proof. apply stable_pure, Buffer_from_pure. Qed.

Lemma stable_upper v : preserves P (upper rt v).
Proof. apply stable_pure, upper_pure. Qed.

Lemma stable_includes v needle : preserves P (includes rt v needle).
Proof. apply stable_pure, includes_pure. Qed.

Lemma stable_decode_data_uri v : preserves P (decode_data_uri rt v).
Proof.
  unfold decode_data_uri.
  destruct v; try destruct (nth_error _ _); intros st H; exact H.
Qed.

Ltac stable_step :=
  match goal with
  | |- preserves _ (bind _ _) => apply preserves_bind; [| intro]
  | |- preserves _ (try_catch _ _) => apply preserves_try_catch; [| intro]
  | |- preserves _ (if ?b then _ else _) => destruct b
  | |- preserves _ _ =>
      first [ apply preserves_ret | apply preserves_throw | apply stable_send
            | apply stable_uuid | apply stable_read | apply stable_destructure
            | apply stable_to_string
            | apply stable_await_axios | apply stable_await_writeFile
            | apply stable_setInterval | apply stable_setTimeout
            | apply stable_Object_assign | apply stable_Buffer_from
            | apply stable_upper | apply stable_includes
            | apply stable_decode_data_uri ]
  end.

Lemma stable_dispatch request : preserves P (dispatch rt w ws request).
Proof.
  unfold dispatch, handle_ping, handle_voicevox_speakers,
    handle_voicevox_synthesis, handle_rvc_upload_training_data,
    handle_rvc_start_training, handle_rvc_voice_conversion,
    handle_voicevox_request, handle_default.
  destruct (get request "type"); cbv zeta; repeat stable_step.
Qed.

Lemma stable_on_message f : preserves P (on_message rt w ws f).
Proof.
  unfold on_message, process, JSON_parse.
  apply preserves_try_catch; [| intro; apply stable_send].
  apply preserves_bind; [destruct f; stable_step | intro].
  apply preserves_bind; [apply stable_destructure | intro].
  apply stable_dispatch.
Qed.

End Stable.

Lemma forallb_snoc {A : Type} (f : A -> bool) l x :
  forallb f (l ++ [x]) = forallb f l && f x.
Proof. rewrite forallb_app. cbn. rewrite andb_true_r. reflexivity. Qed.

Lemma message_handling_is_confined_aux rt w ws f s :
  exited s = false ->
  clients (step rt w (Message ws f) s) = clients s
  /\ readyState (step rt w (Message ws f) s) = readyState s
  /\ exited (step rt w (Message ws f) s) = false
  /\ forallb (own_io ws) (events_since s (step rt w (Message ws f) s)) = true.
Proof.
  intros Hrun. rewrite (step_message _ _ _ _ _ Hrun).
  pose (P := fun s' : State =>
               clients s' = clients s /\ readyState s' = readyState s
               /\ exited s' = false
               /\ exists evs, trace s' = (trace s ++ evs)%list
                              /\ forallb (own_io ws) evs = true).
  assert (Hemit : forall e st, own_io ws e = true -> P st ->
                               P (snd (emit e st))).
  { intros e st He [Hc [Hr [Hx [evs [Ht Hf]]]]]. repeat split; try assumption.
    exists (evs ++ [e])%list. cbn. rewrite Ht, app_assoc, forallb_snoc, Hf, He.
    auto. }
  assert (H : P (snd (on_message rt w ws f s))).
  { apply (stable_on_message rt w ws P).
    - intros msg st. apply Hemit. cbn. apply Nat.eqb_refl.
    - intros config st. apply Hemit. reflexivity.
    - intros path content st. apply Hemit. reflexivity.
    - intros st H. exact H.
    - intros fs st H. exact H.
    - intros job st H. exact H.
    - intros job st H. exact H.
    - repeat split; try assumption. exists []. rewrite app_nil_r. auto. }
  destruct H as [Hc [Hr [Hx [evs [Ht Hf]]]]].
  rewrite (events_since_app _ _ _ Ht). auto.
Qed.

(** Handling a frame on [ws], whatever the frame, only sends on [ws], calls
    backends and writes files: it registers or unregisters no connection,
    changes the state of no socket, closes nothing and does not stop the
    server. *)
Theorem message_handling_is_confined rt w ws f s :
  exited s = false ->
  clients (step rt w (Message ws f) s) = clients s
  /\ readyState (step rt w (Message ws f) s) = readyState s
  /\ exited (step rt w (Message ws f) s) = false
  /\ forallb (own_io ws) (events_since s (step rt w (Message ws f) s)) = true.
Proof. exact (message_handling_is_confined_aux rt w ws f s). Qed.

(** ** Jobs are isolated from each other and from requests *)

Lemma assoc_app_other {A : Type} h h' (l : list (nat * A)) a :
  h <> h' -> assoc h (l ++ [(h', a)]) = assoc h l.
Proof.
  intros Hne. induction l as [| [k b] l IH]; cbn [assoc app].
  - destruct (Nat.eqb_spec h h'); [contradiction | reflexivity].
  - destruct (Nat.eqb h k); [reflexivity | exact IH].
Qed.

Lemma assoc_replace_other {A : Type} h h' (l : list (nat * A)) a' :
  h <> h' ->
  assoc h' (map (fun entry => if Nat.eqb (fst entry) h then (h, a') else entry) l)
  = assoc h' l.
Proof.
  intros Hne. induction l as [| [k b] l IH]; cbn [assoc map fst]; [reflexivity |].
  destruct (Nat.eqb_spec k h) as [-> | Hk]; cbn [assoc].
  - destruct (Nat.eqb_spec h' h); [congruence | exact IH].
  - destruct (Nat.eqb h' k); [reflexivity | exact IH].
Qed.

Lemma assoc_remove_other {A : Type} h h' (l : list (nat * A)) :
  h <> h' -> assoc h' (remove_assoc h l) = assoc h' l.
Proof.
  intros Hne. induction l as [| [k b] l IH]; cbn [assoc remove_assoc];
    [reflexivity |].
  destruct (Nat.eqb_spec h k) as [-> | Hk].
  - destruct (Nat.eqb_spec h' k); [congruence | exact IH].
  - cbn [assoc]. destruct (Nat.eqb h' k); [reflexivity | exact IH].
Qed.

(** Computations that only probe and send. *)
Section TraceOnly.

Variable P : State -> Prop.
Hypothesis P_emit : forall e s, P s -> P (snd (emit e s)).

Lemma trace_only_checkServiceStatus w url :
  preserves P (checkServiceStatus w url).
Proof.
  unfold checkServiceStatus, await_axios.
  apply preserves_try_catch; [| intro; apply preserves_ret].
  apply preserves_bind; [| intro; apply preserves_ret].
  apply preserves_bind; [intros s H; apply P_emit; exact H | intros _].
  destruct (axios w _); intros s H; exact H.
Qed.

Lemma trace_only_broadcast_open msg cs : preserves P (broadcast_open msg cs).
Proof.
  induction cs as [| [k client] cs IH]; cbn [broadcast_open];
    [apply preserves_ret |].
  apply preserves_bind; [| intros _; exact IH].
  intros s H. destruct (readyState s client =? OPEN); [| exact H].
  apply P_emit. exact H.
Qed.

Lemma trace_only_updateServiceStatus rt w :
  preserves P (updateServiceStatus rt w).
Proof.
  unfold updateServiceStatus.
  apply preserves_bind; [apply trace_only_checkServiceStatus | intro].
  apply preserves_bind; [apply trace_only_checkServiceStatus | intro].
  intros s H. apply trace_only_broadcast_open. exact H.
Qed.

Hypothesis P_close : forall ws s, P s -> P (snd (close ws s)).

Lemma trace_only_shutdown_clients cs : preserves P (shutdown_clients cs).
Proof.
  induction cs as [| [k client] cs IH]; cbn [shutdown_clients];
    [apply preserves_ret |].
  apply preserves_bind; [intros s H; apply P_emit; exact H | intros _].
  apply preserves_bind; [intros s H; apply P_close; exact H | intros _].
  exact IH.
Qed.

End TraceOnly.

(** Everything but a tick of the interval [h] leaves the job of [h] as it
    is, and never hands out [h] again. *)
Lemma step_keeps_job rt w i s h :
  i <> IntervalTick h ->
  (h < timers s)%nat ->
  assoc h (intervals (step rt w i s)) = assoc h (intervals s)
  /\ (h < timers (step rt w i s))%nat.
Proof.
  intros Hi Hh.
  pose (P := fun s' : State =>
               assoc h (intervals s') = assoc h (intervals s)
               /\ (h < timers s')%nat).
  assert (P0 : P s) by (split; [reflexivity | exact Hh]).
  assert (Pemit : forall e st, P st -> P (snd (emit e st))).
  { intros e st H. exact H. }
  unfold step. destruct (exited s); [exact P0 |].
  destruct i as [ws | ws f | ws clientId | | h' | h' | | k];
    unfold run, run_callback.
  - exact P0.
  - apply (stable_on_message rt w ws P); try (intros; assumption).
    + intros job st [Ha Ht]. split; cbn.
      * rewrite assoc_app_other by lia. exact Ha.
      * lia.
    + intros job st [Ha Ht]. split; cbn; [exact Ha | lia].
  - exact P0.
  - apply (trace_only_updateServiceStatus P Pemit). exact P0.
  - destruct (assoc h' (intervals s)) as [job |]; [| exact P0].
    assert (Hne : h' <> h) by congruence.
    unfold progress_tick, bind, send, emit, clearInterval, ret, to_number.
    cbn [snd].
    destruct (number_of rt (job_epochs job)) as [e |];
      [destruct (reached rt _ _) |]; cbn; split; try exact Hh.
    + rewrite (assoc_remove_other _ _ _ Hne). apply assoc_replace_other, Hne.
    + apply assoc_replace_other, Hne.
    + apply assoc_replace_other, Hne.
  - destruct (assoc h' (timeouts s)) as [job |]; exact P0.
  - unfold on_SIGINT.
    refine (preserves_bind P _ _ _ _ _ _); [| | exact P0].
    + intros st H. apply (trace_only_shutdown_clients P Pemit); [| exact H].
      intros x st' H'. exact H'.
    + intro. unfold exit, try_catch, await_rm.
      repeat (apply preserves_bind; [| intro]);
        try (intros st H; exact H).
      intros st H. unfold bind, emit. cbn. destruct (fs_rm w "uploads"); exact H.
  - destruct (nth_error (pending_status s) k) as [[| voicevoxStatus] |];
      [exact P0 | | exact P0].
    unfold resume_updateServiceStatus, bind. cbv zeta beta iota.
    apply (trace_only_broadcast_open P Pemit). exact P0.
Qed.

(** A job is touched only by the ticks of its own interval: whatever else
    happens (requests on any connection, ticks of other jobs, status ticks,
    connections coming and going, even SIGINT) its closure stays as it is. *)
Theorem job_is_isolated rt inputs :
  forall s h,
    Forall (fun wi => snd wi <> IntervalTick h) inputs ->
    (h < timers s)%nat ->
    assoc h (intervals (steps rt inputs s)) = assoc h (intervals s).
Proof.
  induction inputs as [| [w i] inputs IH]; intros s h Hall Hh; [reflexivity |].
  cbn [steps]. inversion Hall as [| ? ? Hi Hrest]; subst.
  destruct (step_keeps_job rt w i s h Hi Hh) as [Hkeep Hlt].
  rewrite (IH _ _ Hrest Hlt). exact Hkeep.
Qed.

(** ** Jobs that never complete *)

Lemma ticks_never rt w h ws modelId modelName epochs k n :
  number_of rt epochs = Some (NonFinite k) ->
  k <> NegInfinity ->
  forall c s,
    exited s = false ->
    assoc h (intervals s)
    = Some {| job_ws := ws; job_modelId := modelId; job_modelName := modelName;
              job_epochs := epochs; currentEpoch := c |} ->
    trace (ticks rt w h n s)
    = (trace s ++ progress_pushes rt ws modelId epochs c n)%list
    /\ assoc h (intervals (ticks rt w h n s))
       = Some {| job_ws := ws; job_modelId := modelId;
                 job_modelName := modelName; job_epochs := epochs;
                 currentEpoch := c + 10 * Z.of_nat n |}
    /\ exited (ticks rt w h n s) = false.
Proof.
  intros Hnan Hk. induction n as [| n IH]; intros c s Hrun Hjob.
  - cbn [ticks progress_pushes]. rewrite app_nil_r.
    replace (c + 10 * Z.of_nat 0) with c by lia. auto.
  - cbn [ticks progress_pushes].
    destruct (tick_live rt w h s ws modelId modelName epochs _ c Hnan Hrun Hjob)
      as [Hrun' Htick].
    assert (Hr : reached rt (c + 10) epochs = false).
    { unfold reached. rewrite Hnan. destruct k; congruence. }
    rewrite Hr in Htick. destruct Htick as [Htrace Hjob'].
    destruct (IH (c + 10) _ Hrun' Hjob') as [Ht [Hj He]].
    rewrite Ht, Htrace, <- app_assoc, Hj.
    replace (c + 10 + 10 * Z.of_nat n) with (c + 10 * Z.of_nat (S n)) by lia.
    auto.
Qed.

(** A start-training request whose [epochs] converts to NaN (it is missing,
    say, or an object without a [toString] of its own) or to +Infinity
    starts a job that never completes: every tick pushes one
    training-progress and nothing else, and the interval stays live. *)
Theorem training_without_epochs_never_completes rt w w' ws request s k n :
  reachable rt s ->
  exited s = false ->
  get request "type" = VStr "rvc-start-training" ->
  nullish (get request "data") = false ->
  number_of rt (get (get request "data") "epochs") = Some (NonFinite k) ->
  k <> NegInfinity ->
  events_since (step rt w (Message ws (Parsed request)) s)
    (ticks rt w' (timers s) n (step rt w (Message ws (Parsed request)) s))
  = progress_pushes rt ws (uuidv4 rt (uuids s))
      (get (get request "data") "epochs") 0 n
  /\ assoc (timers s)
       (intervals (ticks rt w' (timers s) n
                     (step rt w (Message ws (Parsed request)) s)))
     = Some {| job_ws := ws; job_modelId := uuidv4 rt (uuids s);
               job_modelName := get (get request "data") "modelName";
               job_epochs := get (get request "data") "epochs";
               currentEpoch := 10 * Z.of_nat n |}.
Proof.
  intros Hreach Hrun Htype Hdata Hnan Hk.
  pose proof (start_training_job rt w ws request s Hreach Hrun Htype Hdata)
    as Hjob.
  destruct (start_training_step rt w ws request s Hrun Htype Hdata)
    as [_ [_ Hrun1]].
  destruct (ticks_never rt w' (timers s) ws _ _ _ k n Hnan Hk 0 _ Hrun1 Hjob)
    as [Ht [Hj _]].
  split; [apply events_since_app; exact Ht | exact Hj].
Qed.

Lemma training_without_epochs_never_completes_witness :
  currentEpochs
    (events_since
       (step sample_runtime backends_down
          (Message 0 (Parsed (request_of "rvc-start-training"
                                [("modelName", VStr "m1")] "r2")))
          initial)
       (ticks sample_runtime backends_down 0 3
          (step sample_runtime backends_down
             (Message 0 (Parsed (request_of "rvc-start-training"
                                   [("modelName", VStr "m1")] "r2")))
             initial)))
  = [num 10; num 20; num 30].
Proof.
  exact (f_equal currentEpochs (proj1
    (training_without_epochs_never_completes sample_runtime backends_down
       backends_down 0%nat
       (request_of "rvc-start-training" [("modelName", VStr "m1")] "r2")
       initial NaN 3%nat
       (reachable_initial sample_runtime) eq_refl eq_refl eq_refl eq_refl
       ltac:(discriminate)))).
Defined.

(** A start-training request whose [epochs] does not convert to a number
    (an object with a [toString] of its own) is accepted like any other.
    The first tick of its interval then throws inside the timer callback,
    at the division of line 309, before anything is pushed: the exception
    is uncaught and the process ends. *)
Theorem training_with_unconvertible_epochs_crashes rt w w' ws request s :
  reachable rt s ->
  exited s = false ->
  get request "type" = VStr "rvc-start-training" ->
  nullish (get request "data") = false ->
  number_of rt (get (get request "data") "epochs") = None ->
  events_since (step rt w (Message ws (Parsed request)) s)
    (step rt w' (IntervalTick (timers s))
       (step rt w (Message ws (Parsed request)) s))
  = [Uncaught (TypeError (engine_message rt "ToNumber"))]
  /\ exited (step rt w' (IntervalTick (timers s))
               (step rt w (Message ws (Parsed request)) s))
     = true.
Proof.
  intros Hreach Hrun Htype Hdata Hnum.
  pose proof (start_training_job rt w ws request s Hreach Hrun Htype Hdata)
    as Hjob.
  destruct (start_training_step rt w ws request s Hrun Htype Hdata)
    as [_ [_ Hrun1]].
  set (s1 := step rt w (Message ws (Parsed request)) s) in *.
  unfold step. rewrite Hrun1, Hjob.
  unfold run_callback, progress_tick, bind, to_number.
  cbn [job_epochs]. rewrite Hnum. cbn [throw].
  split; [events_norm; reflexivity | reflexivity].
Qed.

Lemma training_with_unconvertible_epochs_crashes_witness :
  events_since
    (step sample_runtime backends_down
       (Message 0 (Parsed (request_of "rvc-start-training"
                             [("modelName", VStr "m1");
                              ("epochs", VObj [("toString", VNull)])] "r2")))
       initial)
    (step sample_runtime backends_down (IntervalTick 0)
       (step sample_runtime backends_down
          (Message 0 (Parsed (request_of "rvc-start-training"
                                [("modelName", VStr "m1");
                                 ("epochs", VObj [("toString", VNull)])]
                                "r2")))
          initial))
  = [Uncaught (TypeError "Cannot read properties of ToNumber")].
Proof.
  exact (proj1
    (training_with_unconvertible_epochs_crashes sample_runtime backends_down
       backends_down 0%nat
       (request_of "rvc-start-training"
          [("modelName", VStr "m1"); ("epochs", VObj [("toString", VNull)])]
          "r2")
       initial
       (reachable_initial sample_runtime) eq_refl eq_refl eq_refl eq_refl)).
Defined.

(** ** After shutdown *)

(** Once the process has exited nothing happens any more. *)
Lemma steps_exited rt inputs s : exited s = true -> steps rt inputs s = s.
Proof.
  revert s. induction inputs as [| [w i] inputs IH]; intros s H; [reflexivity |].
  cbn [steps]. unfold step. rewrite H. exact (IH s H).
Qed.

Lemma shutdown_clients_closing cs :
  forall s client,
    In client (map snd cs) ->
    readyState (snd (shutdown_clients cs s)) client = CLOSING.
Proof.
  assert (Hkeep : forall cs s x,
             readyState s x = CLOSING ->
             readyState (snd (shutdown_clients cs s)) x = CLOSING).
  { induction cs0 as [| [k c] cs0 IH]; intros s x H; [exact H |].
    cbn [shutdown_clients]. unfold bind, send, close, emit. cbn [fst snd].
    apply IH. cbn. destruct (Nat.eqb x c); [reflexivity | exact H]. }
  induction cs as [| [k c] cs IH]; intros s client Hin; [destruct Hin |].
  cbn [shutdown_clients]. unfold bind, send, close, emit. cbn [fst snd].
  destruct Hin as [<- | Hin]; [| apply IH; exact Hin].
  apply Hkeep. cbn. rewrite Nat.eqb_refl. reflexivity.
Qed.

(** After SIGINT every registered socket is closing, and no later event
    (message, timer, status tick) makes the server do anything. *)
Theorem shutdown_is_final rt w s inputs :
  exited s = false ->
  (forall client, In client (map snd (clients s)) ->
     readyState (step rt w SIGINT s) client = CLOSING)
  /\ steps rt inputs (step rt w SIGINT s) = step rt w SIGINT s.
Proof.
  intros Hrun. split.
  - intros client Hin. unfold step, run. rewrite Hrun.
    unfold on_SIGINT, exit, await_rm, try_catch, bind, emit.
    pose proof (shutdown_clients_closing (clients s) s client Hin) as Hc.
    destruct (shutdown_clients_run (clients s) s) as [Hn _].
    destruct (shutdown_clients (clients s) s) as [c s1]. cbn [fst snd] in *.
    subst c. destruct (fs_rm w "uploads"); exact Hc.
  - apply steps_exited. unfold step, run. rewrite Hrun.
    unfold on_SIGINT, exit, await_rm, try_catch, bind, emit.
    destruct (shutdown_clients_run (clients s) s) as [Hn _].
    destruct (shutdown_clients (clients s) s) as [c s1]. cbn [fst snd] in *.
    subst c. destruct (fs_rm w "uploads"); reflexivity.
Qed.

Lemma shutdown_is_final_witness :
  steps sample_runtime
    [(backends_down, IntervalTick 0); (backends_down, StatusTick);
     (backends_down, Message 0 (Parsed (request_of "ping" [] "r9")))]
    (step sample_runtime backends_down SIGINT
       (step sample_runtime backends_down (Connection 0) initial))
  = step sample_runtime backends_down SIGINT
      (step sample_runtime backends_down (Connection 0) initial).
Proof.
  exact (proj2
    (shutdown_is_final sample_runtime backends_down
       (step sample_runtime backends_down (Connection 0) initial)
       [(backends_down, IntervalTick 0); (backends_down, StatusTick);
        (backends_down, Message 0 (Parsed (request_of "ping" [] "r9")))]
       eq_refl)).
Defined.

(** ** Ping and unknown types *)

(** A ping is answered by exactly one pong, which echoes the request id
    and carries the server's clock; nothing else happens. *)
Theorem ping_pong rt w ws request s :
  exited s = false ->
  get request "type" = VStr "ping" ->
  step rt w (Message ws (Parsed request)) s
  = with_trace
      (trace s ++
       [Send ws (VObj [("type", VStr "pong");
                       ("data", VObj [("timestamp", num (Date_now w))]);
                       ("requestId", get request "requestId")])]) s.
Proof.
  intros Hrun Htype.
  rewrite (step_message _ _ _ _ _ Hrun).
  rewrite (on_message_parsed _ _ _ _ _ (typed_not_nullish _ _ Htype)).
  unfold dispatch. rewrite Htype. reflexivity.
Qed.

Lemma has_case_false_dispatch rt w ws request :
  has_case (get request "type") = false ->
  dispatch rt w ws request = handle_default rt w ws request.
Proof.
  unfold dispatch, has_case, known_types.
  destruct (get request "type") as [| | | | | t | | |]; try reflexivity.
  cbn [existsb]. intros H.
  repeat (apply orb_false_elim in H; destruct H as [-> H]).
  reflexivity.
Qed.

(** A request whose type has no case in the switch (or is not a string at
    all) is answered by exactly one error reply, and nothing else happens.
    When the type converts to a string, the reply names the type and echoes
    the request id.  When it does not (the type is an object with a
    [toString] of its own, or an array that holds one), the template
    literal of line 433 throws, and the reply is that of the router
    boundary, without request id. *)
Theorem unknown_type_is_refused rt w ws request s :
  exited s = false ->
  nullish request = false ->
  has_case (get request "type") = false ->
  step rt w (Message ws (Parsed request)) s
  = with_trace
      (trace s ++
       [Send ws
          match string_of rt (get request "type") with
          | Some type =>
              VObj [("type", VStr "error");
                    ("error", VStr ("Unknown request type: " ++ type));
                    ("requestId", get request "requestId")]
          | None =>
              VObj [("type", VStr "error");
                    ("error",
                     VStr ("メッセージ処理エラー: "
                           ++ engine_message rt "ToString"))]
          end]) s.
Proof.
  intros Hrun Hreq Htype.
  rewrite (step_message _ _ _ _ _ Hrun).
  rewrite (on_message_parsed _ _ _ _ _ Hreq).
  rewrite (has_case_false_dispatch _ _ _ _ Htype).
  unfold try_catch, handle_default, bind, to_string.
  destruct (string_of rt (get request "type")); reflexivity.
Qed.

(** ** The status broadcast *)

Lemma checkServiceStatus_run w url s :
  checkServiceStatus w url s
  = (Normal (probe_up w url),
     with_trace (trace s ++ [Http (axios_get url (num 2000))]) s).
Proof.
  unfold checkServiceStatus, probe_up, try_catch, bind, await_axios, emit.
  destruct (axios w (axios_get url (num 2000))); reflexivity.
Qed.

Lemma broadcast_open_run msg cs :
  forall s,
    fst (broadcast_open msg cs s) = Normal tt
    /\ trace (snd (broadcast_open msg cs s))
       = (trace s
          ++ map (fun client => Send client msg)
               (filter (fun client => readyState s client =? OPEN)
                  (map snd cs)))%list
    /\ readyState (snd (broadcast_open msg cs s)) = readyState s
    /\ clients (snd (broadcast_open msg cs s)) = clients s
    /\ exited (snd (broadcast_open msg cs s)) = exited s.
Proof.
  induction cs as [| [k client] cs IH]; intros s.
  - cbn. rewrite app_nil_r. auto.
  - cbn [broadcast_open map snd filter]. unfold bind, send, emit. cbv beta.
    destruct (readyState s client =? OPEN) eqn:Hopen; cbv beta iota.
    + match goal with
      | |- context [broadcast_open msg cs ?st] =>
          destruct (IH st) as [Hn [Ht [Hr [Hc He]]]]
      end.
      rewrite Hn, Ht, Hr, Hc, He. cbn. rewrite <- app_assoc. auto.
    + apply IH.
Qed.

(** A status tick probes the synthesis backend, then the conversion
    backend at /health, each with a timeout of 2 s, and then sends the same
    snapshot to every registered socket that is open, in registration
    order, and to no other; a service counts as up exactly when its probe
    resolves with status 200, and a failed probe is not an error. *)
Theorem status_broadcast rt w s :
  exited s = false ->
  events_since s (step rt w StatusTick s)
  = ([Http (axios_get (VOICEVOX_URL rt) (num 2000));
      Http (axios_get (RVC_URL rt ++ "/health") (num 2000))]
     ++ map (fun client =>
               Send client
                 (status_message w (probe_up w (VOICEVOX_URL rt))
                    (probe_up w (RVC_URL rt ++ "/health"))))
          (open_sockets s))%list.
Proof.
  intros Hrun. unfold step, run. rewrite Hrun.
  unfold updateServiceStatus, bind. rewrite !checkServiceStatus_run.
  cbn [clients with_trace].
  match goal with
  | |- context [broadcast_open ?m ?cs ?st] =>
      destruct (broadcast_open_run m cs st) as [_ [Ht _]]
  end.
  apply events_since_app. rewrite Ht. cbn [trace with_trace readyState].
  rewrite <- !app_assoc. reflexivity.
Qed.

(** ** The registry of connections *)

Lemma map_delete_absent k m : has_key k m = false -> map_delete k m = m.
Proof.
  induction m as [| [k' x] m IH]; cbn [has_key map_delete]; [reflexivity |].
  destruct (String.eqb k k'); [discriminate |].
  intros H. rewrite (IH H). reflexivity.
Qed.

Lemma map_delete_set k ws m :
  has_key k m = false -> map_delete k (map_set k ws m) = m.
Proof.
  induction m as [| [k' x] m IH]; cbn [has_key map_set map_delete].
  - rewrite String.eqb_refl. reflexivity.
  - destruct (String.eqb k k') eqn:E; [discriminate |].
    intros H. cbn [map_delete]. rewrite E, (IH H). reflexivity.
Qed.

Lemma map_set_registers k ws m : In ws (map snd (map_set k ws m)).
Proof.
  induction m as [| [k' x] m IH]; cbn [map_set]; [left; reflexivity |].
  destruct (String.eqb k k'); cbn [map snd In]; auto.
Qed.

Lemma nth_error_snoc {A : Type} (l : list A) x :
  nth_error (l ++ [x]) (List.length l) = Some x.
Proof. induction l as [| a l IH]; [reflexivity | exact IH]. Qed.

Lemma replace_nth_snoc {A : Type} (l : list A) x y :
  replace_nth (List.length l) y (l ++ [x]) = (l ++ [y])%list.
Proof.
  induction l as [| a l IH]; [reflexivity |].
  cbn [List.length app replace_nth]. rewrite IH. reflexivity.
Qed.

(** What the connection handler leaves behind. *)
Lemma connection_step rt w ws s :
  exited s = false ->
  clients (step rt w (Connection ws) s)
  = map_set (uuidv4 rt (uuids s)) ws (clients s)
  /\ readyState (step rt w (Connection ws) s)
     = (fun x => if Nat.eqb x ws then OPEN else readyState s x)
  /\ trace (step rt w (Connection ws) s)
     = (trace s ++ [Send ws (connected_message (uuidv4 rt (uuids s)));
                    Http (axios_get (VOICEVOX_URL rt) (num 2000))])%list
  /\ pending_status (step rt w (Connection ws) s)
     = (pending_status s ++ [AwaitsVoicevox])%list
  /\ exited (step rt w (Connection ws) s) = false.
Proof.
  intros Hrun. unfold step, run. rewrite Hrun.
  unfold on_connection, spawn_updateServiceStatus, uuid, bind, send, emit.
  cbn. rewrite <- app_assoc. auto.
Qed.

(** Registering and then unregistering a connection gives the registry
    back; unregistering an id that is not registered changes nothing. *)
Theorem registry_round_trip rt w w' ws s :
  exited s = false ->
  has_key (uuidv4 rt (uuids s)) (clients s) = false ->
  clients (step rt w' (SocketClose ws (uuidv4 rt (uuids s)))
             (step rt w (Connection ws) s))
  = clients s
  /\ (forall clientId,
        has_key clientId (clients s) = false ->
        clients (step rt w' (SocketClose ws clientId) s) = clients s).
Proof.
  intros Hrun Hnew. split.
  - destruct (connection_step rt w ws s Hrun) as [Hc [_ [_ [_ Hx]]]].
    unfold step at 1. rewrite Hx. unfold run, on_close. cbn [snd clients with_clients with_readyState].
    rewrite Hc. apply map_delete_set. exact Hnew.
  - intros clientId Habsent. unfold step. rewrite Hrun.
    unfold run, on_close. cbn. apply map_delete_absent. exact Habsent.
Qed.

(** A status update that waits for its second probe ends, when the probe
    is answered, by sending the status to the sockets that are registered
    and open at that time. *)
Lemma status_resume_broadcast rt w k voicevoxStatus s :
  exited s = false ->
  nth_error (pending_status s) k = Some (AwaitsRvc voicevoxStatus) ->
  events_since s (step rt w (StatusResume k) s)
  = map (fun client =>
           Send client
             (status_message w voicevoxStatus
                (probe_up w (RVC_URL rt ++ "/health"))))
      (open_sockets s).
Proof.
  intros Hrun Htask. unfold step. rewrite Hrun, Htask.
  unfold run, resume_updateServiceStatus, bind. cbv beta iota zeta.
  match goal with
  | |- context [broadcast_open ?m ?cs ?st] =>
      destruct (broadcast_open_run m cs st) as [_ [Hb _]]
  end.
  apply events_since_app. rewrite Hb. reflexivity.
Qed.

(** A new connection is registered under a fresh uuid and is sent its
    confirmation; the status update it starts is not awaited, and within
    the connection step it only makes the request of its first probe.  When
    that update then goes on with nothing else in between, it makes the
    request of the second probe once the first is answered, and once the
    second is answered it sends the status to the sockets that are
    registered and open, the new one among them.  Whatever happens in
    between, an update that waits for its second probe sends the status to
    the sockets that are registered and open when that probe is answered,
    so a socket that has closed by then gets none. *)
Theorem connection_is_greeted rt w w1 w2 ws s :
  exited s = false ->
  let k := List.length (pending_status s) in
  let s1 := step rt w (Connection ws) s in
  let s2 := step rt w1 (StatusResume k) s1 in
  let s3 := step rt w2 (StatusResume k) s2 in
  clients s1 = map_set (uuidv4 rt (uuids s)) ws (clients s)
  /\ readyState s1 ws = OPEN
  /\ events_since s s1
     = [Send ws (connected_message (uuidv4 rt (uuids s)));
        Http (axios_get (VOICEVOX_URL rt) (num 2000))]
  /\ events_since s1 s2
     = [Http (axios_get (RVC_URL rt ++ "/health") (num 2000))]
  /\ events_since s2 s3
     = map (fun client =>
              Send client
                (status_message w2 (probe_up w1 (VOICEVOX_URL rt))
                   (probe_up w2 (RVC_URL rt ++ "/health"))))
         (open_sockets s1)
  /\ In ws (open_sockets s1)
  /\ (forall w' k' voicevoxStatus s',
        exited s' = false ->
        nth_error (pending_status s') k' = Some (AwaitsRvc voicevoxStatus) ->
        events_since s' (step rt w' (StatusResume k') s')
        = map (fun client =>
                 Send client
                   (status_message w' voicevoxStatus
                      (probe_up w' (RVC_URL rt ++ "/health"))))
            (open_sockets s')).
Proof.
  intros Hrun k s1 s2 s3.
  destruct (connection_step rt w ws s Hrun) as [Hc [Hr [Ht [Hp Hx]]]].
  fold s1 in Hc, Hr, Ht, Hp, Hx.
  assert (H2 : s2 = with_pending_status
                      (pending_status s ++ [AwaitsRvc (probe_up w1 (VOICEVOX_URL rt))])
                      (with_trace
                         (trace s1 ++ [Http (axios_get (RVC_URL rt ++ "/health") (num 2000))])
                         s1)).
  { subst s2. unfold step. rewrite Hx, Hp. subst k.
    rewrite (nth_error_snoc (pending_status s) AwaitsVoicevox).
    unfold run, resume_updateServiceStatus, bind, emit.
    cbn [snd pending_status with_trace]. rewrite Hp.
    rewrite (replace_nth_snoc (pending_status s)). reflexivity. }
  assert (H3 : trace s3
               = (trace s2
                  ++ map (fun client =>
                            Send client
                              (status_message w2 (probe_up w1 (VOICEVOX_URL rt))
                                 (probe_up w2 (RVC_URL rt ++ "/health"))))
                       (open_sockets s1))%list).
  { assert (Hx2 : exited s2 = false) by (rewrite H2; exact Hx).
    assert (Hp2 : pending_status s2
                  = (pending_status s
                     ++ [AwaitsRvc (probe_up w1 (VOICEVOX_URL rt))])%list)
      by (rewrite H2; reflexivity).
    assert (Hc2 : clients s2 = clients s1) by (rewrite H2; reflexivity).
    assert (Hr2 : readyState s2 = readyState s1) by (rewrite H2; reflexivity).
    subst s3. unfold step. rewrite Hx2, Hp2. subst k.
    rewrite (nth_error_snoc (pending_status s)
               (AwaitsRvc (probe_up w1 (VOICEVOX_URL rt)))).
    unfold run, resume_updateServiceStatus, bind. cbv beta iota zeta.
    match goal with
    | |- context [broadcast_open ?m ?cs ?st] =>
        destruct (broadcast_open_run m cs st) as [_ [Hb _]]
    end.
    rewrite Hb.
    cbn [trace readyState clients with_pending_status].
    rewrite Hc2, Hr2. reflexivity. }
  split; [exact Hc |]. split; [rewrite Hr, Nat.eqb_refl; reflexivity |].
  split; [apply events_since_app; exact Ht |].
  split; [apply events_since_app; rewrite H2; reflexivity |].
  split; [apply events_since_app; exact H3 |].
  split.
  - unfold open_sockets. apply filter_In. split.
    + rewrite Hc. apply map_set_registers.
    + rewrite Hr, Nat.eqb_refl. reflexivity.
  - intros w' k' voicevoxStatus s'. apply status_resume_broadcast.
Qed.

(** ** Uploads: refusals, storage failures and the completion push *)

Lemma no_comma_no_segment s :
  has_comma s = false -> nth_error (split_comma s) 1 = None.
Proof. intros H. rewrite (split_comma_no_comma _ H). reflexivity. Qed.

(** Only what lies between the first and the second comma is decoded. *)
Theorem data_uri_second_comma rt prefix body rest s :
  has_comma prefix = false ->
  has_comma body = false ->
  decode_data_uri rt (VStr (prefix ++ "," ++ body ++ "," ++ rest)) s
  = (Normal (Base64.decode body), s).
Proof.
  intros Hp Hb. unfold decode_data_uri.
  rewrite (split_comma_prefix _ _ Hp), (split_comma_prefix _ _ Hb).
  reflexivity.
Qed.

Lemma data_uri_second_comma_witness :
  decode_data_uri sample_runtime
    (VStr "data:audio/wav;base64,SGVsbG8=,SGVsbG8h") initial
  = (Normal "Hello", initial).
Proof.
  exact (data_uri_second_comma sample_runtime "data:audio/wav;base64"
           "SGVsbG8=" "SGVsbG8h" initial eq_refl eq_refl).
Defined.

(** An upload whose [fileData] is not a string with a comma (or whose
    [data] is missing) is refused: one error reply echoing the request id,
    nothing written, no completion push scheduled. *)
Theorem upload_rejects_malformed rt w ws request s :
  exited s = false ->
  get request "type" = VStr "rvc-upload-training-data" ->
  is_data_uri (get (get request "data") "fileData") = false ->
  exists error,
    events_since s (step rt w (Message ws (Parsed request)) s)
    = [Send ws (VObj [("type", VStr "error");
                      ("error", VStr ("ファイルアップロードエラー: " ++ message error));
                      ("requestId", get request "requestId")])]
    /\ files (step rt w (Message ws (Parsed request)) s) = files s
    /\ timeouts (step rt w (Message ws (Parsed request)) s) = timeouts s.
Proof.
  intros Hrun Htype Huri.
  rewrite (step_message _ _ _ _ _ Hrun).
  rewrite (on_message_parsed _ _ _ _ _ (typed_not_nullish _ _ Htype)).
  unfold dispatch. rewrite Htype. cbn [String.eqb Ascii.eqb Bool.eqb].
  unfold handle_rvc_upload_training_data, try_catch, bind, destructure, uuid,
    decode_data_uri, to_string.
  destruct (nullish (get request "data")).
  - run_handler. eexists. split; [events_norm; reflexivity | auto].
  - run_handler. cbv beta iota.
    destruct (string_of rt (get (get request "data") "fileName")) as [name |];
      [| run_handler; eexists; split; [events_norm; reflexivity | auto]].
    run_handler. cbv beta iota.
    destruct (get (get request "data") "fileData") as [| | | | | uri | | |];
      try (run_handler; eexists; split; [events_norm; reflexivity | auto]).
    cbn [is_data_uri] in Huri. rewrite (no_comma_no_segment _ Huri).
    run_handler. eexists. split; [events_norm; reflexivity | auto].
Qed.

Lemma upload_rejects_malformed_witness :
  exists error,
    events_since initial
      (step sample_runtime backends_down
         (Message 0 (Parsed (request_of "rvc-upload-training-data"
                               [("fileName", VStr "voice.wav");
                                ("fileData", VStr "SGVsbG8=")] "r3")))
         initial)
    = [Send 0 (VObj [("type", VStr "error");
                     ("error", VStr ("ファイルアップロードエラー: " ++ message error));
                     ("requestId", VStr "r3")])]
    /\ files
         (step sample_runtime backends_down
            (Message 0 (Parsed (request_of "rvc-upload-training-data"
                                  [("fileName", VStr "voice.wav");
                                   ("fileData", VStr "SGVsbG8=")] "r3")))
            initial)
       = []
    /\ timeouts
         (step sample_runtime backends_down
            (Message 0 (Parsed (request_of "rvc-upload-training-data"
                                  [("fileName", VStr "voice.wav");
                                   ("fileData", VStr "SGVsbG8=")] "r3")))
            initial)
       = [].
Proof.
  exact (upload_rejects_malformed sample_runtime backends_down 0%nat
           (request_of "rvc-upload-training-data"
              [("fileName", VStr "voice.wav");
               ("fileData", VStr "SGVsbG8=")] "r3")
           initial eq_refl eq_refl eq_refl).
Defined.

(** An upload whose [fileName] does not convert to a string (an object
    with a [toString] of its own) is refused at the template literal of
    line 242, after the uuid of the path was drawn: one error reply echoing
    the request id, nothing written, no completion push scheduled. *)
Theorem upload_rejects_unconvertible_name rt w ws request s :
  exited s = false ->
  get request "type" = VStr "rvc-upload-training-data" ->
  nullish (get request "data") = false ->
  string_of rt (get (get request "data") "fileName") = None ->
  step rt w (Message ws (Parsed request)) s
  = with_trace
      (trace s ++
       [Send ws (VObj [("type", VStr "error");
                       ("error",
                        VStr ("ファイルアップロードエラー: "
                              ++ engine_message rt "ToString"));
                       ("requestId", get request "requestId")])])
      (with_uuids (S (uuids s)) s).
Proof.
  intros Hrun Htype Hdata Hname.
  rewrite (step_message _ _ _ _ _ Hrun).
  rewrite (on_message_parsed _ _ _ _ _ (typed_not_nullish _ _ Htype)).
  unfold dispatch. rewrite Htype. cbn [String.eqb Ascii.eqb Bool.eqb].
  unfold handle_rvc_upload_training_data, try_catch, bind, destructure, uuid,
    to_string.
  rewrite Hdata, Hname. reflexivity.
Qed.

Lemma upload_rejects_unconvertible_name_witness :
  sent (events_since initial
          (step sample_runtime backends_down
             (Message 0 (Parsed (request_of "rvc-upload-training-data"
                                   [("fileName", VObj [("toString", VNull)]);
                                    ("fileData",
                                     VStr "data:audio/wav;base64,SGVsbG8=")]
                                   "r3")))
             initial))
  = [(0%nat,
      VObj [("type", VStr "error");
            ("error",
             VStr "ファイルアップロードエラー: Cannot read properties of ToString");
            ("requestId", VStr "r3")])].
Proof.
  exact (f_equal (fun s' => sent (events_since initial s'))
    (upload_rejects_unconvertible_name sample_runtime backends_down 0%nat
       (request_of "rvc-upload-training-data"
          [("fileName", VObj [("toString", VNull)]);
           ("fileData", VStr "data:audio/wav;base64,SGVsbG8=")] "r3")
       initial eq_refl eq_refl eq_refl eq_refl)).
Defined.

(** What the upload handler does once [fileName] converts to a string and
    [fileData] has a second segment. *)
Lemma upload_step rt w ws request s name uri segment :
  exited s = false ->
  get request "type" = VStr "rvc-upload-training-data" ->
  string_of rt (get (get request "data") "fileName") = Some name ->
  get (get request "data") "fileData" = VStr uri ->
  nth_error (split_comma uri) 1 = Some segment ->
  step rt w (Message ws (Parsed request)) s
  = match fs_writeFile w (upload_path rt (uuidv4 rt (uuids s)) name) with
    | Some error =>
        with_trace
          (trace s ++
           [WriteFile (upload_path rt (uuidv4 rt (uuids s)) name)
              (Base64.decode segment);
            Send ws (error_reply "ファイルアップロードエラー: " error
                       (get request "requestId"))])
          (with_uuids (S (uuids s)) s)
    | None =>
        with_timeouts
          (timeouts s ++
           [(timers s,
             {| up_ws := ws;
                up_fileName := get (get request "data") "fileName" |})])
          (with_timers (S (timers s))
             (with_trace
                (trace s ++
                 [WriteFile (upload_path rt (uuidv4 rt (uuids s)) name)
                    (Base64.decode segment);
                  Send ws
                    (VObj [("type", VStr "rvc-upload-response");
                           ("data",
                            VObj [("id", VStr (uuidv4 rt (S (uuids s))));
                                  ("fileName",
                                   get (get request "data") "fileName");
                                  ("filePath",
                                   VStr (upload_path rt (uuidv4 rt (uuids s))
                                           name));
                                  ("fileSize",
                                   get (get request "data") "fileSize");
                                  ("status", VStr "processing")]);
                           ("requestId", get request "requestId")])])
                (with_uuids (S (S (uuids s)))
                   (with_files
                      ((upload_path rt (uuidv4 rt (uuids s)) name,
                        Base64.decode segment) :: files s)
                      s))))
    end.
Proof.
  intros Hrun Htype Hname Huri Hseg.
  assert (Hdata : nullish (get request "data") = false).
  { apply (fielded_not_nullish _ "fileData"). rewrite Huri. discriminate. }
  rewrite (step_message _ _ _ _ _ Hrun).
  rewrite (on_message_parsed _ _ _ _ _ (typed_not_nullish _ _ Htype)).
  unfold dispatch. rewrite Htype. cbn [String.eqb Ascii.eqb Bool.eqb].
  unfold handle_rvc_upload_training_data, try_catch, bind, destructure,
    decode_data_uri, await_writeFile, uuid, setTimeout, to_string.
  rewrite Hdata, Hname, Huri, Hseg.
  run_handler. cbn [uuids with_uuids with_trace].
  destruct (fs_writeFile w _); cbn; rewrite <- ?app_assoc; reflexivity.
Qed.

(** When the storage refuses the file of an upload whose [fileName]
    converts to a string, the upload is answered by an error reply only: no
    upload-response, no file recorded, no completion push scheduled. *)
Theorem upload_storage_failure rt w ws request s name uri segment error :
  exited s = false ->
  get request "type" = VStr "rvc-upload-training-data" ->
  string_of rt (get (get request "data") "fileName") = Some name ->
  get (get request "data") "fileData" = VStr uri ->
  nth_error (split_comma uri) 1 = Some segment ->
  fs_writeFile w (upload_path rt (uuidv4 rt (uuids s)) name) = Some error ->
  events_since s (step rt w (Message ws (Parsed request)) s)
  = [WriteFile (upload_path rt (uuidv4 rt (uuids s)) name)
       (Base64.decode segment);
     Send ws (VObj [("type", VStr "error");
                    ("error", VStr ("ファイルアップロードエラー: " ++ message error));
                    ("requestId", get request "requestId")])]
  /\ files (step rt w (Message ws (Parsed request)) s) = files s
  /\ timeouts (step rt w (Message ws (Parsed request)) s) = timeouts s.
Proof.
  intros Hrun Htype Hname Huri Hseg Hfail.
  rewrite (upload_step rt w ws request s name uri segment Hrun Htype Hname
             Huri Hseg).
  rewrite Hfail. split; [events_norm; reflexivity | auto].
Qed.

Lemma upload_storage_failure_witness :
  sent (events_since initial
          (step sample_runtime disk_full
             (Message 0 (Parsed (request_of "rvc-upload-training-data"
                                   [("fileName", VStr "voice.wav");
                                    ("fileData",
                                     VStr "data:audio/wav;base64,SGVsbG8=")]
                                   "r3")))
             initial))
  = [(0%nat,
      VObj [("type", VStr "error");
            ("error", VStr "ファイルアップロードエラー: ENOSPC: no space left on device");
            ("requestId", VStr "r3")])].
Proof.
  exact (f_equal sent (proj1
    (upload_storage_failure sample_runtime disk_full 0%nat
       (request_of "rvc-upload-training-data"
          [("fileName", VStr "voice.wav");
           ("fileData", VStr "data:audio/wav;base64,SGVsbG8=")] "r3")
       initial "voice.wav" "data:audio/wav;base64,SGVsbG8=" "SGVsbG8="
       (SystemError "ENOSPC: no space left on device")
       eq_refl eq_refl eq_refl eq_refl eq_refl eq_refl))).
Defined.

(** Timeout handles stay fresh in every reachable state. *)
Lemma timeouts_fresh_step rt w i s :
  timeouts_fresh s -> timeouts_fresh (step rt w i s).
Proof.
  intros H.
  assert (Pemit : forall e st, timeouts_fresh st ->
                               timeouts_fresh (snd (emit e st))).
  { intros e st Hst. exact Hst. }
  unfold step. destruct (exited s); [exact H |].
  destruct i as [ws | ws f | ws clientId | | h | h | | k];
    unfold run, run_callback.
  - exact H.
  - apply (stable_on_message rt w ws timeouts_fresh); try (intros; assumption).
    + intros job st Hst h j Hin. cbn in *. apply Hst in Hin. lia.
    + intros job st Hst h j Hin. cbn in *. apply in_app_or in Hin.
      destruct Hin as [Hin | [[= <- _] | []]]; [apply Hst in Hin |]; lia.
  - exact H.
  - apply (trace_only_updateServiceStatus timeouts_fresh Pemit). exact H.
  - destruct (assoc h (intervals s)) as [job |]; [| exact H].
    unfold progress_tick, bind, send, emit, clearInterval, ret, to_number.
    cbn [snd].
    destruct (number_of rt (job_epochs job)) as [e |];
      [destruct (reached rt _ _) |]; exact H.
  - destruct (assoc h (timeouts s)) as [job |]; [| exact H].
    intros h' j Hin. cbn in *. apply In_remove_assoc in Hin.
    exact (H h' j Hin).
  - unfold on_SIGINT.
    refine (preserves_bind timeouts_fresh _ _ _ _ _ _); [| | exact H].
    + intros st Hst.
      apply (trace_only_shutdown_clients timeouts_fresh Pemit); [| exact Hst].
      intros x st' H'. exact H'.
    + intro. unfold exit, try_catch, await_rm.
      repeat (apply preserves_bind; [| intro]);
        try (intros st Hst; exact Hst).
      intros st Hst. unfold bind, emit. cbn.
      destruct (fs_rm w "uploads"); exact Hst.
  - destruct (nth_error (pending_status s) k) as [[| voicevoxStatus] |];
      [exact H | | exact H].
    unfold resume_updateServiceStatus, bind. cbv zeta beta iota.
    apply (trace_only_broadcast_open timeouts_fresh Pemit). exact H.
Qed.

Lemma reachable_timeouts_fresh rt s : reachable rt s -> timeouts_fresh s.
Proof.
  induction 1 as [| w i s Hs IH].
  - intros h job [].
  - apply timeouts_fresh_step. exact IH.
Qed.

(** After an accepted upload (its [fileName] converts to a string, its
    [fileData] has a second segment and the storage takes the file) the
    completion push is sent once, when the timeout fires: to the uploading
    socket, carrying the [fileName] of the request as it was given, with
    status ready, a duration of 300 times the random draw, and no request
    id.  The timeout does not fire twice. *)
Theorem upload_completion_push rt w w' w'' ws request s name uri segment :
  reachable rt s ->
  exited s = false ->
  get request "type" = VStr "rvc-upload-training-data" ->
  string_of rt (get (get request "data") "fileName") = Some name ->
  get (get request "data") "fileData" = VStr uri ->
  nth_error (split_comma uri) 1 = Some segment ->
  fs_writeFile w (upload_path rt (uuidv4 rt (uuids s)) name) = None ->
  events_since (step rt w (Message ws (Parsed request)) s)
    (step rt w' (TimeoutFire (timers s))
       (step rt w (Message ws (Parsed request)) s))
  = [Send ws
       (VObj [("type", VStr "rvc-processing-complete");
              ("data",
               VObj [("fileName", get (get request "data") "fileName");
                     ("status", VStr "ready");
                     ("duration", VNum (Math_random w' * 300))])])]
  /\ step rt w'' (TimeoutFire (timers s))
       (step rt w' (TimeoutFire (timers s))
          (step rt w (Message ws (Parsed request)) s))
     = step rt w' (TimeoutFire (timers s))
         (step rt w (Message ws (Parsed request)) s).
Proof.
  intros Hreach Hrun Htype Hname Huri Hseg Hok.
  rewrite (upload_step rt w ws request s name uri segment Hrun Htype Hname
             Huri Hseg).
  rewrite Hok.
  assert (Hnew : assoc (timers s) (timeouts s) = None).
  { destruct (assoc (timers s) (timeouts s)) as [job |] eqn:E; [| reflexivity].
    apply assoc_In in E. apply (reachable_timeouts_fresh rt s Hreach) in E. lia. }
  match goal with
  | |- events_since ?X0 _ = _ /\ _ => set (X := X0)
  end.
  assert (Hx : exited X = false) by exact Hrun.
  assert (Hjob : assoc (timers s) (timeouts X)
                 = Some {| up_ws := ws;
                           up_fileName := get (get request "data") "fileName" |}).
  { exact (assoc_app_new _ _ _ Hnew). }
  assert (Hfire : step rt w' (TimeoutFire (timers s)) X
                  = with_trace
                      (trace X ++
                       [Send ws
                          (VObj [("type", VStr "rvc-processing-complete");
                                 ("data",
                                  VObj [("fileName",
                                         get (get request "data") "fileName");
                                        ("status", VStr "ready");
                                        ("duration",
                                         VNum (Math_random w' * 300))])])])
                      (with_timeouts (remove_assoc (timers s) (timeouts X)) X)).
  { unfold step. rewrite Hx, Hjob. reflexivity. }
  rewrite Hfire. split.
  - apply events_since_app. reflexivity.
  - unfold step. cbn [exited with_trace with_timeouts timeouts].
    rewrite Hx, assoc_remove. reflexivity.
Qed.

(** ** Successful backend calls *)

(** When the backend answers, list-voices passes its catalog on verbatim. *)
Theorem speakers_success_is_verbatim rt w ws request s r :
  exited s = false ->
  get request "type" = VStr "voicevox-speakers" ->
  axios w (speakers_request rt) = Resolved r ->
  events_since s (step rt w (Message ws (Parsed request)) s)
  = [Http (speakers_request rt);
     Send ws (VObj [("type", VStr "voicevox-speakers-response");
                    ("data", resp_data r);
                    ("requestId", get request "requestId")])].
Proof.
  intros Hrun Htype Hcall.
  rewrite (step_message _ _ _ _ _ Hrun).
  rewrite (on_message_parsed _ _ _ _ _ (typed_not_nullish _ _ Htype)).
  unfold dispatch. rewrite Htype. cbn [String.eqb Ascii.eqb Bool.eqb].
  unfold handle_voicevox_speakers, try_catch, bind, await_axios.
  run_handler. rewrite Hcall. run_handler. events_norm. reflexivity.
Qed.

(** A synthesize request whose two backend calls succeed: the query is
    asked for the text and the speaker (3 when [speaker_id] is missing or
    falsy), the overrides are merged into the query, the synthesis is asked
    with the merged query, and the reply carries the audio as a base64 data
    URI, not tagged as mock; the server's own data URI decoder gives the
    backend's bytes back from it. *)
Theorem synthesis_success rt w ws request s query aq synthesis bytes :
  exited s = false ->
  get request "type" = VStr "voicevox-synthesis" ->
  nullish (get request "data") = false ->
  axios w (audio_query_request rt (get (get request "data") "text")
             (get (get request "data") "speaker_id"))
  = Resolved query ->
  overridden (resp_data query) (get (get request "data") "params") = Some aq ->
  axios w (synthesis_request rt aq (get (get request "data") "speaker_id"))
  = Resolved synthesis ->
  resp_data synthesis = VBuffer bytes ->
  events_since s (step rt w (Message ws (Parsed request)) s)
  = [Http (audio_query_request rt (get (get request "data") "text")
             (get (get request "data") "speaker_id"));
     Http (synthesis_request rt aq (get (get request "data") "speaker_id"));
     Send ws
       (VObj [("type", VStr "voicevox-synthesis-response");
              ("data",
               VObj [("audio",
                      VStr ("data:audio/wav;base64," ++ Base64.encode bytes));
                     ("text", get (get request "data") "text");
                     ("speaker_id", get (get request "data") "speaker_id")]);
              ("requestId", get request "requestId")])]
  /\ (forall st,
        decode_data_uri rt
          (VStr ("data:audio/wav;base64," ++ Base64.encode bytes)) st
        = (Normal bytes, st)).
Proof.
  intros Hrun Htype Hdata Hquery Hmerge Hsynth Hbuf. split.
  - rewrite (step_message _ _ _ _ _ Hrun).
    rewrite (on_message_parsed _ _ _ _ _ (typed_not_nullish _ _ Htype)).
    unfold dispatch. rewrite Htype. cbn [String.eqb Ascii.eqb Bool.eqb].
    unfold handle_voicevox_synthesis, try_catch, bind, read, await_axios.
    rewrite Hdata. run_handler. rewrite Hquery. run_handler.
    rewrite (overridden_run rt _ _ _ Hmerge). rewrite Hsynth. run_handler.
    unfold Buffer_from. rewrite Hbuf. run_handler. events_norm. reflexivity.
  - intros st. unfold decode_data_uri.
    change ("data:audio/wav;base64," ++ Base64.encode bytes)
      with ("data:audio/wav;base64" ++ "," ++ Base64.encode bytes).
    rewrite (data_uri_segment "data:audio/wav;base64" bytes eq_refl).
    rewrite Base64Facts.decode_encode. reflexivity.
Qed.

(** ** Parameter overrides *)

Lemma lookup_set_field k k' v fields :
  lookup k' (set_field k v fields)
  = if String.eqb k' k then v else lookup k' fields.
Proof.
  induction fields as [| [k0 v0] fields IH]; cbn [set_field lookup].
  - reflexivity.
  - destruct (String.eqb_spec k k0) as [-> | Hk]; cbn [lookup].
    + destruct (String.eqb k' k0); reflexivity.
    + destruct (String.eqb_spec k' k0) as [-> | Hk'].
      * destruct (String.eqb_spec k0 k); [congruence | reflexivity].
      * exact IH.
Qed.

Lemma lookup_app k a b :
  lookup k (a ++ b) = if has_field k a then lookup k a else lookup k b.
Proof.
  induction a as [| [k0 v0] a IH]; cbn [app lookup has_field]; [reflexivity |].
  destruct (String.eqb k k0); [reflexivity | exact IH].
Qed.

Lemma has_field_app k a b :
  has_field k (a ++ b) = has_field k a || has_field k b.
Proof.
  induction a as [| [k0 v0] a IH]; cbn [app has_field]; [reflexivity |].
  destruct (String.eqb k k0); [reflexivity | exact IH].
Qed.

Lemma has_field_rev k a : has_field k (rev a) = has_field k a.
Proof.
  induction a as [| [k0 v0] a IH]; [reflexivity |].
  cbn [rev]. rewrite has_field_app, IH. cbn [has_field].
  destruct (String.eqb k k0), (has_field k a); reflexivity.
Qed.

Lemma has_field_set_field k k' v fields :
  has_field k' (set_field k v fields) = String.eqb k' k || has_field k' fields.
Proof.
  induction fields as [| [k0 v0] fields IH]; cbn [set_field has_field].
  - destruct (String.eqb k' k); reflexivity.
  - destruct (String.eqb_spec k k0) as [-> | Hk]; cbn [has_field].
    + destruct (String.eqb k' k0); reflexivity.
    + destruct (String.eqb_spec k' k0) as [-> | Hk'].
      * apply eq_sym, orb_true_r.
      * exact IH.
Qed.

Lemma lookup_assign_field k0 v0 k fields :
  lookup k (assign_field k0 v0 fields)
  = if String.eqb k k0 && assignable k fields then v0 else lookup k fields.
Proof.
  unfold assign_field, assignable.
  destruct (String.eqb_spec k k0) as [-> | Hk]; cbn [andb].
  - destruct (String.eqb k0 "__proto__"), (has_field k0 fields);
      cbn [andb negb orb]; rewrite ?lookup_set_field, ?String.eqb_refl;
      reflexivity.
  - destruct (String.eqb k0 "__proto__" && negb (has_field k0 fields));
      [reflexivity |].
    rewrite lookup_set_field.
    destruct (String.eqb_spec k k0); [congruence | reflexivity].
Qed.

Lemma has_field_assign_field k0 v0 k fields :
  has_field k (assign_field k0 v0 fields)
  = (String.eqb k k0 && assignable k fields) || has_field k fields.
Proof.
  unfold assign_field, assignable.
  destruct (String.eqb_spec k k0) as [-> | Hk]; cbn [andb orb].
  - destruct (String.eqb k0 "__proto__"), (has_field k0 fields) eqn:Hf;
      cbn [andb negb orb];
      rewrite ?has_field_set_field, ?String.eqb_refl, ?Hf; reflexivity.
  - destruct (String.eqb k0 "__proto__" && negb (has_field k0 fields));
      [reflexivity |].
    rewrite has_field_set_field.
    destruct (String.eqb_spec k k0); [congruence | reflexivity].
Qed.

Lemma lookup_overrides k params :
  forall query,
    lookup k
      (fold_left (fun acc kv => assign_field (fst kv) (snd kv) acc) params query)
    = if has_field k params && assignable k query
      then lookup k (rev params)
      else lookup k query.
Proof.
  induction params as [| [k0 v0] params IH]; intros query; [reflexivity |].
  cbn [fold_left fst snd]. rewrite IH. cbn [has_field rev].
  rewrite lookup_app, has_field_rev, lookup_assign_field.
  unfold assignable at 1. rewrite has_field_assign_field.
  unfold assignable. cbn [lookup].
  destruct (has_field k params), (String.eqb k k0),
    (String.eqb k "__proto__"), (has_field k query); reflexivity.
Qed.

(** An override replaces the value of its key, the last override of a key
    winning, and every field of the query that is not overridden is kept.
    The one key that cannot be overridden is [__proto__] when the query has
    no field of that name: the assignment then reaches the setter of
    [Object.prototype] and leaves the fields of the query as they are. *)
Theorem overrides_merge rt query params k st :
  exists merged,
    Object_assign rt (VObj query) (VObj params) st = (Normal (VObj merged), st)
    /\ lookup k merged
       = if has_field k params
            && (negb (String.eqb k "__proto__") || has_field k query)
         then lookup k (rev params)
         else lookup k query.
Proof.
  eexists. split; [reflexivity | apply lookup_overrides].
Qed.

(** ** The generic passthrough, when the backend answers *)

(** A passthrough with a string endpoint and a string method makes one call,
    to the backend URL followed by the endpoint, with the method in upper
    case and a timeout of 30 s, asking for an array buffer exactly when the
    endpoint contains /synthesis or /audio, and carrying the body only for
    POST, PUT and PATCH.  A JSON answer is passed on verbatim; a binary
    answer is wrapped as a base64 data URI with its content type, audio/wav
    when the backend gives none. *)
Theorem passthrough_success rt w ws request s ep m r :
  exited s = false ->
  get request "type" = VStr "voicevox_request" ->
  nullish (get request "data") = false ->
  get (passthrough_payload request) "endpoint" = VStr ep ->
  ep <> "" ->
  passthrough_method request = VStr m ->
  axios w
    (passthrough_config rt (VStr ep) (toUpperCase rt m)
       (get (passthrough_payload request) "body")
       (get (passthrough_payload request) "params")
       (str_includes "/synthesis" ep || str_includes "/audio" ep))
  = Resolved r ->
  events_since s (step rt w (Message ws (Parsed request)) s)
  = [Http
       {| cfg_method := toUpperCase rt m;
          cfg_url := VOICEVOX_URL rt ++ ep;
          cfg_params :=
            if truthy (get (passthrough_payload request) "params")
            then get (passthrough_payload request) "params" else VUndefined;
          cfg_data :=
            if truthy (get (passthrough_payload request) "body")
               && existsb (String.eqb (toUpperCase rt m)) ["POST"; "PUT"; "PATCH"]
            then get (passthrough_payload request) "body" else VUndefined;
          cfg_responseType :=
            if str_includes "/synthesis" ep || str_includes "/audio" ep
            then VStr "arraybuffer" else VUndefined;
          cfg_timeout := num 30000 |};
     Send ws
       (VObj [("type", VStr "voicevox_request-response");
              ("data",
               match resp_data r with
               | VBuffer bytes =>
                   VObj [("audio",
                          VStr ("data:audio/wav;base64," ++ Base64.encode bytes));
                         ("contentType",
                          js_or (get (resp_headers r) "content-type")
                            (VStr "audio/wav"))]
               | d => d
               end);
              ("requestId", get request "requestId")])].
Proof.
  intros Hrun Htype Hdata Hep Hne Hm Hcall.
  rewrite (step_message _ _ _ _ _ Hrun).
  rewrite (on_message_parsed _ _ _ _ _ (typed_not_nullish _ _ Htype)).
  unfold dispatch. rewrite Htype. cbn [String.eqb Ascii.eqb Bool.eqb].
  unfold handle_voicevox_request, try_catch, bind, read, await_axios.
  rewrite Hdata. run_handler. cbv zeta.
  fold (passthrough_payload request). fold (passthrough_method request).
  rewrite Hep, Hm. cbn [truthy].
  destruct (String.eqb_spec ep "") as [-> | _]; [contradiction |].
  unfold to_string. cbn [negb upper includes string_of]. run_handler.
  destruct (str_includes "/synthesis" ep); cbn [orb] in Hcall |- *;
    run_handler; rewrite Hcall; run_handler; events_norm; reflexivity.
Qed.

(** A passthrough whose method is given and is not a string is answered by
    an error reply, and no backend call is made.  The error is that of
    [method.toUpperCase], unless the endpoint or the method does not even
    convert to a string for the log line of lines 371-372, in which case it
    is that of the conversion. *)
Theorem passthrough_rejects_method rt w ws request s :
  exited s = false ->
  get request "type" = VStr "voicevox_request" ->
  nullish (get request "data") = false ->
  truthy (get (passthrough_payload request) "endpoint") = true ->
  is_string (passthrough_method request) = false ->
  events_since s (step rt w (Message ws (Parsed request)) s)
  = [Send ws
       (VObj [("type", VStr "error");
              ("error",
               VStr ("VOICEVOX APIエラー: "
                     ++ engine_message rt
                          match
                            string_of rt
                              (get (passthrough_payload request) "endpoint"),
                            string_of rt (passthrough_method request)
                          with
                          | Some _, Some _ => "method.toUpperCase"
                          | _, _ => "ToString"
                          end));
              ("details", VUndefined);
              ("requestId", get request "requestId")])].
Proof.
  intros Hrun Htype Hdata Hep Hm.
  rewrite (step_message _ _ _ _ _ Hrun).
  rewrite (on_message_parsed _ _ _ _ _ (typed_not_nullish _ _ Htype)).
  unfold dispatch. rewrite Htype. cbn [String.eqb Ascii.eqb Bool.eqb].
  unfold handle_voicevox_request, try_catch, bind, read, to_string.
  rewrite Hdata. run_handler. cbv zeta.
  fold (passthrough_payload request). fold (passthrough_method request).
  rewrite Hep. cbn [negb].
  destruct (string_of rt (get (passthrough_payload request) "endpoint"));
    [| run_handler; events_norm; reflexivity].
  run_handler. cbv beta iota.
  destruct (string_of rt (passthrough_method request));
    [| run_handler; events_norm; reflexivity].
  run_handler. cbv beta iota.
  destruct (passthrough_method request); try discriminate;
    cbn [upper]; run_handler; events_norm; reflexivity.
Qed.

(** ** Correlation and handles, at the level of the event loop *)

(** Every message sent while a parsed request is handled goes to the
    requesting socket and either carries the request id of the request or is
    the error reply of the router boundary. *)
Theorem replies_are_correlated rt w ws request s x msg :
  exited s = false ->
  In (Send x msg) (events_since s (step rt w (Message ws (Parsed request)) s)) ->
  x = ws
  /\ (get msg "requestId" = get request "requestId"
      \/ exists error, msg = boundary_error error).
Proof.
  intros Hrun Hin. split.
  - destruct (message_handling_is_confined_aux rt w ws (Parsed request) s Hrun)
      as [_ [_ [_ Hall]]].
    rewrite forallb_forall in Hall. specialize (Hall _ Hin).
    cbn in Hall. apply Nat.eqb_eq in Hall. exact Hall.
  - revert Hin. rewrite (step_message _ _ _ _ _ Hrun).
    unfold on_message, process, JSON_parse, destructure, try_catch, bind, ret.
    destruct (nullish request).
    + unfold throw, send, emit. cbn [snd]. events_norm.
      intros [[= _ <-] | []]. right. eexists. reflexivity.
    + cbv beta iota.
      destruct (dispatch rt w ws request s) as [[[] | e] s'] eqn:Hd.
      * intros Hin. left.
        apply (handler_replies_echo rt w ws request s x msg).
        rewrite Hd. exact Hin.
      * pose proof (dispatch_throws_early rt w ws request s e s' Hd) as ->.
        unfold send, emit. cbn [snd]. events_norm.
        intros [[= _ <-] | []]. right. eexists. reflexivity.
Qed.

(** ** Concrete runs of the further properties *)

Lemma message_handling_is_confined_witness :
  forallb (own_io 0)
    (events_since initial
       (step sample_runtime backends_down
          (Message 0 (Parsed (request_of "voicevox-synthesis"
                                [("text", VStr "hi")] "r1")))
          initial))
  = true.
Proof.
  exact (proj2 (proj2 (proj2
    (message_handling_is_confined sample_runtime backends_down 0%nat
       (Parsed (request_of "voicevox-synthesis" [("text", VStr "hi")] "r1"))
       initial eq_refl)))).
Defined.

Lemma job_is_isolated_witness :
  assoc 0
    (intervals
       (steps sample_runtime
          [(backends_down, StatusTick);
           (backends_down, Message 1 (Parsed (request_of "ping" [] "r9")))]
          (step sample_runtime backends_down
             (Message 0 (Parsed (request_of "rvc-start-training"
                                   [("modelName", VStr "m1");
                                    ("epochs", num 20)] "r2")))
             initial)))
  = assoc 0
      (intervals
         (step sample_runtime backends_down
            (Message 0 (Parsed (request_of "rvc-start-training"
                                  [("modelName", VStr "m1");
                                   ("epochs", num 20)] "r2")))
            initial)).
Proof.
  refine (job_is_isolated sample_runtime
            [(backends_down, StatusTick);
             (backends_down, Message 1 (Parsed (request_of "ping" [] "r9")))]
            (step sample_runtime backends_down
               (Message 0 (Parsed (request_of "rvc-start-training"
                                     [("modelName", VStr "m1");
                                      ("epochs", num 20)] "r2")))
               initial)
            0%nat _ (le_n 1)).
  repeat constructor; discriminate.
Defined.

Lemma ping_pong_witness :
  step sample_runtime backends_down
    (Message 0 (Parsed (request_of "ping" [] "r9"))) initial
  = with_trace
      [Send 0 (VObj [("type", VStr "pong");
                     ("data", VObj [("timestamp", num 0)]);
                     ("requestId", VStr "r9")])] initial.
Proof.
  exact (ping_pong sample_runtime backends_down 0%nat
           (request_of "ping" [] "r9") initial eq_refl eq_refl).
Defined.

Lemma unknown_type_is_refused_witness :
  step sample_runtime backends_down
    (Message 0 (Parsed (request_of "reticulate" [] "r9"))) initial
  = with_trace
      [Send 0 (VObj [("type", VStr "error");
                     ("error", VStr "Unknown request type: reticulate");
                     ("requestId", VStr "r9")])] initial.
Proof.
  exact (unknown_type_is_refused sample_runtime backends_down 0%nat
           (request_of "reticulate" [] "r9") initial eq_refl eq_refl eq_refl).
Defined.

Lemma status_broadcast_witness :
  sent (events_since
          (step sample_runtime backends_down (Connection 0) initial)
          (step sample_runtime backends_down StatusTick
             (step sample_runtime backends_down (Connection 0) initial)))
  = [(0%nat, status_message backends_down false false)].
Proof.
  exact (f_equal sent
    (status_broadcast sample_runtime backends_down
       (step sample_runtime backends_down (Connection 0) initial) eq_refl)).
Defined.

Lemma registry_round_trip_witness :
  clients (step sample_runtime backends_down (SocketClose 0 "a")
             (step sample_runtime backends_down (Connection 0) initial))
  = [].
Proof.
  exact (proj1
    (registry_round_trip sample_runtime backends_down backends_down 0%nat
       initial eq_refl eq_refl)).
Defined.

Lemma connection_is_greeted_witness :
  events_since initial
    (step sample_runtime backends_down (Connection 0) initial)
  = [Send 0 (connected_message "a");
     Http (axios_get "http://localhost:50021" (num 2000))]
  /\ events_since
       (step sample_runtime backends_down (StatusResume 0)
          (step sample_runtime backends_down (Connection 0) initial))
       (step sample_runtime backends_down (StatusResume 0)
          (step sample_runtime backends_down (StatusResume 0)
             (step sample_runtime backends_down (Connection 0) initial)))
     = [Send 0 (status_message backends_down false false)].
Proof.
  split.
  - exact (proj1 (proj2 (proj2
      (connection_is_greeted sample_runtime backends_down backends_down
         backends_down 0%nat initial eq_refl)))).
  - exact (proj1 (proj2 (proj2 (proj2 (proj2
      (connection_is_greeted sample_runtime backends_down backends_down
         backends_down 0%nat initial eq_refl)))))).
Defined.

Lemma upload_completion_push_witness :
  events_since
    (step sample_runtime backends_down
       (Message 0 (Parsed (request_of "rvc-upload-training-data"
                             [("fileName", VStr "voice.wav");
                              ("fileData",
                               VStr "data:audio/wav;base64,SGVsbG8=")]
                             "r3")))
       initial)
    (step sample_runtime backends_down (TimeoutFire 0)
       (step sample_runtime backends_down
          (Message 0 (Parsed (request_of "rvc-upload-training-data"
                                [("fileName", VStr "voice.wav");
                                 ("fileData",
                                  VStr "data:audio/wav;base64,SGVsbG8=")]
                                "r3")))
          initial))
  = [Send 0
       (VObj [("type", VStr "rvc-processing-complete");
              ("data",
               VObj [("fileName", VStr "voice.wav");
                     ("status", VStr "ready");
                     ("duration", VNum (0 * 300))])])].
Proof.
  exact (proj1
    (upload_completion_push sample_runtime backends_down backends_down
       backends_down 0%nat
       (request_of "rvc-upload-training-data"
          [("fileName", VStr "voice.wav");
           ("fileData", VStr "data:audio/wav;base64,SGVsbG8=")] "r3")
       initial "voice.wav" "data:audio/wav;base64,SGVsbG8=" "SGVsbG8="
       (reachable_initial sample_runtime)
       eq_refl eq_refl eq_refl eq_refl eq_refl eq_refl)).
Defined.

Lemma speakers_success_is_verbatim_witness :
  sent (events_since initial
          (step sample_runtime backend_up
             (Message 0 (Parsed (request_of "voicevox-speakers" [] "r4")))
             initial))
  = [(0%nat,
      VObj [("type", VStr "voicevox-speakers-response");
            ("data", VObj [("speedScale", num 1); ("pitchScale", num 0)]);
            ("requestId", VStr "r4")])].
Proof.
  exact (f_equal sent
    (speakers_success_is_verbatim sample_runtime backend_up 0%nat
       (request_of "voicevox-speakers" [] "r4") initial
       _ eq_refl eq_refl eq_refl)).
Defined.

Lemma synthesis_success_witness :
  sent (events_since initial
          (step sample_runtime backend_up
             (Message 0 (Parsed (request_of "voicevox-synthesis"
                                   [("text", VStr "hi");
                                    ("params",
                                     VObj [("speedScale", num 2)])] "r1")))
             initial))
  = [(0%nat,
      VObj [("type", VStr "voicevox-synthesis-response");
            ("data",
             VObj [("audio", VStr "data:audio/wav;base64,UklG");
                   ("text", VStr "hi");
                   ("speaker_id", VUndefined)]);
            ("requestId", VStr "r1")])].
Proof.
  exact (f_equal sent (proj1
    (synthesis_success sample_runtime backend_up 0%nat
       (request_of "voicevox-synthesis"
          [("text", VStr "hi"); ("params", VObj [("speedScale", num 2)])] "r1")
       initial _ (VObj [("speedScale", num 2); ("pitchScale", num 0)]) _ "RIF"
       eq_refl eq_refl eq_refl eq_refl eq_refl eq_refl eq_refl))).
Defined.

Lemma passthrough_success_witness :
  sent (events_since initial
          (step sample_runtime backend_up
             (Message 0 (Parsed (request_of "voicevox_request"
                                   [("payload",
                                     VObj [("endpoint", VStr "/version")])]
                                   "r7")))
             initial))
  = [(0%nat,
      VObj [("type", VStr "voicevox_request-response");
            ("data", VObj [("speedScale", num 1); ("pitchScale", num 0)]);
            ("requestId", VStr "r7")])].
Proof.
  refine (f_equal sent
    (passthrough_success sample_runtime backend_up 0%nat
       (request_of "voicevox_request"
          [("payload", VObj [("endpoint", VStr "/version")])] "r7")
       initial "/version" "GET" _ eq_refl eq_refl eq_refl eq_refl _
       eq_refl eq_refl)).
  discriminate.
Defined.

Lemma passthrough_rejects_method_witness :
  sent (events_since initial
          (step sample_runtime backend_up
             (Message 0 (Parsed (request_of "voicevox_request"
                                   [("payload",
                                     VObj [("endpoint", VStr "/version");
                                           ("method", num 5)])]
                                   "r7")))
             initial))
  = [(0%nat,
      VObj [("type", VStr "error");
            ("error", VStr "VOICEVOX APIエラー: Cannot read properties of method.toUpperCase");
            ("details", VUndefined);
            ("requestId", VStr "r7")])].
Proof.
  exact (f_equal sent
    (passthrough_rejects_method sample_runtime backend_up 0%nat
       (request_of "voicevox_request"
          [("payload", VObj [("endpoint", VStr "/version");
                             ("method", num 5)])] "r7")
       initial eq_refl eq_refl eq_refl eq_refl eq_refl)).
Defined.

Lemma replies_are_correlated_witness :
  0%nat = 0%nat
  /\ (get (VObj [("type", VStr "pong");
                 ("data", VObj [("timestamp", num 0)]);
                 ("requestId", VStr "r9")]) "requestId"
      = VStr "r9"
      \/ exists error,
           VObj [("type", VStr "pong");
                 ("data", VObj [("timestamp", num 0)]);
                 ("requestId", VStr "r9")]
           = boundary_error error).
Proof.
  exact (replies_are_correlated sample_runtime backends_down 0%nat
           (request_of "ping" [] "r9") initial 0%nat
           (VObj [("type", VStr "pong");
                  ("data", VObj [("timestamp", num 0)]);
                  ("requestId", VStr "r9")])
           eq_refl (or_introl eq_refl)).
Defined.
